(** * Skill validation and packaging: [package_skill.py] and [init_skill.py]

    A shallow embedding of the two scripts of the
    [code-pattern-extraction] skill, and the properties of the
    validation and packaging pipeline that follow from it.

    Modelling conventions.
    - Python [str] is [string]: a sequence of code points below 256, so
      [len], slicing, [startswith], [in] and [lower] are exact on it.
    - A value decoded from the YAML header is a [py_value]; Python's
      dynamic typing shows up as [Raise TypeError] / [Raise AttributeError].
    - [yaml.safe_load], the builtin [str] and [str.title] are library
      code: they are Section variables, and every general theorem holds
      for all of them.
    - The file system is a tree of [node]s addressed by absolute paths
      (lists of segments); a resolved [Path] is such a list. *)

From Stdlib Require Import String Ascii List Bool Arith ZArith Lia.
From Stdlib Require Import DecimalString Decimal.
Import ListNotations.
Open Scope string_scope.
Open Scope list_scope.
Open Scope nat_scope.
Set Warnings "-register-all".

(** ** Python strings *)

Module PyStr.

Definition nl : string := String "010"%char EmptyString.
Definition dquote : string := String "034"%char EmptyString.

(** [s[n:]] *)
Fixpoint slice_from (n : nat) (s : string) : string :=
  match n, s with
  | O, _ => s
  | S _, EmptyString => EmptyString
  | S n', String _ s' => slice_from n' s'
  end.

(** [s[a:b]], for [a <= b] *)
Definition slice (a b : nat) (s : string) : string :=
  String.substring a (b - a) s.

Definition startswith (s p : string) : bool := String.prefix p s.

(** [needle in hay] *)
Fixpoint contains (needle hay : string) : bool :=
  String.prefix needle hay ||
  match hay with
  | EmptyString => false
  | String _ hay' => contains needle hay'
  end.

(** [str.lower] on one code point below 256: [A-Z] and the Latin-1
    capitals U+00C0..U+00DE (U+00D7, the multiplication sign, apart). *)
Definition lower_char (c : ascii) : ascii :=
  let n := nat_of_ascii c in
  if ((65 <=? n) && (n <=? 90)) ||
     ((192 <=? n) && (n <=? 222) && negb (n =? 215))
  then ascii_of_nat (n + 32) else c.

Fixpoint lower (s : string) : string :=
  match s with
  | EmptyString => EmptyString
  | String c s' => String (lower_char c) (lower s')
  end.

(** [len(s.split('\n'))]: one more than the number of newlines. *)
Fixpoint count_lines (s : string) : nat :=
  match s with
  | EmptyString => 1
  | String c s' => if Ascii.eqb c "010"%char then S (count_lines s') else count_lines s'
  end.

(** Whitespace as [\s] and [str.isspace] see it below 256. *)
Definition is_space (c : ascii) : bool :=
  let n := nat_of_ascii c in
  ((9 <=? n) && (n <=? 13)) || ((28 <=? n) && (n <=? 32)) ||
  (n =? 133) || (n =? 160).

(** [str(n)] for a non-negative integer. *)
Definition of_nat (n : nat) : string := NilEmpty.string_of_uint (Nat.to_uint n).

(** Every character of [s] satisfies [f]. *)
Fixpoint all_chars (f : ascii -> bool) (s : string) : bool :=
  match s with
  | EmptyString => true
  | String c s' => f c && all_chars f s'
  end.

(** ["".join(l)] *)
Fixpoint flatten (l : list string) : string :=
  match l with
  | [] => ""
  | x :: l' => x ++ flatten l'
  end.

(** ["sep".join(l)] *)
Fixpoint join (sep : string) (l : list string) : string :=
  match l with
  | [] => ""
  | [x] => x
  | x :: l' => x ++ sep ++ join sep l'
  end.

End PyStr.

(** ** Regular expressions, as far as the two patterns of the source need *)

Module Re.

Inductive regex : Type :=
| Void : regex
| Eps : regex
| Cls (f : ascii -> bool) : regex
| Seq (r1 r2 : regex) : regex
| Alt (r1 r2 : regex) : regex
| Star (r : regex) : regex.

Definition Plus (r : regex) : regex := Seq r (Star r).
Definition Chr (c : ascii) : regex := Cls (Ascii.eqb c).

Fixpoint nullable (r : regex) : bool :=
  match r with
  | Void => false
  | Eps => true
  | Cls _ => false
  | Seq r1 r2 => nullable r1 && nullable r2
  | Alt r1 r2 => nullable r1 || nullable r2
  | Star _ => true
  end.

(** Brzozowski derivative. *)
Fixpoint deriv (c : ascii) (r : regex) : regex :=
  match r with
  | Void => Void
  | Eps => Void
  | Cls f => if f c then Eps else Void
  | Seq r1 r2 =>
      if nullable r1 then Alt (Seq (deriv c r1) r2) (deriv c r2)
      else Seq (deriv c r1) r2
  | Alt r1 r2 => Alt (deriv c r1) (deriv c r2)
  | Star r1 => Seq (deriv c r1) (Star r1)
  end.

(** The whole of [s] is in the language of [r]. *)
Fixpoint fullmatch (r : regex) (s : string) : bool :=
  match s with
  | EmptyString => nullable r
  | String c s' => fullmatch (deriv c r) s'
  end.

(** [s] without its last character when that is a newline. *)
Fixpoint strip_final_newline (s : string) : option string :=
  match s with
  | EmptyString => None
  | String c EmptyString => if Ascii.eqb c "010"%char then Some EmptyString else None
  | String c s' =>
      match strip_final_newline s' with
      | Some t => Some (String c t)
      | None => None
      end
  end.

(** [re.match(r'^R$', s)] without flags, as a boolean: [^] is the start
    of the string, and [$] is the end of the string or the position
    just before a newline that ends the string. *)
Definition match_anchored (r : regex) (s : string) : bool :=
  fullmatch r s ||
  match strip_final_newline s with
  | Some t => fullmatch r t
  | None => false
  end.

(** [[a-z0-9]] *)
Definition lower_alnum (c : ascii) : bool :=
  let n := nat_of_ascii c in
  ((97 <=? n) && (n <=? 122)) || ((48 <=? n) && (n <=? 57)).

(** [[a-z0-9]+(-[a-z0-9]+)*] *)
Definition NAME_RE : regex :=
  Seq (Plus (Cls lower_alnum)) (Star (Seq (Chr "-"%char) (Plus (Cls lower_alnum)))).

(** [\n---\s*\n] *)
Definition CLOSE_RE : regex :=
  Seq (Chr "010"%char)
    (Seq (Chr "-"%char) (Seq (Chr "-"%char) (Seq (Chr "-"%char)
      (Seq (Star (Cls PyStr.is_space)) (Chr "010"%char))))).

(** No string at all is in the language of [r]. *)
Fixpoint dead (r : regex) : bool :=
  match r with
  | Void => true
  | Eps => false
  | Cls _ => false
  | Seq r1 r2 => dead r1 || dead r2
  | Alt r1 r2 => dead r1 && dead r2
  | Star _ => false
  end.

(** Some prefix of [s] is in the language of [r]; the scan stops as
    soon as nothing can match any more. *)
Fixpoint matches_prefix (r : regex) (s : string) : bool :=
  if dead r then false
  else nullable r ||
       match s with
       | EmptyString => false
       | String c s' => matches_prefix (deriv c r) s'
       end.

(** [re.search(r, s)]: [Some] of [m.start()] for the leftmost match,
    [None] when there is none. [i] is the offset of [s] in the string
    searched. *)
Fixpoint search_from (i : nat) (r : regex) (s : string) : option nat :=
  if matches_prefix r s then Some i
  else match s with
       | EmptyString => None
       | String _ s' => search_from (S i) r s'
       end.

Definition search (r : regex) (s : string) : option nat := search_from 0 r s.

(** The language of a regular expression: what the matcher above is
    measured against. *)
Inductive lang : regex -> string -> Prop :=
| lang_eps : lang Eps ""
| lang_cls (f : ascii -> bool) (c : ascii) : f c = true -> lang (Cls f) (String c "")
| lang_seq (r1 r2 : regex) (s1 s2 : string) :
    lang r1 s1 -> lang r2 s2 -> lang (Seq r1 r2) (s1 ++ s2)
| lang_alt_l (r1 r2 : regex) (s : string) : lang r1 s -> lang (Alt r1 r2) s
| lang_alt_r (r1 r2 : regex) (s : string) : lang r2 s -> lang (Alt r1 r2) s
| lang_star_nil (r : regex) : lang (Star r) ""
| lang_star_cons (r : regex) (s1 s2 : string) :
    lang r s1 -> lang (Star r) s2 -> lang (Star r) (s1 ++ s2).

(** [s] starts with a string of the language of [r]. *)
Definition has_prefix_in (r : regex) (s : string) : Prop :=
  exists p t, s = (p ++ t)%string /\ lang r p.

(** A string of the language of [r] occurs somewhere in [s]. *)
Definition occurs_in (r : regex) (s : string) : Prop :=
  exists before p after, s = (before ++ p ++ after)%string /\ lang r p.

End Re.

(** ** Values, exceptions, findings *)

(** What [yaml.safe_load] can hand back, as far as the validators look
    at it: null, booleans, integers, strings, sequences and mappings.
    (Floats and timestamps are left out: the validators treat them as
    they treat integers.) A mapping keeps its pairs in order. *)
Inductive py_value : Type :=
| PyNone : py_value
| PyBool (b : bool) : py_value
| PyInt (z : Z) : py_value
| PyStr (s : string) : py_value
| PyList (items : list py_value) : py_value
| PyDict (items : list (py_value * py_value)) : py_value.

(** The exceptions that can escape the scripts. [OSError] stands for its
    subclasses ([IsADirectoryError], [FileExistsError], ...). *)
Inductive exn : Type :=
| TypeError
| AttributeError
| ValueError
| OSError
| YAMLError (e : string).

Inductive result (A : Type) : Type :=
| Ok (a : A)
| Raise (e : exn).
Arguments Ok {A} a.
Arguments Raise {A} e.

Definition bind {A B : Type} (m : result A) (k : A -> result B) : result B :=
  match m with
  | Ok a => k a
  | Raise e => Raise e
  end.

Notation "x <- m ;; k" := (bind m (fun x => k))
  (at level 61, m at next level, right associativity).

Inductive severity_t : Type := error | warning.

(** [class ValidationError] *)
Record ValidationError : Type := mkVE {
  message : string;
  severity : severity_t
}.

Definition severity_eqb (a b : severity_t) : bool :=
  match a, b with
  | error, error | warning, warning => true
  | _, _ => false
  end.

Definition VE_eqb (a b : ValidationError) : bool :=
  String.eqb (message a) (message b) && severity_eqb (severity a) (severity b).

(** How often finding [v] occurs in [l]. *)
Definition occurrences (v : ValidationError) (l : list ValidationError) : nat :=
  length (filter (VE_eqb v) l).

(** Python truthiness: [not v] is [negb (truthy v)]. *)
Definition truthy (v : py_value) : bool :=
  match v with
  | PyNone => false
  | PyBool b => b
  | PyInt z => negb (Z.eqb z 0)
  | PyStr s => negb (String.eqb s "")
  | PyList l => negb (length l =? 0)
  | PyDict d => negb (length d =? 0)
  end.

(** [len(v)] *)
Definition py_len (v : py_value) : result nat :=
  match v with
  | PyStr s => Ok (String.length s)
  | PyList l => Ok (length l)
  | PyDict d => Ok (length d)
  | _ => Raise TypeError
  end.

(** [d.get(k)] for a string key [k]: only a string key can equal it. *)
Fixpoint dict_get (k : string) (d : list (py_value * py_value)) : option py_value :=
  match d with
  | [] => None
  | (PyStr k', v) :: d' => if String.eqb k k' then Some v else dict_get k d'
  | _ :: d' => dict_get k d'
  end.

(** [d.get(k, default)] *)
Definition dict_get_default (k : string) (default : py_value)
    (d : list (py_value * py_value)) : py_value :=
  match dict_get k d with
  | Some v => v
  | None => default
  end.

(** [re.match(r'^[a-z0-9]+(-[a-z0-9]+)*$', name)], as a boolean; a
    non-string argument is a [TypeError]. *)
Definition re_match_name (name : py_value) : result bool :=
  match name with
  | PyStr s => Ok (Re.match_anchored Re.NAME_RE s)
  | _ => Raise TypeError
  end.

(** [description.lower()]: only [str] has the method. *)
Definition py_lower (v : py_value) : result string :=
  match v with
  | PyStr s => Ok (PyStr.lower s)
  | _ => Raise AttributeError
  end.

(** [name != directory_name] *)
Definition py_ne_str (v : py_value) (s : string) : bool :=
  match v with
  | PyStr s' => negb (String.eqb s' s)
  | _ => true
  end.

(** ** The messages of [package_skill.py] *)

Module Msg.
Definition name_required := mkVE "name field is required" error.
Definition name_too_long (n : nat) :=
  mkVE ("name must be 64 characters or less (got " ++ PyStr.of_nat n ++ ")") error.
Definition name_grammar :=
  mkVE ("name must be lowercase letters, numbers, and hyphens only. " ++
        "Cannot start/end with hyphen or have consecutive hyphens.") error.
Definition name_mismatch (name directory_name : string) :=
  mkVE ("name '" ++ name ++ "' must match directory name '" ++ directory_name ++ "'") error.

Definition description_required := mkVE "description field is required" error.
Definition description_too_long (n : nat) :=
  mkVE ("description must be 1024 characters or less (got " ++ PyStr.of_nat n ++ ")") error.
Definition description_short :=
  mkVE "description is very short. Include both WHAT the skill does and WHEN to use it."
       warning.
Definition description_todo := mkVE "description contains TODO placeholder" error.
Definition description_when :=
  mkVE "description should explain WHEN to use the skill (e.g., 'Use when...')" warning.

Definition frontmatter_start := mkVE "SKILL.md must start with YAML frontmatter (---)" error.
Definition frontmatter_unclosed := mkVE "SKILL.md frontmatter must be closed with ---" error.
Definition frontmatter_not_dict := mkVE "Frontmatter must be a YAML dictionary" error.
Definition frontmatter_invalid (e : string) :=
  mkVE ("Invalid YAML in frontmatter: " ++ e) error.
Definition compatibility_too_long (n : nat) :=
  mkVE ("compatibility must be 500 characters or less (got " ++ PyStr.of_nat n ++ ")") error.

Definition skill_md_required := mkVE "SKILL.md file is required" error.
Definition too_many_lines (n : nat) :=
  mkVE ("SKILL.md should be under 500 lines (got " ++ PyStr.of_nat n ++ "). " ++
        "Consider moving content to references/") warning.
Definition body_todo :=
  mkVE "SKILL.md contains TODO placeholders that should be filled in" warning.

Definition disallowed_file (filename : string) :=
  mkVE ("'" ++ filename ++ "' should not be included in a skill. " ++
        "All documentation should be in SKILL.md or references/") error.
Definition not_a_directory (dirname : string) :=
  mkVE ("'" ++ dirname ++ "' must be a directory, not a file") error.
Definition not_executable (script_name script : string) :=
  mkVE ("Script '" ++ script_name ++ "' is not executable. Run: chmod +x " ++ script) warning.

Definition path_missing (p : string) := mkVE ("Skill path does not exist: " ++ p) error.
Definition path_not_dir (p : string) := mkVE ("Skill path must be a directory: " ++ p) error.
End Msg.

(** ** The file system *)

(** A regular file with its text and whether [os.access(_, os.X_OK)]
    holds, or a directory with its entries (and the same flag). *)
Inductive node : Type :=
| File (content : string) (x_ok : bool) : node
| Dir (entries : list (string * node)) (x_ok : bool) : node.

(** A resolved absolute path: the segments below the root. *)
Definition path : Type := list string.

Module Path.

(** [p.parts] *)
Definition parts (p : path) : list string := "/" :: p.

(** [p.name] *)
Definition name (p : path) : string := last p "".

(** [p.parent] *)
Definition parent (p : path) : path := removelast p.

(** [p.relative_to(base)], for a [base] that [p] starts with. *)
Definition relative_to (p base : path) : path := skipn (length base) p.

(** [str(p)] *)
Definition to_str (p : path) : string := "/" ++ PyStr.join "/" p.

Fixpoint assoc (k : string) (es : list (string * node)) : option node :=
  match es with
  | [] => None
  | (k', n) :: es' => if String.eqb k k' then Some n else assoc k es'
  end.

(** The node a path leads to from [n], if any. *)
Fixpoint lookup (n : node) (p : path) : option node :=
  match p with
  | [] => Some n
  | seg :: p' =>
      match n with
      | Dir es _ =>
          match assoc seg es with
          | Some child => lookup child p'
          | None => None
          end
      | File _ _ => None
      end
  end.

Definition exists_ (fs : node) (p : path) : bool :=
  match lookup fs p with Some _ => true | None => false end.

Definition is_dir (fs : node) (p : path) : bool :=
  match lookup fs p with Some (Dir _ _) => true | _ => false end.

Definition is_file (n : node) : bool :=
  match n with File _ _ => true | Dir _ _ => false end.

(** [os.access(p, os.X_OK)] *)
Definition access_x (n : node) : bool :=
  match n with File _ x => x | Dir _ x => x end.

(** [p.read_text()] *)
Definition read_text (n : node) : result string :=
  match n with
  | File c _ => Ok c
  | Dir _ _ => Raise OSError
  end.

(** [p.rglob('*')] below a node: every descendant, as its path
    relative to the node, with the node it names. *)
Fixpoint rglob (n : node) : list (path * node) :=
  match n with
  | File _ _ => []
  | Dir es _ =>
      (fix walk (es : list (string * node)) : list (path * node) :=
         match es with
         | [] => []
         | (seg, child) :: es' =>
             ([seg], child)
               :: map (fun pn => (seg :: fst pn, snd pn)) (rglob child)
               ++ walk es'
         end) es
  end.

(** [p.glob('*.py')]: the entries of a directory whose name ends in
    [.py]; nothing for a path that is not a directory. *)
Definition endswith (s suffix : string) : bool :=
  let n := String.length s in
  let m := String.length suffix in
  (m <=? n) && String.eqb (PyStr.slice_from (n - m) s) suffix.

Definition glob_py (n : node) : list (string * node) :=
  match n with
  | Dir es _ => filter (fun e => endswith (fst e) ".py") es
  | File _ _ => []
  end.

End Path.

(** ** [package_skill.py] *)

Section PackageSkill.

(** [yaml.safe_load]: the decoded value, or the exception it raises
    ([YAMLError] for undecodable text). *)
Variable safe_load : string -> result py_value.

(** The builtin [str] on values that are not strings. *)
Variable py_str : py_value -> string.

(** [str(v)], and [{v}] in an f-string. *)
Definition str_of (v : py_value) : string :=
  match v with
  | PyStr s => s
  | _ => py_str v
  end.

Definition validate_skill_name (name : py_value) (directory_name : string)
  : result (list ValidationError) :=
  let errors := [] in
  if negb (truthy name) then
    Ok (errors ++ [Msg.name_required])
  else
    n <- py_len name ;;
    let errors := if 64 <? n then errors ++ [Msg.name_too_long n] else errors in
    m <- re_match_name name ;;
    let errors := if negb m then errors ++ [Msg.name_grammar] else errors in
    let errors :=
      if py_ne_str name directory_name
      then errors ++ [Msg.name_mismatch (str_of name) directory_name]
      else errors in
    Ok errors.

Definition when_indicators : list string :=
  ["use when"; "use for"; "when the user"; "when you need"; "triggers when"].

Definition validate_description (description : py_value)
  : result (list ValidationError) :=
  let errors := [] in
  if negb (truthy description) then
    Ok (errors ++ [Msg.description_required])
  else
    n <- py_len description ;;
    let errors := if 1024 <? n then errors ++ [Msg.description_too_long n] else errors in
    desc_lower <- py_lower description ;;
    let errors := if n <? 50 then errors ++ [Msg.description_short] else errors in
    let errors :=
      if PyStr.contains "todo" desc_lower
      then errors ++ [Msg.description_todo] else errors in
    let has_when :=
      existsb (fun indicator => PyStr.contains indicator desc_lower) when_indicators in
    let errors := if negb has_when then errors ++ [Msg.description_when] else errors in
    Ok errors.

(** Lines 117-129 of [validate_frontmatter]: the checks on the decoded
    mapping. *)
Definition validate_fields (frontmatter : list (py_value * py_value))
    (directory_name : string) : result (list ValidationError) :=
  let errors := [] in
  name_errors <-
    validate_skill_name (dict_get_default "name" (PyStr "") frontmatter) directory_name ;;
  let errors := errors ++ name_errors in
  description_errors <-
    validate_description (dict_get_default "description" (PyStr "") frontmatter) ;;
  let errors := errors ++ description_errors in
  let errors :=
    match dict_get "compatibility" frontmatter with
    | Some compat =>
        let n := String.length (str_of compat) in
        if 500 <? n then errors ++ [Msg.compatibility_too_long n] else errors
    | None => errors
    end in
  Ok errors.

Definition validate_frontmatter (content directory_name : string)
  : result (list (py_value * py_value) * list ValidationError) :=
  let errors := [] in
  if negb (PyStr.startswith content "---") then
    Ok ([], errors ++ [Msg.frontmatter_start])
  else
    match Re.search Re.CLOSE_RE (PyStr.slice_from 3 content) with
    | None => Ok ([], errors ++ [Msg.frontmatter_unclosed])
    | Some start =>
        let frontmatter_text := PyStr.slice 3 (start + 3) content in
        match safe_load frontmatter_text with
        | Ok (PyDict frontmatter) =>
            field_errors <- validate_fields frontmatter directory_name ;;
            Ok (frontmatter, errors ++ field_errors)
        | Ok _ => Ok ([], errors ++ [Msg.frontmatter_not_dict])
        | Raise (YAMLError e) => Ok ([], errors ++ [Msg.frontmatter_invalid e])
        | Raise other => Raise other
        end
    end.

Definition validate_skill_md (fs : node) (skill_path : path)
  : result (list ValidationError) :=
  let errors := [] in
  let skill_md := skill_path ++ ["SKILL.md"] in
  match Path.lookup fs skill_md with
  | None => Ok (errors ++ [Msg.skill_md_required])
  | Some md =>
      content <- Path.read_text md ;;
      let directory_name := Path.name skill_path in
      fm <- validate_frontmatter content directory_name ;;
      let errors := errors ++ snd fm in
      let lines := PyStr.count_lines content in
      let errors := if 500 <? lines then errors ++ [Msg.too_many_lines lines] else errors in
      let errors :=
        if PyStr.contains "<!-- TODO" content || PyStr.contains "# TODO" content
        then errors ++ [Msg.body_todo] else errors in
      Ok errors
  end.

Definition disallowed : list string :=
  ["README.md"; "CHANGELOG.md"; "INSTALLATION_GUIDE.md"; "QUICK_REFERENCE.md"].

Definition resource_dirs : list string := ["scripts"; "references"; "assets"].

Definition validate_structure (fs : node) (skill_path : path) : list ValidationError :=
  let errors := [] in
  let errors :=
    fold_left (fun errors filename =>
      if Path.exists_ fs (skill_path ++ [filename])
      then errors ++ [Msg.disallowed_file filename] else errors)
      disallowed errors in
  let errors :=
    fold_left (fun errors dirname =>
      let dir_path := skill_path ++ [dirname] in
      if Path.exists_ fs dir_path && negb (Path.is_dir fs dir_path)
      then errors ++ [Msg.not_a_directory dirname] else errors)
      resource_dirs errors in
  let scripts_dir := skill_path ++ ["scripts"] in
  match Path.lookup fs scripts_dir with
  | Some scripts =>
      fold_left (fun errors script =>
        if negb (Path.access_x (snd script))
        then errors ++ [Msg.not_executable (fst script)
                          (Path.to_str (scripts_dir ++ [fst script]))]
        else errors)
        (Path.glob_py scripts) errors
  | None => errors
  end.

Definition validate_skill (fs : node) (skill_path : path)
  : result (list ValidationError) :=
  let errors := [] in
  if negb (Path.exists_ fs skill_path) then
    Ok (errors ++ [Msg.path_missing (Path.to_str skill_path)])
  else if negb (Path.is_dir fs skill_path) then
    Ok (errors ++ [Msg.path_not_dir (Path.to_str skill_path)])
  else
    md_errors <- validate_skill_md fs skill_path ;;
    let errors := errors ++ md_errors in
    let errors := errors ++ validate_structure fs skill_path in
    Ok errors.

(** *** The archiver *)

(** A member of the archive: the [arcname] given to [zf.write] and the
    text of the file. *)
Definition member : Type := (path * string)%type.

(** [part.startswith('.') or part == '__pycache__'] *)
Definition skipped_part (part : string) : bool :=
  PyStr.startswith part "." || String.eqb part "__pycache__".

(** [file_path.relative_to(skill_path.parent)] for a file at [rel]
    below [skill_path]. *)
Definition arcname (skill_path rel : path) : path :=
  Path.relative_to (skill_path ++ rel) (Path.parent skill_path).

(** [output_dir.mkdir(parents=True, exist_ok=True)]: fails when the
    path or one of its ancestors is a regular file. *)
Fixpoint mkdir_parents (n : node) (p : path) : result unit :=
  match n with
  | File _ _ => Raise OSError
  | Dir es _ =>
      match p with
      | [] => Ok tt
      | seg :: p' =>
          match Path.assoc seg es with
          | Some child => mkdir_parents child p'
          | None => Ok tt
          end
      end
  end.

(** The body of the [with zipfile.ZipFile(...)] block: the members
    written, in the order of the walk. *)
Definition archive_members (fs : node) (skill_path : path) : list member :=
  match Path.lookup fs skill_path with
  | None => []
  | Some root =>
      flat_map (fun entry =>
        let file_path := skill_path ++ fst entry in
        match snd entry with
        | File content _ =>
            if existsb skipped_part (Path.parts file_path) then []
            else [(arcname skill_path (fst entry), content)]
        | Dir _ _ => []
        end) (Path.rglob root)
  end.

(** [zipfile.ZipFile(output_file, 'w', ...)]: the file cannot be opened
    for writing where a directory has its name. *)
Definition open_for_writing (fs : node) (p : path) : result unit :=
  if Path.is_dir fs p then Raise OSError else Ok tt.

(** [package_skill]: the path of the archive and its members. The
    output directory is taken to lie outside the skill directory. *)
Definition package_skill (fs : node) (skill_path output_dir : path)
  : result (path * list member) :=
  let skill_name := Path.name skill_path in
  let output_file := output_dir ++ [(skill_name ++ ".skill")%string] in
  _ <- mkdir_parents fs output_dir ;;
  _ <- open_for_writing fs output_file ;;
  Ok (output_file, archive_members fs skill_path).

(** *** The command line *)

Record args : Type := mkArgs {
  skill_path : path;       (* [Path(args.skill_path).resolve()] *)
  output_dir : path;       (* [Path(args.output_dir).resolve()] *)
  validate_only : bool
}.

(** What a run leaves behind: the exit status of the process, the
    findings when validation returned them, and the archive when one
    was written. *)
Record outcome : Type := mkOutcome {
  exit_status : nat;
  findings : option (list ValidationError);
  archive : option (path * list member)
}.

Definition is_error (e : ValidationError) : bool := severity_eqb (severity e) error.
Definition is_warning (e : ValidationError) : bool := severity_eqb (severity e) warning.

(** [main]; an exception that nothing catches ends the process with
    status 1. *)
Definition main (fs : node) (a : args) : outcome :=
  match validate_skill fs (skill_path a) with
  | Raise _ => mkOutcome 1 None None
  | Ok errors =>
      let critical_errors := filter is_error errors in
      let warnings := filter is_warning errors in
      match critical_errors with
      | _ :: _ => mkOutcome 1 (Some errors) None
      | [] =>
          if validate_only a then mkOutcome 0 (Some errors) None
          else
            match package_skill fs (skill_path a) (output_dir a) with
            | Ok output => mkOutcome 0 (Some errors) (Some output)
            | Raise _ => mkOutcome 1 (Some errors) None
            end
      end
  end.

End PackageSkill.

(** ** [init_skill.py] *)

Module InitSkill.

Section Templates.

(** [str.title] *)
Variable py_title : string -> string.

(** [validate_skill_name] of [init_skill.py]: the name, as the command
    line gives it, is a string. *)
Definition validate_skill_name (name : string) : bool * string :=
  if String.eqb name "" then (false, "Name cannot be empty")
  else if 64 <? String.length name then
    (false, ("Name must be 64 characters or less (got "
             ++ PyStr.of_nat (String.length name) ++ ")")%string)
  else if negb (Re.match_anchored Re.NAME_RE name) then
    (false, "Name must be lowercase letters, numbers, and hyphens only. Cannot start/end with hyphen or have consecutive hyphens.")
  else (true, "").

(** [s.replace("-", " ")] *)
Fixpoint replace_hyphens (s : string) : string :=
  match s with
  | EmptyString => EmptyString
  | String c s' =>
      String (if Ascii.eqb c "-"%char then " "%char else c) (replace_hyphens s')
  end.

(** [x in resources] *)
Definition mem (x : string) (resources : list string) : bool :=
  existsb (String.eqb x) resources.

(** The lines of a template, each closed by a newline. *)
Definition unlines (ls : list string) : string :=
  String.concat "" (map (fun l => (l ++ PyStr.nl)%string) ls).

(** The value the template gives the [description] key. *)
Definition template_description : string :=
  "TODO - Describe what this skill does AND when to use it. Include keywords that help agents identify relevant tasks. (Max 1024 characters)".

Definition references_lines : list string :=
  [ "";
    "## References";
    "";
    "For detailed information, see:";
    "- [REFERENCE.md](references/REFERENCE.md) - Detailed technical reference";
    "";
    "<!-- TODO: Add references as needed -->" ].

Definition scripts_lines : list string :=
  [ "";
    "## Scripts";
    "";
    "Available utility scripts:";
    "- `scripts/example.py` - Example script (TODO: replace or remove)";
    "";
    "<!-- TODO: Add script documentation as needed -->" ].

Definition template_head (skill_name : string) : list string :=
  [ "---";
    ("name: " ++ skill_name)%string;
    ("description: " ++ template_description)%string;
    "metadata:";
    "  author: TODO";
    ("  version: " ++ PyStr.dquote ++ "1.0" ++ PyStr.dquote)%string;
    "---";
    "";
    ("# " ++ py_title (replace_hyphens skill_name))%string;
    "";
    "## Problem Statement";
    "";
    "<!-- TODO: What problem does this skill solve? (2-3 sentences) -->";
    "";
    "## When to Use";
    "";
    "- <!-- TODO: Specific scenario where this skill applies -->";
    "- <!-- TODO: Another indicator that this skill is relevant -->";
    "- Keywords: <!-- TODO: terms someone might search for -->";
    "";
    "## Core Concept";
    "";
    ("<!-- TODO: Brief explanation of the skill's essence. Focus on the " ++ PyStr.dquote ++ "why" ++ PyStr.dquote ++ " not just the " ++ PyStr.dquote ++ "what" ++ PyStr.dquote ++ ". (2-3 sentences max) -->")%string;
    "";
    "## Implementation Guide";
    "";
    "### Key Components";
    "";
    "| File/Class | Role |";
    "|------------|------|";
    "| <!-- TODO --> | <!-- TODO --> |";
    "";
    "### Step-by-Step Implementation";
    "";
    "#### Step 1: <!-- TODO -->";
    "";
    "```ruby";
    "# TODO: Add implementation code";
    "```";
    "";
    "### Configuration";
    "";
    "```yaml";
    "# TODO: Add configuration if needed";
    "```" ].

Definition template_tail : list string :=
  [ "## Testing Strategy";
    "";
    "### Unit Tests";
    "";
    "```ruby";
    "# TODO: Add test examples";
    "```";
    "";
    "### Common Test Pitfalls";
    "";
    "- <!-- TODO: What to watch out for -->";
    "";
    "## Common Pitfalls";
    "";
    "1. **<!-- TODO -->**: Description and how to avoid it";
    "";
    "## Debugging Tips";
    "";
    "- <!-- TODO: Add debugging tips -->";
    "";
    "## Related Patterns";
    "";
    "- <!-- TODO: Link to related skills -->" ].

Definition create_skill_md (skill_name : string) (resources : list string) : string :=
  let references_section :=
    if mem "references" resources then unlines references_lines else "" in
  let scripts_section :=
    if mem "scripts" resources then unlines scripts_lines else "" in
  (unlines (template_head skill_name)
     ++ references_section ++ scripts_section ++ PyStr.nl
     ++ unlines template_tail)%string.

Definition reference_template_lines : list string :=
  [ "# Reference";
    "";
    "## Overview";
    "";
    "<!-- TODO: Add detailed reference content here -->";
    "";
    "## Table of Contents";
    "";
    "- [Section 1](#section-1)";
    "- [Section 2](#section-2)";
    "";
    "## Section 1";
    "";
    "<!-- TODO -->";
    "";
    "## Section 2";
    "";
    "<!-- TODO -->" ].

Definition create_reference_template : string := unlines reference_template_lines.

Definition script_template_lines (skill_name : string) : list string :=
  [ "#!/usr/bin/env python3";
    (PyStr.dquote ++ PyStr.dquote ++ PyStr.dquote)%string;
    ("Example script for " ++ skill_name ++ " skill.")%string;
    "";
    "TODO: Replace this with actual script functionality or delete if not needed.";
    (PyStr.dquote ++ PyStr.dquote ++ PyStr.dquote)%string;
    "";
    "import argparse";
    "import sys";
    "";
    "";
    "def main():";
    ("    parser = argparse.ArgumentParser(description=" ++ PyStr.dquote ++ "Example script" ++ PyStr.dquote ++ ")")%string;
    ("    parser.add_argument(" ++ PyStr.dquote ++ "input" ++ PyStr.dquote ++ ", help=" ++ PyStr.dquote ++ "Input file or value" ++ PyStr.dquote ++ ")")%string;
    "    args = parser.parse_args()";
    "";
    "    # TODO: Implement script logic";
    ("    print(f" ++ PyStr.dquote ++ "Processing: {args.input}" ++ PyStr.dquote ++ ")")%string;
    "";
    "";
    ("if __name__ == " ++ PyStr.dquote ++ "__main__" ++ PyStr.dquote ++ ":")%string;
    "    main()" ].

Definition create_script_template (skill_name : string) : string :=
  unlines (script_template_lines skill_name).

(** What [init_skill] leaves in the new skill directory: [SKILL.md] and,
    per resource asked for, its directory with the example file. Files
    written by [write_text] and [touch] are not executable;
    [example.py] is, after [chmod(0o755)]. *)
Definition skill_dir_node (skill_name : string) (resources : list string) : node :=
  Dir ([("SKILL.md", File (create_skill_md skill_name resources) false)]
       ++ (if mem "scripts" resources
           then [("scripts",
                  Dir [("example.py", File (create_script_template skill_name) true)] true)]
           else [])
       ++ (if mem "references" resources
           then [("references",
                  Dir [("REFERENCE.md", File create_reference_template false)] true)]
           else [])
       ++ (if mem "assets" resources
           then [("assets", Dir [(".gitkeep", File "" false)] true)]
           else []))
      true.

Fixpoint replace_entry (seg : string) (new : node) (es : list (string * node))
  : list (string * node) :=
  match es with
  | [] => []
  | (k, n) :: es' =>
      if String.eqb seg k then (k, new) :: es' else (k, n) :: replace_entry seg new es'
  end.

(** The file system with [new] at [p], the directories on the way made
    as [mkdir(parents=True)] makes them. *)
Fixpoint put (n : node) (p : path) (new : node) : result node :=
  match p with
  | [] => Ok new
  | seg :: p' =>
      match n with
      | File _ _ => Raise OSError
      | Dir es x =>
          match Path.assoc seg es with
          | Some child =>
              child' <- put child p' new ;;
              Ok (Dir (replace_entry seg child' es) x)
          | None =>
              child' <- put (Dir [] true) p' new ;;
              Ok (Dir (es ++ [(seg, child')]) x)
          end
      end
  end.

Inductive init_outcome : Type :=
| InitExit (status : nat)
| InitDone (fs' : node).

Definition init_skill (fs : node) (skill_name : string) (output_path : path)
    (resources : list string) : init_outcome :=
  let (valid, _) := validate_skill_name skill_name in
  if negb valid then InitExit 1
  else
    let skill_dir := output_path ++ [skill_name] in
    if Path.exists_ fs skill_dir then InitExit 1
    else
      match put fs skill_dir (skill_dir_node skill_name resources) with
      | Ok fs' => InitDone fs'
      | Raise _ => InitExit 1
      end.

End Templates.

End InitSkill.

(** ** The checks one by one

    Each rule of the Field Validator as a function of its own, and the
    two ways of putting them together: as [package_skill.py] does (an
    empty field ends its validator at once), and with every rule applied
    whatever the others found. *)

Module Rules.

Definition name_required_check (name : string) : list ValidationError :=
  if String.eqb name "" then [Msg.name_required] else [].

Definition name_length_check (name : string) : list ValidationError :=
  if 64 <? String.length name then [Msg.name_too_long (String.length name)] else [].

Definition name_grammar_check (name : string) : list ValidationError :=
  if Re.match_anchored Re.NAME_RE name then [] else [Msg.name_grammar].

Definition name_match_check (name directory_name : string) : list ValidationError :=
  if String.eqb name directory_name then [] else [Msg.name_mismatch name directory_name].

Definition description_required_check (description : string) : list ValidationError :=
  if String.eqb description "" then [Msg.description_required] else [].

Definition description_length_check (description : string) : list ValidationError :=
  if 1024 <? String.length description
  then [Msg.description_too_long (String.length description)] else [].

Definition description_short_check (description : string) : list ValidationError :=
  if String.length description <? 50 then [Msg.description_short] else [].

Definition description_todo_check (description : string) : list ValidationError :=
  if PyStr.contains "todo" (PyStr.lower description) then [Msg.description_todo] else [].

Definition description_when_check (description : string) : list ValidationError :=
  if existsb (fun indicator => PyStr.contains indicator (PyStr.lower description))
       when_indicators
  then [] else [Msg.description_when].

Definition compatibility_check (py_str : py_value -> string)
    (frontmatter : list (py_value * py_value)) : list ValidationError :=
  match dict_get "compatibility" frontmatter with
  | Some compat =>
      if 500 <? String.length (str_of py_str compat)
      then [Msg.compatibility_too_long (String.length (str_of py_str compat))] else []
  | None => []
  end.

(** The name findings: the rules after the first apply to a name that is
    not empty. *)
Definition name_findings (name directory_name : string) : list ValidationError :=
  if String.eqb name "" then [Msg.name_required]
  else name_length_check name ++ name_grammar_check name
       ++ name_match_check name directory_name.

Definition description_findings (description : string) : list ValidationError :=
  if String.eqb description "" then [Msg.description_required]
  else description_length_check description ++ description_short_check description
       ++ description_todo_check description ++ description_when_check description.

(** Every rule applied, none gated on another. *)
Definition name_findings_unconditional (name directory_name : string)
  : list ValidationError :=
  name_required_check name ++ name_length_check name ++ name_grammar_check name
  ++ name_match_check name directory_name.

Definition description_findings_unconditional (description : string)
  : list ValidationError :=
  description_required_check description ++ description_length_check description
  ++ description_short_check description ++ description_todo_check description
  ++ description_when_check description.

(** The identifier grammar in words: one or more segments of lowercase
    letters and digits, none empty, joined by single hyphens. *)
Definition segment (s : string) : Prop :=
  s <> "" /\ PyStr.all_chars Re.lower_alnum s = true.

Definition identifier (name : string) : Prop :=
  exists seg segs,
    segment seg /\ Forall segment segs /\ name = PyStr.join "-" (seg :: segs).

End Rules.

(** The header [validate_frontmatter] decodes from the manifest text,
    when there is one: the text opens with the sentinel, a closing
    sentinel is found, and what lies between decodes to a mapping. *)
Definition decoded_header (safe_load : string -> result py_value) (content : string)
  : option (list (py_value * py_value)) :=
  if PyStr.startswith content "---" then
    match Re.search Re.CLOSE_RE (PyStr.slice_from 3 content) with
    | Some start =>
        match safe_load (PyStr.slice 3 (start + 3) content) with
        | Ok (PyDict frontmatter) => Some frontmatter
        | _ => None
        end
    | None => None
    end
  else None.

(** A closing sentinel line in words: somewhere in [s] a line starts,
    reads [---] and then nothing but whitespace, and is ended by a
    newline. *)
Definition closing_sentinel_in (s : string) : Prop :=
  exists before ws after,
    s = (before ++ PyStr.nl ++ "---" ++ ws ++ PyStr.nl ++ after)%string
    /\ PyStr.all_chars PyStr.is_space ws = true.

(** The two advisories [validate_skill_md] adds on the manifest text. *)
Definition body_warnings (content : string) : list ValidationError :=
  (if 500 <? PyStr.count_lines content
   then [Msg.too_many_lines (PyStr.count_lines content)] else [])
  ++ (if PyStr.contains "<!-- TODO" content || PyStr.contains "# TODO" content
      then [Msg.body_todo] else []).

(** A finding on the name field: the four messages of
    [validate_skill_name], and no other message of the script, start
    with the word [name]. *)
Definition about_name (v : ValidationError) : bool :=
  String.prefix "name " (message v).

(** The report holds a finding of severity [error]. *)
Definition has_fatal (errors : list ValidationError) : Prop :=
  exists e, In e errors /\ severity e = error.

(** ** Further notions on trees, paths and values *)

(** No directory of the tree lists a name twice, as on a real file
    system. *)
Fixpoint well_formed (n : node) : Prop :=
  match n with
  | File _ _ => True
  | Dir es _ =>
      NoDup (map fst es)
      /\ (fix all (es : list (string * node)) : Prop :=
            match es with
            | [] => True
            | (_, child) :: es' => well_formed child /\ all es'
            end) es
  end.

(** [q] is the start of [p]. *)
Fixpoint is_prefix (q p : path) : bool :=
  match q, p with
  | [], _ => true
  | _ :: _, [] => false
  | a :: q', b :: p' => String.eqb a b && is_prefix q' p'
  end.

(** A value on which the field validators raise: Python finds it true
    and it is not a string. *)
Definition crashes (v : py_value) : bool :=
  truthy v && match v with PyStr _ => false | _ => true end.

(** A finding that opens as the line-count warning does; no other
    message of the script starts with these words. *)
Definition about_lines (v : ValidationError) : bool :=
  String.prefix "SKILL.md should" (message v).

(** ** The command line of [init_skill.py] *)

Module InitCli.

(** [s.split(sep)] for a separator of one character: the pieces between
    the separators, empty pieces kept. *)
Fixpoint split (sep : ascii) (s : string) : list string :=
  match s with
  | EmptyString => [""]
  | String c s' =>
      if Ascii.eqb c sep then "" :: split sep s'
      else match split sep s' with
           | piece :: pieces => String c piece :: pieces
           | [] => [String c ""]
           end
  end.

(** [s.lstrip()] *)
Fixpoint lstrip (s : string) : string :=
  match s with
  | EmptyString => ""
  | String c s' => if PyStr.is_space c then lstrip s' else s
  end.

(** [s.rstrip()] *)
Fixpoint rstrip (s : string) : string :=
  match s with
  | EmptyString => ""
  | String c s' =>
      match rstrip s' with
      | EmptyString => if PyStr.is_space c then "" else String c ""
      | t => String c t
      end
  end.

(** [s.strip()] *)
Definition strip (s : string) : string := rstrip (lstrip s).

(** [[r.strip() for r in args.resources.split(",") if r.strip()]] *)
Definition parse_resources (resources : string) : list string :=
  map strip (filter (fun r => negb (String.eqb (strip r) "")) (split ","%char resources)).

(** A resource name as the command line should give it: not empty, no
    comma, no whitespace at either end. *)
Definition clean (r : string) : Prop :=
  r <> "" /\ PyStr.all_chars (fun c => negb (Ascii.eqb c ","%char)) r = true
  /\ strip r = r.

End InitCli.

(** ** Fixtures *)

(** A decoder known on finitely many texts, each with the value
    [yaml.safe_load] gives for it; any other text is refused. *)
Fixpoint loader_of (table : list (string * py_value)) (text : string) : result py_value :=
  match table with
  | [] => Raise (YAMLError "text outside the table")
  | (t, v) :: table' => if String.eqb text t then Ok v else loader_of table' text
  end.

(** A file system with the directory [d] as [/skills/<name>]. *)
Definition skills_fs (name : string) (d : node) : node :=
  Dir [("skills", Dir [(name, d)] true)] true.

(** [/skills/my-skill] holds a [README.md] and no manifest. *)
Definition readme_only_fs : node :=
  skills_fs "my-skill" (Dir [("README.md", File "Notes." false)] true).

(** A manifest whose header is never closed. *)
Definition unclosed_manifest : string :=
  ("---" ++ PyStr.nl ++ "name: my-skill" ++ PyStr.nl
   ++ "description: never closed" ++ PyStr.nl)%string.

Definition unclosed_manifest_fs : node :=
  skills_fs "my-skill"
    (Dir [("SKILL.md", File unclosed_manifest false);
          ("scripts", File "not a directory" false)] true).

(** [/skills/my-skill/SKILL.md] is a directory. *)
Definition manifest_is_dir_fs : node :=
  skills_fs "my-skill" (Dir [("SKILL.md", Dir [] true)] true).

(** Scenario B: the directory [My_Skill], its manifest naming it so. *)
Definition my_skill_manifest : string :=
  ("---" ++ PyStr.nl ++ "name: My_Skill" ++ PyStr.nl ++ "---" ++ PyStr.nl)%string.

Definition my_skill_fs : node :=
  skills_fs "My_Skill" (Dir [("SKILL.md", File my_skill_manifest false)] true).

Definition my_skill_loader : string -> result py_value :=
  loader_of [ ((PyStr.nl ++ "name: My_Skill")%string, PyDict [(PyStr "name", PyStr "My_Skill")]) ].

(** A manifest whose name YAML reads as the integer 123. *)
Definition numeric_name_manifest : string :=
  ("---" ++ PyStr.nl ++ "name: 123" ++ PyStr.nl
   ++ "description: Use when a numeric name reaches the validator." ++ PyStr.nl
   ++ "---" ++ PyStr.nl)%string.

Definition numeric_name_loader : string -> result py_value :=
  loader_of
    [ ((PyStr.nl ++ "name: 123" ++ PyStr.nl
        ++ "description: Use when a numeric name reaches the validator.")%string,
       PyDict [ (PyStr "name", PyInt 123);
                (PyStr "description",
                 PyStr "Use when a numeric name reaches the validator.") ]) ].

(** The header block [create_skill_md] writes for a skill name, as
    [validate_frontmatter] cuts it out, and the mapping it decodes to
    when the name decodes to [name]. *)
Definition generated_header_text (skill_name : string) : string :=
  (PyStr.nl ++ "name: " ++ skill_name ++ PyStr.nl
   ++ "description: " ++ InitSkill.template_description ++ PyStr.nl
   ++ "metadata:" ++ PyStr.nl
   ++ "  author: TODO" ++ PyStr.nl
   ++ "  version: " ++ PyStr.dquote ++ "1.0" ++ PyStr.dquote)%string.

Definition generated_header (name : py_value) : py_value :=
  PyDict [ (PyStr "name", name);
           (PyStr "description", PyStr InitSkill.template_description);
           (PyStr "metadata",
            PyDict [(PyStr "author", PyStr "TODO"); (PyStr "version", PyStr "1.0")]) ].

Definition generated_123_loader : string -> result py_value :=
  loader_of [ (generated_header_text "123", generated_header (PyInt 123)) ].

(** The usage example of [package_skill.py]: a skill below [.claude],
    with a cache directory and a hidden file of its own. *)
Definition claude_skill_dir : node :=
  Dir [ ("SKILL.md", File "manifest" false);
        ("scripts", Dir [ ("run.py", File "print(1)" true);
                          ("__pycache__", Dir [("run.pyc", File "cache" false)] true) ] true);
        (".hidden", File "secret" false) ] true.

Definition claude_fs : node :=
  Dir [("home", Dir [("dev", Dir [(".claude", Dir [("skills",
         Dir [("oauth-injection", claude_skill_dir)] true)] true)] true)] true)] true.

Definition claude_skill_path : path := ["home"; "dev"; ".claude"; "skills"; "oauth-injection"].

(** The same skill directory with no hidden directory above it. *)
Definition plain_fs : node :=
  Dir [("home", Dir [("dev", Dir [("skills",
         Dir [("oauth-injection", claude_skill_dir)] true)] true)] true)] true.

Definition plain_skill_path : path := ["home"; "dev"; "skills"; "oauth-injection"].

(** Scenario A: the directory [my-skill] with a complete manifest. *)
Definition scenario_a_description : string :=
  "Use when X happens, does Y and Z for more than fifty characters of description text.".

Definition scenario_a_header_text : string :=
  (PyStr.nl ++ "name: my-skill" ++ PyStr.nl
   ++ "description: " ++ PyStr.dquote ++ scenario_a_description ++ PyStr.dquote)%string.

Definition scenario_a_manifest : string :=
  ("---" ++ scenario_a_header_text ++ PyStr.nl ++ "---" ++ PyStr.nl
   ++ PyStr.nl ++ "# My Skill" ++ PyStr.nl)%string.

Definition scenario_a_header : py_value :=
  PyDict [ (PyStr "name", PyStr "my-skill");
           (PyStr "description", PyStr scenario_a_description) ].

Definition scenario_a_fs : node :=
  skills_fs "my-skill" (Dir [("SKILL.md", File scenario_a_manifest false)] true).

Definition scenario_a_loader : string -> result py_value :=
  loader_of [ (scenario_a_header_text, scenario_a_header) ].

Definition scenario_a_args : args :=
  mkArgs ["skills"; "my-skill"] ["dist"] false.

(** Descriptions of 49, 50 and 51 characters. *)
Definition description_49 : string := "Use when a description of forty-nine chars is ok.".
Definition description_50 : string := "Use when a description of exactly fifty chars ok..".
Definition description_51 : string := "Use when a description of fifty-one chars is fine..".

(** A header with every field in breach: a name too long, off the
    grammar and unlike the directory; a short description with the
    placeholder and no usage trigger. *)
Definition header_all_findings : list (py_value * py_value) :=
  [ (PyStr "name",
     PyStr "An_Identifier_That_Is_Far_Too_Long_For_The_Sixty_Four_Character_Limit");
    (PyStr "description", PyStr "TODO") ].

(** The skill [init_skill] leaves in [/skills/demo] when asked for
    scripts and assets, with the title left as it is, and the decoder
    on the header it writes. *)
Definition demo_resources : list string := ["scripts"; "assets"].

Definition demo_fs : node :=
  skills_fs "demo" (InitSkill.skill_dir_node (fun s => s) "demo" demo_resources).

Definition demo_loader : string -> result py_value :=
  loader_of [ (generated_header_text "demo", generated_header (PyStr "demo")) ].

Definition demo_args : args := mkArgs ["skills"; "demo"] ["dist"] false.

(** A manifest of 500 lines, each ended by a newline, and no header. *)
Definition five_hundred_lines : list string := repeat "line" 500.

Definition five_hundred_lines_fs : node :=
  skills_fs "long"
    (Dir [("SKILL.md", File (InitSkill.unlines five_hundred_lines) false)] true).

(** * Properties *)

(** ** The matcher against the language of a regular expression *)

Module ReFacts.

Import Re.
#[local] Open Scope string_scope.

(** Splitting an append. *)
Lemma append_nil_inv (s1 s2 : string) : s1 ++ s2 = "" -> s1 = "" /\ s2 = "".
Proof. destruct s1; cbn; [auto | discriminate]. Qed.

Lemma append_cons_inv (s1 s2 : string) (c : ascii) (s : string) :
  s1 ++ s2 = String c s ->
  (s1 = "" /\ s2 = String c s) \/ (exists s1', s1 = String c s1' /\ s = s1' ++ s2).
Proof.
  destruct s1 as [|c1 s1]; cbn; intros H.
  - left. auto.
  - injection H as -> <-. right. eauto.
Qed.

(** Inversion of [lang], one constructor of [regex] at a time. *)
Lemma lang_void_inv (s : string) : ~ lang Void s.
Proof. intros H. inversion H. Qed.

Lemma lang_eps_inv (s : string) : lang Eps s -> s = "".
Proof. intros H. inversion H. reflexivity. Qed.

Lemma lang_cls_inv (f : ascii -> bool) (s : string) :
  lang (Cls f) s -> exists c, s = String c "" /\ f c = true.
Proof. intros H. inversion H; subst. eauto. Qed.

Lemma lang_seq_inv (r1 r2 : regex) (s : string) :
  lang (Seq r1 r2) s -> exists s1 s2, s = s1 ++ s2 /\ lang r1 s1 /\ lang r2 s2.
Proof. intros H. inversion H; subst. eauto. Qed.

Lemma lang_alt_inv (r1 r2 : regex) (s : string) :
  lang (Alt r1 r2) s -> lang r1 s \/ lang r2 s.
Proof. intros H. inversion H; subst; auto. Qed.

(** [nullable] decides membership of the empty string. *)
Lemma nullable_spec (r : regex) : nullable r = true <-> lang r "".
Proof.
  induction r as [ | | f | r1 IH1 r2 IH2 | r1 IH1 r2 IH2 | r IH ]; cbn.
  - split; [discriminate | intros H; destruct (lang_void_inv _ H)].
  - split; [constructor | reflexivity].
  - split; [discriminate|]. intros H. apply lang_cls_inv in H.
    destruct H as [c [H _]]. discriminate H.
  - rewrite andb_true_iff, IH1, IH2. split.
    + intros [H1 H2]. apply (lang_seq _ _ "" "" H1 H2).
    + intros H. apply lang_seq_inv in H. destruct H as [s1 [s2 [Heq [H1 H2]]]].
      symmetry in Heq. apply append_nil_inv in Heq. destruct Heq as [-> ->]. auto.
  - rewrite orb_true_iff, IH1, IH2. split.
    + intros [H|H]; [apply lang_alt_l | apply lang_alt_r]; exact H.
    + apply lang_alt_inv.
  - split; [constructor | reflexivity].
Qed.

(** A non-empty string of a star starts with a non-empty iteration. *)
Lemma star_cons_inv (r : regex) (c : ascii) (s : string) :
  lang (Star r) (String c s) ->
  exists s1 s2, s = s1 ++ s2 /\ lang r (String c s1) /\ lang (Star r) s2.
Proof.
  intros H. remember (Star r) as r' eqn:Hr. remember (String c s) as x eqn:Hx.
  revert Hr Hx.
  induction H as [ | | | | | | r0 s1 s2 H1 _ H2 IH2 ]; intros Hr Hx; try discriminate.
  injection Hr as ->.
  apply append_cons_inv in Hx. destruct Hx as [[-> ->] | [s1' [-> ->]]].
  - apply IH2; reflexivity.
  - exists s1', s2. auto.
Qed.

(** The derivative by [c] is the language of the strings after a
    leading [c]. *)
Lemma deriv_spec (c : ascii) (r : regex) :
  forall s, lang (deriv c r) s <-> lang r (String c s).
Proof.
  induction r as [ | | f | r1 IH1 r2 IH2 | r1 IH1 r2 IH2 | r IH ]; intros s; cbn.
  - split; intros H; destruct (lang_void_inv _ H).
  - split; intros H; [destruct (lang_void_inv _ H)|].
    apply lang_eps_inv in H. discriminate H.
  - split; intros H.
    + destruct (f c) eqn:Hf; [|destruct (lang_void_inv _ H)].
      apply lang_eps_inv in H. subst s. constructor. exact Hf.
    + apply lang_cls_inv in H. destruct H as [c' [Heq Hf]].
      injection Heq as -> ->. rewrite Hf. constructor.
  - assert (Hl : forall t, lang (Seq (deriv c r1) r2) t -> lang (Seq r1 r2) (String c t)).
    { intros t H. apply lang_seq_inv in H. destruct H as [s1 [s2 [-> [H1 H2]]]].
      apply IH1 in H1. apply (lang_seq _ _ _ _ H1 H2). }
    split.
    + destruct (nullable r1) eqn:Hn; [|apply Hl].
      intros H. apply lang_alt_inv in H. destruct H as [H|H]; [apply Hl; exact H|].
      apply IH2 in H. apply nullable_spec in Hn. apply (lang_seq _ _ "" _ Hn H).
    + intros H. apply lang_seq_inv in H. destruct H as [s1 [s2 [Heq [H1 H2]]]].
      symmetry in Heq. apply append_cons_inv in Heq.
      destruct Heq as [[-> ->] | [s1' [-> ->]]].
      * apply nullable_spec in H1. rewrite H1. apply lang_alt_r. apply IH2. exact H2.
      * apply IH1 in H1.
        destruct (nullable r1); [apply lang_alt_l|]; apply lang_seq; assumption.
  - split; intros H; apply lang_alt_inv in H; destruct H as [H|H].
    + apply lang_alt_l. apply IH1. exact H.
    + apply lang_alt_r. apply IH2. exact H.
    + apply lang_alt_l. apply IH1. exact H.
    + apply lang_alt_r. apply IH2. exact H.
  - split.
    + intros H. apply lang_seq_inv in H. destruct H as [s1 [s2 [-> [H1 H2]]]].
      apply IH in H1. apply (lang_star_cons _ _ _ H1 H2).
    + intros H. apply star_cons_inv in H. destruct H as [s1 [s2 [-> [H1 H2]]]].
      apply lang_seq; [apply IH|]; assumption.
Qed.

(** [fullmatch] decides the language. *)
Theorem fullmatch_spec (r : regex) (s : string) : fullmatch r s = true <-> lang r s.
Proof.
  revert r. induction s as [|c s IH]; intros r; cbn.
  - apply nullable_spec.
  - rewrite IH. apply deriv_spec.
Qed.

(** A dead expression has an empty language. *)
Lemma dead_spec (r : regex) : dead r = true -> forall s, ~ lang r s.
Proof.
  induction r as [ | | f | r1 IH1 r2 IH2 | r1 IH1 r2 IH2 | r IH ]; cbn;
    intros Hd s H; try discriminate.
  - exact (lang_void_inv _ H).
  - apply lang_seq_inv in H. destruct H as [s1 [s2 [_ [H1 H2]]]].
    apply orb_true_iff in Hd. destruct Hd as [Hd|Hd].
    + exact (IH1 Hd _ H1).
    + exact (IH2 Hd _ H2).
  - apply andb_true_iff in Hd. destruct Hd as [Hd1 Hd2].
    apply lang_alt_inv in H. destruct H as [H|H].
    + exact (IH1 Hd1 _ H).
    + exact (IH2 Hd2 _ H).
Qed.

(** [matches_prefix] decides whether a prefix is in the language. *)
Theorem matches_prefix_spec (r : regex) (s : string) :
  matches_prefix r s = true <-> has_prefix_in r s.
Proof.
  unfold has_prefix_in. revert r. induction s as [|c s IH]; intros r; cbn.
  - destruct (dead r) eqn:Hd.
    + split; [discriminate|]. intros [p [t [_ H]]]. destruct (dead_spec _ Hd _ H).
    + rewrite orb_false_r, nullable_spec. split.
      * intros H. exists "", "". auto.
      * intros [p [t [Heq H]]]. symmetry in Heq. apply append_nil_inv in Heq.
        destruct Heq as [-> _]. exact H.
  - destruct (dead r) eqn:Hd.
    + split; [discriminate|]. intros [p [t [_ H]]]. destruct (dead_spec _ Hd _ H).
    + rewrite orb_true_iff, nullable_spec, IH. split.
      * intros [H | [p [t [-> H]]]].
        -- exists "", (String c s). auto.
        -- exists (String c p), t. split; [reflexivity|]. apply deriv_spec. exact H.
      * intros [p [t [Heq H]]]. symmetry in Heq. apply append_cons_inv in Heq.
        destruct Heq as [[-> ->] | [p' [-> ->]]].
        -- left. exact H.
        -- right. exists p', t. split; [reflexivity|]. apply deriv_spec. exact H.
Qed.

Lemma append_assoc (s1 s2 s3 : string) : (s1 ++ s2) ++ s3 = s1 ++ (s2 ++ s3).
Proof.
  induction s1 as [|c s1 IH]; cbn; [reflexivity | rewrite IH; reflexivity].
Qed.

Lemma append_nil_r (s : string) : s ++ "" = s.
Proof. induction s as [|c s IH]; cbn; [reflexivity | rewrite IH; reflexivity]. Qed.

Lemma occurs_in_cons (r : regex) (c : ascii) (s : string) :
  occurs_in r (String c s) <-> has_prefix_in r (String c s) \/ occurs_in r s.
Proof.
  unfold occurs_in, has_prefix_in. split.
  - intros [before [p [after [Heq H]]]]. destruct before as [|c' before]; cbn in Heq.
    + left. exists p, after. auto.
    + injection Heq as <- ->. right. exists before, p, after. auto.
  - intros [[p [t [Heq H]]] | [before [p [after [-> H]]]]].
    + exists "", p, t. auto.
    + exists (String c before), p, after. auto.
Qed.

Lemma occurs_in_nil (r : regex) : occurs_in r "" <-> has_prefix_in r "".
Proof.
  unfold occurs_in, has_prefix_in. split.
  - intros [before [p [after [Heq H]]]]. symmetry in Heq.
    apply append_nil_inv in Heq. destruct Heq as [_ Heq].
    apply append_nil_inv in Heq. destruct Heq as [-> _]. exists "", "". auto.
  - intros [p [t [Heq H]]]. exists "", p, t. auto.
Qed.

Lemma search_from_none (r : regex) (s : string) :
  forall i, search_from i r s = None <-> ~ occurs_in r s.
Proof.
  induction s as [|c s IH]; intros i; cbn [search_from].
  - rewrite occurs_in_nil, <- matches_prefix_spec.
    destruct (matches_prefix r "").
    + split; [discriminate|]. intros H. exfalso. apply H. reflexivity.
    + split; [intros _; discriminate | reflexivity].
  - rewrite occurs_in_cons, <- matches_prefix_spec.
    destruct (matches_prefix r (String c s)).
    + split; [discriminate|]. intros H. exfalso. apply H. left. reflexivity.
    + rewrite IH. split.
      * intros H [H'|H']; [discriminate | exact (H H')].
      * intros H H'. apply H. right. exact H'.
Qed.

(** [search] finds nothing exactly when no string of the language
    occurs. *)
Theorem search_none (r : regex) (s : string) :
  search r s = None <-> ~ occurs_in r s.
Proof. apply search_from_none. Qed.

(** The language of a star, and of the shapes the two patterns use. *)
Lemma lang_star_flatten (r : regex) (s : string) :
  lang (Star r) s <-> exists l, Forall (lang r) l /\ s = PyStr.flatten l.
Proof.
  split.
  - intros H. remember (Star r) as r' eqn:Hr. revert Hr.
    induction H as [ | | | | | | r0 s1 s2 H1 _ H2 IH2 ]; intros Hr; try discriminate.
    + exists []. auto.
    + injection Hr as ->. destruct (IH2 eq_refl) as [l [Hl ->]].
      exists (s1 :: l). split; [constructor; assumption | reflexivity].
  - intros [l [Hl ->]]. induction Hl as [|x l Hx _ IH]; cbn.
    + constructor.
    + apply lang_star_cons; assumption.
Qed.

Lemma lang_star_cls (f : ascii -> bool) (s : string) :
  lang (Star (Cls f)) s <-> PyStr.all_chars f s = true.
Proof.
  rewrite lang_star_flatten. split.
  - intros [l [Hl ->]]. induction Hl as [|x l Hx _ IH]; [reflexivity|].
    apply lang_cls_inv in Hx. destruct Hx as [c [-> Hf]]. cbn. rewrite Hf. exact IH.
  - revert s. induction s as [|c s IH]; cbn; intros H.
    + exists []. auto.
    + apply andb_true_iff in H. destruct H as [Hf H]. destruct (IH H) as [l [Hl ->]].
      exists (String c "" :: l). split; [|reflexivity].
      constructor; [constructor; exact Hf | exact Hl].
Qed.

Lemma lang_chr (c : ascii) (s : string) : lang (Chr c) s <-> s = String c "".
Proof.
  unfold Chr. split.
  - intros H. apply lang_cls_inv in H. destruct H as [c' [-> H]].
    apply Ascii.eqb_eq in H. subst. reflexivity.
  - intros ->. constructor. apply Ascii.eqb_refl.
Qed.

Lemma lang_plus_cls (f : ascii -> bool) (s : string) :
  lang (Plus (Cls f)) s <-> s <> "" /\ PyStr.all_chars f s = true.
Proof.
  unfold Plus. split.
  - intros H. apply lang_seq_inv in H. destruct H as [s1 [s2 [-> [H1 H2]]]].
    apply lang_cls_inv in H1. destruct H1 as [c [-> Hf]]. apply lang_star_cls in H2.
    cbn. rewrite Hf, H2. split; [discriminate | reflexivity].
  - intros [Hne H]. destruct s as [|c s]; [congruence|]. cbn in H.
    apply andb_true_iff in H. destruct H as [Hf H].
    apply (lang_seq _ _ (String c "") s).
    + constructor. exact Hf.
    + apply lang_star_cls. exact H.
Qed.

(** The closing pattern: a newline, three hyphens, whitespace, a
    newline. *)
Lemma lang_CLOSE_RE (p : string) :
  lang CLOSE_RE p
  <-> exists ws, p = PyStr.nl ++ "---" ++ ws ++ PyStr.nl /\ PyStr.all_chars PyStr.is_space ws = true.
Proof.
  unfold CLOSE_RE. split.
  - intros H.
    apply lang_seq_inv in H. destruct H as [a1 [p1 [-> [H1 H]]]]. apply lang_chr in H1.
    apply lang_seq_inv in H. destruct H as [a2 [p2 [-> [H2 H]]]]. apply lang_chr in H2.
    apply lang_seq_inv in H. destruct H as [a3 [p3 [-> [H3 H]]]]. apply lang_chr in H3.
    apply lang_seq_inv in H. destruct H as [a4 [p4 [-> [H4 H]]]]. apply lang_chr in H4.
    apply lang_seq_inv in H. destruct H as [ws [p5 [-> [Hws H5]]]]. apply lang_chr in H5.
    apply lang_star_cls in Hws. subst. exists ws. split; [reflexivity | exact Hws].
  - intros [ws [-> Hws]].
    apply (lang_seq _ _ (String "010" "")); [apply lang_chr; reflexivity|].
    apply (lang_seq _ _ (String "-" "")); [apply lang_chr; reflexivity|].
    apply (lang_seq _ _ (String "-" "")); [apply lang_chr; reflexivity|].
    apply (lang_seq _ _ (String "-" "")); [apply lang_chr; reflexivity|].
    apply lang_seq; [apply lang_star_cls; exact Hws | apply lang_chr; reflexivity].
Qed.

(** The search for the closing pattern fails exactly on a text without
    a closing sentinel line. *)
Theorem search_closing_none (s : string) :
  search CLOSE_RE s = None <-> ~ closing_sentinel_in s.
Proof.
  rewrite search_none. unfold occurs_in, closing_sentinel_in. split; intros H H'; apply H.
  - destruct H' as [before [ws [after [-> Hws]]]].
    exists before, (PyStr.nl ++ "---" ++ ws ++ PyStr.nl), after. split.
    + cbn. rewrite append_assoc. reflexivity.
    + apply lang_CLOSE_RE. exists ws. auto.
  - destruct H' as [before [p [after [-> Hp]]]].
    apply lang_CLOSE_RE in Hp. destruct Hp as [ws [-> Hws]].
    exists before, ws, after. split; [|exact Hws].
    cbn. rewrite append_assoc. reflexivity.
Qed.

Lemma join_cons (seg : string) (segs : list string) :
  PyStr.join "-" (seg :: segs) = seg ++ PyStr.flatten (map (String.append "-") segs).
Proof.
  revert seg. induction segs as [|x segs IH]; intros seg.
  - cbn. rewrite append_nil_r. reflexivity.
  - change (PyStr.join "-" (seg :: x :: segs)) with (seg ++ "-" ++ PyStr.join "-" (x :: segs)).
    rewrite IH. reflexivity.
Qed.

Lemma lang_hyphen_segments (s : string) :
  lang (Star (Seq (Chr "-") (Plus (Cls lower_alnum)))) s
  <-> exists segs, Forall Rules.segment segs /\ s = PyStr.flatten (map (String.append "-") segs).
Proof.
  rewrite lang_star_flatten. split.
  - intros [l [Hl ->]]. induction Hl as [|x l Hx _ [segs [Hsegs IH]]].
    + exists []. auto.
    + apply lang_seq_inv in Hx. destruct Hx as [h [seg [-> [Hh Hseg]]]].
      apply lang_chr in Hh. subst h. apply lang_plus_cls in Hseg.
      exists (seg :: segs). split; [constructor; assumption|].
      cbn [PyStr.flatten map]. rewrite IH. reflexivity.
  - intros [segs [Hsegs ->]]. exists (map (String.append "-") segs). split; [|reflexivity].
    induction Hsegs as [|seg segs Hseg _ IH]; cbn; constructor; [|exact IH].
    apply (lang_seq _ _ "-" seg); [apply lang_chr; reflexivity|].
    apply lang_plus_cls. exact Hseg.
Qed.

(** The name pattern and the identifier grammar in words are one
    language. *)
Theorem lang_NAME_RE (name : string) : lang NAME_RE name <-> Rules.identifier name.
Proof.
  unfold NAME_RE, Rules.identifier. split.
  - intros H. apply lang_seq_inv in H. destruct H as [seg [rest [-> [Hseg Hrest]]]].
    apply lang_plus_cls in Hseg. apply lang_hyphen_segments in Hrest.
    destruct Hrest as [segs [Hsegs ->]].
    exists seg, segs. rewrite join_cons. auto.
  - intros [seg [segs [Hseg [Hsegs ->]]]]. rewrite join_cons.
    apply lang_seq; [apply lang_plus_cls; exact Hseg|].
    apply lang_hyphen_segments. exists segs. auto.
Qed.

Theorem fullmatch_NAME_RE (name : string) :
  fullmatch NAME_RE name = true <-> Rules.identifier name.
Proof. rewrite fullmatch_spec. apply lang_NAME_RE. Qed.

(** [strip_final_newline] undoes appending one newline. *)
Lemma strip_final_newline_cons (c c' : ascii) (s : string) :
  strip_final_newline (String c (String c' s))
  = match strip_final_newline (String c' s) with
    | Some t => Some (String c t)
    | None => None
    end.
Proof. reflexivity. Qed.

Lemma strip_final_newline_append (w : string) :
  strip_final_newline (w ++ PyStr.nl) = Some w.
Proof.
  induction w as [|c w IH]; [reflexivity|].
  cbn [String.append]. destruct (w ++ PyStr.nl) as [|c' s] eqn:Hs.
  - apply append_nil_inv in Hs. destruct Hs as [_ Hs]. discriminate Hs.
  - rewrite strip_final_newline_cons, IH. reflexivity.
Qed.

Lemma strip_final_newline_some (s : string) :
  forall w, strip_final_newline s = Some w -> s = w ++ PyStr.nl.
Proof.
  induction s as [|c s IH]; intros w H; [discriminate H|].
  destruct s as [|c' s].
  - cbn in H. destruct (Ascii.eqb c "010") eqn:Hc; [|discriminate H].
    apply Ascii.eqb_eq in Hc. injection H as <-. subst c. reflexivity.
  - rewrite strip_final_newline_cons in H.
    destruct (strip_final_newline (String c' s)) as [t|]; [|discriminate H].
    injection H as <-. rewrite (IH t eq_refl). reflexivity.
Qed.

Lemma strip_final_newline_spec (s w : string) :
  strip_final_newline s = Some w <-> s = w ++ PyStr.nl.
Proof.
  split; [apply strip_final_newline_some|]. intros ->. apply strip_final_newline_append.
Qed.

End ReFacts.

(** ** The field validators on strings *)

Lemma validate_skill_name_str (py_str : py_value -> string) (name directory_name : string) :
  validate_skill_name py_str (PyStr name) directory_name
  = Ok (Rules.name_findings name directory_name).
Proof.
  unfold validate_skill_name, Rules.name_findings, Rules.name_length_check,
    Rules.name_grammar_check, Rules.name_match_check.
  cbn [truthy py_len re_match_name py_ne_str str_of bind].
  destruct (String.eqb name ""); cbn [negb]; [reflexivity|].
  destruct (64 <? String.length name);
    destruct (Re.match_anchored Re.NAME_RE name);
    destruct (String.eqb name directory_name); reflexivity.
Qed.

Lemma validate_description_str (description : string) :
  validate_description (PyStr description)
  = Ok (Rules.description_findings description).
Proof.
  unfold validate_description, Rules.description_findings,
    Rules.description_length_check, Rules.description_short_check,
    Rules.description_todo_check, Rules.description_when_check.
  cbn [truthy py_len py_lower bind].
  destruct (String.eqb description ""); cbn [negb]; [reflexivity|].
  destruct (1024 <? String.length description);
    destruct (String.length description <? 50);
    destruct (PyStr.contains "todo" (PyStr.lower description));
    destruct (existsb _ when_indicators); reflexivity.
Qed.

(** A name that Python finds true and that is not a string stops the
    validator with a [TypeError]: [len] refuses scalars, [re.match]
    refuses sequences and mappings. *)
Lemma validate_skill_name_not_str (py_str : py_value -> string)
    (name : py_value) (directory_name : string) :
  truthy name = true ->
  (forall s, name <> PyStr s) ->
  validate_skill_name py_str name directory_name = Raise TypeError.
Proof.
  intros Ht Hs. unfold validate_skill_name. rewrite Ht. cbn [negb].
  destruct name as [ | b | z | s | items | items ];
    try (exfalso; apply (Hs s); reflexivity); reflexivity.
Qed.

Lemma decoded_header_validate_frontmatter
    (safe_load : string -> result py_value) (py_str : py_value -> string)
    (content directory_name : string) (frontmatter : list (py_value * py_value)) :
  decoded_header safe_load content = Some frontmatter ->
  validate_frontmatter safe_load py_str content directory_name
  = (field_errors <- validate_fields py_str frontmatter directory_name ;;
     Ok (frontmatter, field_errors)).
Proof.
  unfold decoded_header, validate_frontmatter.
  destruct (PyStr.startswith content "---"); [|discriminate].
  destruct (Re.search Re.CLOSE_RE (PyStr.slice_from 3 content)); [|discriminate].
  destruct (safe_load _) as [[]|]; try discriminate.
  intros H. injection H as ->. reflexivity.
Qed.

(** The field findings are the name findings, the description findings
    and the compatibility finding, in this order, when neither
    validator raises. *)
Lemma validate_fields_eq (py_str : py_value -> string)
    (frontmatter : list (py_value * py_value)) (directory_name : string) :
  validate_fields py_str frontmatter directory_name
  = (name_errors <-
       validate_skill_name py_str (dict_get_default "name" (PyStr "") frontmatter)
         directory_name ;;
     description_errors <-
       validate_description (dict_get_default "description" (PyStr "") frontmatter) ;;
     Ok (name_errors ++ description_errors
         ++ Rules.compatibility_check py_str frontmatter)).
Proof.
  unfold validate_fields, Rules.compatibility_check.
  destruct (validate_skill_name _ _ _) as [name_errors|e]; [|reflexivity].
  destruct (validate_description _) as [description_errors|e]; [|reflexivity].
  cbn [bind app].
  destruct (dict_get "compatibility" frontmatter) as [compat|].
  - destruct (500 <? String.length (str_of py_str compat)).
    + rewrite <- app_assoc. reflexivity.
    + rewrite app_nil_r. reflexivity.
  - rewrite app_nil_r. reflexivity.
Qed.

Lemma validate_fields_non_string_name (py_str : py_value -> string)
    (frontmatter : list (py_value * py_value)) (directory_name : string)
    (name : py_value) :
  dict_get "name" frontmatter = Some name ->
  truthy name = true ->
  (forall s, name <> PyStr s) ->
  validate_fields py_str frontmatter directory_name = Raise TypeError.
Proof.
  intros Hget Ht Hs. rewrite validate_fields_eq. unfold dict_get_default.
  rewrite Hget, (validate_skill_name_not_str _ _ _ Ht Hs). reflexivity.
Qed.


(** ** Counting findings *)

Lemma occurrences_app (v : ValidationError) (l1 l2 : list ValidationError) :
  occurrences v (l1 ++ l2) = occurrences v l1 + occurrences v l2.
Proof.
  unfold occurrences. rewrite filter_app, length_app. reflexivity.
Qed.

Lemma occurrences_nil (v : ValidationError) : occurrences v [] = 0.
Proof. reflexivity. Qed.

Lemma occurrences_one (v w : ValidationError) :
  occurrences v [w] = if VE_eqb v w then 1 else 0.
Proof. unfold occurrences. cbn. destruct (VE_eqb v w); reflexivity. Qed.

Lemma VE_eqb_refl (v : ValidationError) : VE_eqb v v = true.
Proof.
  unfold VE_eqb. rewrite String.eqb_refl. destruct (severity v); reflexivity.
Qed.

(** The messages differ before their variable parts begin. *)
Ltac distinct_messages := intros; vm_compute; reflexivity.

Lemma grammar_is_not_too_long n : VE_eqb Msg.name_grammar (Msg.name_too_long n) = false.
Proof. distinct_messages. Qed.

Lemma grammar_is_not_mismatch name dir :
  VE_eqb Msg.name_grammar (Msg.name_mismatch name dir) = false.
Proof. distinct_messages. Qed.

Lemma short_is_not_too_long n :
  VE_eqb Msg.description_short (Msg.description_too_long n) = false.
Proof. distinct_messages. Qed.

Create Rewrite HintDb findings.
#[local] Hint Rewrite occurrences_app occurrences_nil occurrences_one VE_eqb_refl
  grammar_is_not_too_long grammar_is_not_mismatch short_is_not_too_long : findings.

(** ** The name rules *)

Lemma not_identifier (name : string) :
  Re.fullmatch Re.NAME_RE name = false -> ~ Rules.identifier name.
Proof.
  intros H Hid. apply ReFacts.fullmatch_NAME_RE in Hid. congruence.
Qed.

Lemma no_final_newline (name : string) (P : string -> Prop) :
  Re.strip_final_newline name = None ->
  forall w, name = (w ++ PyStr.nl)%string -> P w.
Proof.
  intros H w Hw. apply ReFacts.strip_final_newline_spec in Hw. congruence.
Qed.

(** [re.match] on the name pattern finds a match exactly for an
    identifier and for an identifier followed by one newline. *)
Lemma match_anchored_NAME_RE (name : string) :
  Re.match_anchored Re.NAME_RE name = true
  <-> Rules.identifier name
      \/ exists w, name = (w ++ PyStr.nl)%string /\ Rules.identifier w.
Proof.
  unfold Re.match_anchored. rewrite orb_true_iff, ReFacts.fullmatch_NAME_RE. split.
  - intros [H|H]; [left; exact H|]. right.
    destruct (Re.strip_final_newline name) as [w|] eqn:Hw; [|discriminate H].
    exists w. split.
    + apply ReFacts.strip_final_newline_spec. exact Hw.
    + apply ReFacts.fullmatch_NAME_RE. exact H.
  - intros [H | [w [Hw H]]]; [left; exact H|]. right.
    apply ReFacts.strip_final_newline_spec in Hw. rewrite Hw.
    apply ReFacts.fullmatch_NAME_RE. exact H.
Qed.

(** C5, as amended: a name that is not empty, is not an identifier of
    the grammar, and is not an identifier followed by one newline, gets
    the grammar finding, once, whatever the directory is called. *)
Theorem ungrammatical_name_one_grammar_finding
    (py_str : py_value -> string) (name directory_name : string) :
  name <> "" ->
  ~ Rules.identifier name ->
  (forall w, name = (w ++ PyStr.nl)%string -> ~ Rules.identifier w) ->
  exists errors,
    validate_skill_name py_str (PyStr name) directory_name = Ok errors
    /\ occurrences Msg.name_grammar errors = 1.
Proof.
  intros Hne Hg Hnl.
  assert (Hm : Re.match_anchored Re.NAME_RE name = false).
  { destruct (Re.match_anchored Re.NAME_RE name) eqn:Hm; [|reflexivity].
    apply match_anchored_NAME_RE in Hm. destruct Hm as [H | [w [Hw H]]].
    - destruct (Hg H).
    - destruct (Hnl w Hw H). }
  exists (Rules.name_findings name directory_name). split.
  - apply validate_skill_name_str.
  - unfold Rules.name_findings, Rules.name_length_check, Rules.name_grammar_check,
      Rules.name_match_check.
    apply String.eqb_neq in Hne. rewrite Hne, Hm.
    destruct (64 <? String.length name); destruct (String.eqb name directory_name);
      autorewrite with findings; reflexivity.
Qed.

(** The names the specification lists: a leading hyphen, consecutive
    hyphens, an uppercase letter. *)
Lemma ungrammatical_name_examples :
  ("-skill" <> "" /\ ~ Rules.identifier "-skill"
   /\ (forall w, "-skill" = (w ++ PyStr.nl)%string -> ~ Rules.identifier w)
   /\ exists errors,
        validate_skill_name (fun _ => "") (PyStr "-skill") "-skill" = Ok errors
        /\ occurrences Msg.name_grammar errors = 1)
  /\ ("my--skill" <> "" /\ ~ Rules.identifier "my--skill"
      /\ (forall w, "my--skill" = (w ++ PyStr.nl)%string -> ~ Rules.identifier w)
      /\ exists errors,
           validate_skill_name (fun _ => "") (PyStr "my--skill") "my-skill" = Ok errors
           /\ occurrences Msg.name_grammar errors = 1)
  /\ ("Skill" <> "" /\ ~ Rules.identifier "Skill"
      /\ (forall w, "Skill" = (w ++ PyStr.nl)%string -> ~ Rules.identifier w)
      /\ exists errors,
           validate_skill_name (fun _ => "") (PyStr "Skill") "Skill" = Ok errors
           /\ occurrences Msg.name_grammar errors = 1).
Proof.
  repeat match goal with |- _ /\ _ => split end;
    first [ discriminate
          | apply not_identifier; reflexivity
          | apply no_final_newline; reflexivity
          | apply ungrammatical_name_one_grammar_finding;
            first [ discriminate
                  | apply not_identifier; reflexivity
                  | apply no_final_newline; reflexivity ] ].
Defined.

(** C5, the empty name: it is not an identifier, and the one finding it
    gets is that the field is required; the grammar rule is not reached. *)
Lemma empty_name_no_grammar_finding :
  ~ Rules.identifier ""
  /\ (forall py_str directory_name,
        validate_skill_name py_str (PyStr "") directory_name = Ok [Msg.name_required])
  /\ occurrences Msg.name_grammar [Msg.name_required] = 0.
Proof.
  split; [apply not_identifier; reflexivity|]. split; reflexivity.
Qed.

(** An identifier followed by one newline is not an identifier, and
    passes [re.match]: [$] also matches before a final newline. *)
Lemma trailing_newline_passes_re_match :
  ~ Rules.identifier ("my-skill" ++ PyStr.nl)
  /\ (forall py_str,
        validate_skill_name py_str (PyStr ("my-skill" ++ PyStr.nl)) "my-skill"
        = Ok [Msg.name_mismatch ("my-skill" ++ PyStr.nl) "my-skill"]).
Proof.
  split; [apply not_identifier; reflexivity|].
  intros py_str. rewrite validate_skill_name_str. reflexivity.
Qed.

(** ** The description rules *)

(** C7, as amended: for a description that is not empty, the
    short-description warning is there, once, when the length is under
    50, and absent from 50 on. *)
Theorem short_description_warning_below_50 (description : string) :
  description <> "" ->
  exists errors,
    validate_description (PyStr description) = Ok errors
    /\ (String.length description < 50 -> occurrences Msg.description_short errors = 1)
    /\ (50 <= String.length description -> occurrences Msg.description_short errors = 0).
Proof.
  intros Hne.
  exists (Rules.description_findings description). split.
  - apply validate_description_str.
  - unfold Rules.description_findings, Rules.description_length_check,
      Rules.description_short_check, Rules.description_todo_check,
      Rules.description_when_check.
    apply String.eqb_neq in Hne. rewrite Hne.
    split; intros Hlen.
    + apply Nat.ltb_lt in Hlen. rewrite Hlen.
      destruct (1024 <? String.length description);
        destruct (PyStr.contains "todo" (PyStr.lower description));
        destruct (existsb _ when_indicators);
        autorewrite with findings; reflexivity.
    + apply Nat.ltb_ge in Hlen. rewrite Hlen.
      destruct (1024 <? String.length description);
        destruct (PyStr.contains "todo" (PyStr.lower description));
        destruct (existsb _ when_indicators);
        autorewrite with findings; reflexivity.
Qed.

Lemma short_description_boundary :
  String.length description_49 = 49
  /\ validate_description (PyStr description_49) = Ok [Msg.description_short]
  /\ String.length description_50 = 50
  /\ validate_description (PyStr description_50) = Ok []
  /\ String.length description_51 = 51
  /\ validate_description (PyStr description_51) = Ok [].
Proof. repeat split. Qed.

Lemma short_description_warning_below_50_witness :
  "Packages skills." <> ""
  /\ exists errors,
       validate_description (PyStr "Packages skills.") = Ok errors
       /\ (String.length "Packages skills." < 50
           -> occurrences Msg.description_short errors = 1)
       /\ (50 <= String.length "Packages skills."
           -> occurrences Msg.description_short errors = 0).
Proof.
  split; [discriminate|].
  apply (short_description_warning_below_50 "Packages skills."). discriminate.
Defined.

(** C7, the empty description: its length is under 50, and the one
    finding is that the field is required; no short-description
    warning. *)
Lemma empty_description_no_short_warning :
  String.length "" < 50
  /\ validate_description (PyStr "") = Ok [Msg.description_required]
  /\ occurrences Msg.description_short [Msg.description_required] = 0.
Proof.
  repeat split. unfold String.length. lia.
Qed.

(** ** The order of the field checks *)

(** C3, as amended: on a decoded header whose name and description are
    strings (an absent key counts as the empty string), the findings are
    the name findings, then the description findings, then the
    compatibility finding. For a field that is not empty every rule of
    the field contributes its finding whatever the other rules found;
    for an empty field the only finding is that it is required
    ([Rules.name_findings], [Rules.description_findings]). *)
Theorem fields_checked_in_order
    (py_str : py_value -> string) (frontmatter : list (py_value * py_value))
    (directory_name name description : string) :
  dict_get_default "name" (PyStr "") frontmatter = PyStr name ->
  dict_get_default "description" (PyStr "") frontmatter = PyStr description ->
  validate_fields py_str frontmatter directory_name
  = Ok (Rules.name_findings name directory_name
        ++ Rules.description_findings description
        ++ Rules.compatibility_check py_str frontmatter).
Proof.
  intros Hn Hd.
  rewrite validate_fields_eq, Hn, Hd, validate_skill_name_str, validate_description_str.
  reflexivity.
Qed.

Lemma fields_checked_in_order_witness :
  dict_get_default "name" (PyStr "") header_all_findings
  = PyStr "An_Identifier_That_Is_Far_Too_Long_For_The_Sixty_Four_Character_Limit"
  /\ dict_get_default "description" (PyStr "") header_all_findings = PyStr "TODO"
  /\ validate_fields (fun _ => "") header_all_findings "my-skill"
     = Ok [ Msg.name_too_long 69; Msg.name_grammar;
            Msg.name_mismatch
              "An_Identifier_That_Is_Far_Too_Long_For_The_Sixty_Four_Character_Limit"
              "my-skill";
            Msg.description_short; Msg.description_todo; Msg.description_when ].
Proof.
  split; [reflexivity|]. split; [reflexivity|].
  rewrite (fields_checked_in_order (fun _ => "") header_all_findings "my-skill"
             "An_Identifier_That_Is_Far_Too_Long_For_The_Sixty_Four_Character_Limit"
             "TODO" eq_refl eq_refl).
  reflexivity.
Defined.

(** C3, the empty fields: with an empty name and an empty description
    the validators stop at the required-field finding; applying every
    rule would add the grammar and directory findings for the name and
    the short-description and usage-trigger warnings for the
    description. *)
Lemma empty_fields_skip_their_checks :
  (forall py_str,
     validate_fields py_str [(PyStr "name", PyStr ""); (PyStr "description", PyStr "")]
       "my-skill"
     = Ok [Msg.name_required; Msg.description_required])
  /\ Rules.name_findings_unconditional "" "my-skill"
     = [Msg.name_required; Msg.name_grammar; Msg.name_mismatch "" "my-skill"]
  /\ Rules.description_findings_unconditional ""
     = [Msg.description_required; Msg.description_short; Msg.description_when].
Proof.
  repeat split.
Qed.

(** ** The manifest and the tree *)

Section Validation.

Variable safe_load : string -> result py_value.
Variable py_str : py_value -> string.

Lemma is_dir_exists (fs : node) (p : path) :
  Path.is_dir fs p = true -> Path.exists_ fs p = true.
Proof.
  unfold Path.is_dir, Path.exists_. destruct (Path.lookup fs p); [reflexivity|discriminate].
Qed.

(** On a directory, the report is the manifest findings followed by the
    tree findings. *)
Lemma validate_skill_on_dir (fs : node) (sp : path) :
  Path.is_dir fs sp = true ->
  validate_skill safe_load py_str fs sp
  = (md_errors <- validate_skill_md safe_load py_str fs sp ;;
     Ok (md_errors ++ validate_structure fs sp)).
Proof.
  intros Hd. unfold validate_skill.
  rewrite (is_dir_exists _ _ Hd), Hd. reflexivity.
Qed.

(** With a manifest file, the manifest findings are the header findings
    followed by the advisories on the text. *)
Lemma validate_skill_md_on_file (fs : node) (sp : path) (content : string) (x : bool) :
  Path.lookup fs (sp ++ ["SKILL.md"]) = Some (File content x) ->
  validate_skill_md safe_load py_str fs sp
  = (fm <- validate_frontmatter safe_load py_str content (Path.name sp) ;;
     Ok (snd fm ++ body_warnings content)).
Proof.
  intros Hmd. unfold validate_skill_md. rewrite Hmd. cbn [Path.read_text bind].
  destruct (validate_frontmatter _ _ _ _) as [fm|e]; [|reflexivity].
  cbn [bind app]. unfold body_warnings.
  destruct (500 <? PyStr.count_lines content);
    destruct (PyStr.contains "<!-- TODO" content || PyStr.contains "# TODO" content);
    cbn [app]; rewrite <- ?app_assoc, ?app_nil_r; reflexivity.
Qed.

(** C2, as amended: without [SKILL.md] the manifest validator reports
    the missing manifest and nothing else, and the report of the run is
    that finding followed by whatever the Tree Validator finds: the tree
    checks are not skipped. *)
Theorem missing_manifest_then_tree_findings (fs : node) (sp : path) :
  Path.is_dir fs sp = true ->
  Path.lookup fs (sp ++ ["SKILL.md"]) = None ->
  validate_skill_md safe_load py_str fs sp = Ok [Msg.skill_md_required]
  /\ validate_skill safe_load py_str fs sp
     = Ok (Msg.skill_md_required :: validate_structure fs sp).
Proof.
  intros Hd Hmd.
  assert (H : validate_skill_md safe_load py_str fs sp = Ok [Msg.skill_md_required]).
  { unfold validate_skill_md. rewrite Hmd. reflexivity. }
  split; [exact H|].
  rewrite (validate_skill_on_dir _ _ Hd), H. reflexivity.
Qed.

(** C6: a manifest that opens with the sentinel and has no closing
    sentinel line after it gets the unclosed-header finding and no field
    finding, and the run goes on: its report is that finding, the
    advisories on the manifest text, and the Tree Validator's findings. *)
Theorem unclosed_header_one_finding
    (fs : node) (sp : path) (content : string) (x : bool) :
  PyStr.startswith content "---" = true ->
  ~ closing_sentinel_in (PyStr.slice_from 3 content) ->
  Path.is_dir fs sp = true ->
  Path.lookup fs (sp ++ ["SKILL.md"]) = Some (File content x) ->
  validate_frontmatter safe_load py_str content (Path.name sp)
  = Ok ([], [Msg.frontmatter_unclosed])
  /\ validate_skill safe_load py_str fs sp
     = Ok (Msg.frontmatter_unclosed :: body_warnings content ++ validate_structure fs sp).
Proof.
  intros Hs Hc Hd Hmd. apply ReFacts.search_closing_none in Hc.
  assert (H : validate_frontmatter safe_load py_str content (Path.name sp)
              = Ok ([], [Msg.frontmatter_unclosed])).
  { unfold validate_frontmatter. rewrite Hs, Hc. reflexivity. }
  split; [exact H|].
  rewrite (validate_skill_on_dir _ _ Hd), (validate_skill_md_on_file _ _ _ _ Hmd), H.
  reflexivity.
Qed.

(** *** The exit status *)

Lemma filter_is_error_nil (errors : list ValidationError) :
  filter is_error errors = [] <-> ~ has_fatal errors.
Proof.
  unfold has_fatal. induction errors as [|e errors IH]; cbn.
  - split; [intros _ [e [[] _]] | reflexivity].
  - unfold is_error at 1. destruct e as [m [|]]; cbn.
    + split; [discriminate|]. intros H. exfalso. apply H.
      exists (mkVE m error). split; [left; reflexivity | reflexivity].
    + rewrite IH. split.
      * intros H [e [[<- | Hin] He]]; [discriminate|].
        apply H. exists e. split; assumption.
      * intros H [e [Hin He]]. apply H. exists e. split; [right; assumption | assumption].
Qed.

(** C8, as amended: the exit status is non-zero exactly when validation
    raises, or returns a fatal finding, or packaging is attempted and
    raises. So when validation returns its findings and packaging is
    skipped or completes, the status is non-zero if and only if there is
    a fatal finding, and warnings alone leave it at zero. *)
Theorem exit_status_nonzero_iff (fs : node) (a : args) :
  exit_status (main safe_load py_str fs a) <> 0
  <-> (exists e, validate_skill safe_load py_str fs (skill_path a) = Raise e)
      \/ (exists errors,
            validate_skill safe_load py_str fs (skill_path a) = Ok errors
            /\ has_fatal errors)
      \/ (validate_only a = false
          /\ exists e, package_skill fs (skill_path a) (output_dir a) = Raise e).
Proof.
  unfold main.
  destruct (validate_skill safe_load py_str fs (skill_path a)) as [errors|e].
  - destruct (filter is_error errors) as [|c cs] eqn:Hf.
    + apply filter_is_error_nil in Hf.
      destruct (validate_only a).
      * cbn. split; [intros H; exfalso; apply H; reflexivity|].
        intros [[e He] | [[errs [He Hfat]] | [Hv _]]]; try discriminate.
        injection He as <-. exfalso. apply Hf. exact Hfat.
      * destruct (package_skill fs (skill_path a) (output_dir a)) as [out|e]; cbn.
        -- split; [intros H; exfalso; apply H; reflexivity|].
           intros [[e He] | [[errs [He Hfat]] | [_ [e He]]]]; try discriminate.
           injection He as <-. exfalso. apply Hf. exact Hfat.
        -- split; [|discriminate]. intros _. right. right.
           split; [reflexivity|]. exists e. reflexivity.
    + cbn. split; [|discriminate]. intros _. right. left.
      exists errors. split; [reflexivity|].
      assert (Hin : In c (filter is_error errors)) by (rewrite Hf; left; reflexivity).
      apply filter_In in Hin. destruct Hin as [Hin Hc].
      exists c. split; [exact Hin|].
      unfold is_error in Hc. destruct (severity c); [reflexivity|discriminate].
  - cbn. split; [|discriminate]. intros _. left. exists e. reflexivity.
Qed.

End Validation.

(** ** Runs on the fixtures *)

Lemma missing_manifest_then_tree_findings_witness :
  Path.is_dir readme_only_fs ["skills"; "my-skill"] = true
  /\ Path.lookup readme_only_fs (["skills"; "my-skill"] ++ ["SKILL.md"]) = None
  /\ forall safe_load py_str,
       validate_skill_md safe_load py_str readme_only_fs ["skills"; "my-skill"]
       = Ok [Msg.skill_md_required]
       /\ validate_skill safe_load py_str readme_only_fs ["skills"; "my-skill"]
          = Ok (Msg.skill_md_required
                  :: validate_structure readme_only_fs ["skills"; "my-skill"]).
Proof.
  split; [reflexivity|]. split; [reflexivity|].
  intros safe_load py_str.
  apply (missing_manifest_then_tree_findings safe_load py_str
           readme_only_fs ["skills"; "my-skill"]); reflexivity.
Defined.

(** C2, a directory with a [README.md] and no manifest: the report has
    two fatal findings, the missing manifest and the disallowed file. *)
Lemma missing_manifest_and_readme :
  Path.is_dir readme_only_fs ["skills"; "my-skill"] = true
  /\ Path.lookup readme_only_fs ["skills"; "my-skill"; "SKILL.md"] = None
  /\ forall safe_load py_str,
       validate_skill safe_load py_str readme_only_fs ["skills"; "my-skill"]
       = Ok [Msg.skill_md_required; Msg.disallowed_file "README.md"].
Proof.
  split; [reflexivity|]. split; [reflexivity|].
  intros safe_load py_str. reflexivity.
Qed.

Lemma unclosed_header_one_finding_witness :
  PyStr.startswith unclosed_manifest "---" = true
  /\ ~ closing_sentinel_in (PyStr.slice_from 3 unclosed_manifest)
  /\ Path.is_dir unclosed_manifest_fs ["skills"; "my-skill"] = true
  /\ Path.lookup unclosed_manifest_fs (["skills"; "my-skill"] ++ ["SKILL.md"])
     = Some (File unclosed_manifest false)
  /\ forall safe_load py_str,
       validate_frontmatter safe_load py_str unclosed_manifest
         (Path.name ["skills"; "my-skill"])
       = Ok ([], [Msg.frontmatter_unclosed])
       /\ validate_skill safe_load py_str unclosed_manifest_fs ["skills"; "my-skill"]
          = Ok [Msg.frontmatter_unclosed; Msg.not_a_directory "scripts"].
Proof.
  assert (Hc : ~ closing_sentinel_in (PyStr.slice_from 3 unclosed_manifest))
    by (apply ReFacts.search_closing_none; reflexivity).
  split; [reflexivity|]. split; [exact Hc|]. split; [reflexivity|].
  split; [reflexivity|].
  intros safe_load py_str.
  exact (unclosed_header_one_finding safe_load py_str unclosed_manifest_fs
           ["skills"; "my-skill"] unclosed_manifest false
           eq_refl Hc eq_refl eq_refl).
Defined.

(** C8, a manifest path that is a directory: [read_text] raises, the
    process ends with status 1, and validation has returned no finding,
    fatal or otherwise. *)
Lemma exit_nonzero_without_findings :
  Path.is_dir manifest_is_dir_fs ["skills"; "my-skill"] = true
  /\ forall safe_load py_str,
       validate_skill safe_load py_str manifest_is_dir_fs ["skills"; "my-skill"]
       = Raise OSError
       /\ main safe_load py_str manifest_is_dir_fs
            (mkArgs ["skills"; "my-skill"] ["dist"] false)
          = mkOutcome 1 None None.
Proof.
  split; [reflexivity|]. intros safe_load py_str. split; reflexivity.
Qed.

(** ** Scenario B: [My_Skill] *)

Lemma fold_left_no_match (A : Type) (P : ValidationError -> bool)
    (c : A -> bool) (f : A -> ValidationError) (l : list A) :
  (forall x, P (f x) = false) ->
  forall init,
    filter P init = [] ->
    filter P (fold_left (fun errors x => if c x then errors ++ [f x] else errors) l init)
    = [].
Proof.
  intros Hf. induction l as [|x l IH]; intros init Hinit; cbn [fold_left].
  - exact Hinit.
  - apply IH. destruct (c x); [|exact Hinit].
    rewrite filter_app, Hinit. cbn. rewrite Hf. reflexivity.
Qed.

(** The Tree Validator has nothing to say on the name. *)
Lemma validate_structure_not_about_name (fs : node) (sp : path) :
  filter about_name (validate_structure fs sp) = [].
Proof.
  unfold validate_structure.
  assert (H1 : filter about_name
                 (fold_left (fun errors filename =>
                    if Path.exists_ fs (sp ++ [filename])
                    then errors ++ [Msg.disallowed_file filename] else errors)
                    disallowed []) = []).
  { apply (fold_left_no_match _ about_name
             (fun filename => Path.exists_ fs (sp ++ [filename])) Msg.disallowed_file);
      reflexivity. }
  assert (H2 : filter about_name
                 (fold_left (fun errors dirname =>
                    if Path.exists_ fs (sp ++ [dirname])
                       && negb (Path.is_dir fs (sp ++ [dirname]))
                    then errors ++ [Msg.not_a_directory dirname] else errors)
                    resource_dirs
                    (fold_left (fun errors filename =>
                       if Path.exists_ fs (sp ++ [filename])
                       then errors ++ [Msg.disallowed_file filename] else errors)
                       disallowed [])) = []).
  { apply (fold_left_no_match _ about_name
             (fun dirname => Path.exists_ fs (sp ++ [dirname])
                             && negb (Path.is_dir fs (sp ++ [dirname])))
             Msg.not_a_directory); [reflexivity | exact H1]. }
  destruct (Path.lookup fs (sp ++ ["scripts"])) as [scripts|]; [|exact H2].
  apply (fold_left_no_match _ about_name
           (fun script => negb (Path.access_x (snd script)))
           (fun script => Msg.not_executable (fst script)
                            (Path.to_str ((sp ++ ["scripts"]) ++ [fst script]))));
    [reflexivity | exact H2].
Qed.

(** Nor has the description validator. *)
Lemma validate_description_not_about_name (description : py_value)
    (errors : list ValidationError) :
  validate_description description = Ok errors ->
  filter about_name errors = [].
Proof.
  destruct description as [ | b | z | d | items | items ].
  - intros H. injection H as <-. reflexivity.
  - destruct b; [discriminate|]. intros H. injection H as <-. reflexivity.
  - unfold validate_description. cbn [truthy].
    destruct (Z.eqb z 0); cbn [negb]; [|discriminate].
    intros H. injection H as <-. reflexivity.
  - rewrite validate_description_str. intros H. injection H as <-.
    unfold Rules.description_findings, Rules.description_length_check,
      Rules.description_short_check, Rules.description_todo_check,
      Rules.description_when_check.
    destruct (String.eqb d ""); [reflexivity|].
    destruct (1024 <? String.length d);
      destruct (String.length d <? 50);
      destruct (PyStr.contains "todo" (PyStr.lower d));
      destruct (existsb _ when_indicators); reflexivity.
  - destruct items; [|discriminate]. intros H. injection H as <-. reflexivity.
  - destruct items; [|discriminate]. intros H. injection H as <-. reflexivity.
Qed.

Lemma compatibility_check_not_about_name (py_str : py_value -> string)
    (frontmatter : list (py_value * py_value)) :
  filter about_name (Rules.compatibility_check py_str frontmatter) = [].
Proof.
  unfold Rules.compatibility_check.
  destruct (dict_get "compatibility" frontmatter) as [compat|]; [|reflexivity].
  destruct (500 <? String.length (str_of py_str compat)); reflexivity.
Qed.

Lemma body_warnings_not_about_name (content : string) :
  filter about_name (body_warnings content) = [].
Proof.
  unfold body_warnings.
  destruct (500 <? PyStr.count_lines content);
    destruct (PyStr.contains "<!-- TODO" content || PyStr.contains "# TODO" content);
    reflexivity.
Qed.

(** C4, as amended: in a directory named [My_Skill] whose header names
    it [My_Skill], the name gets one fatal finding, the grammar one (the
    name equals the directory name, so there is no mismatch finding);
    the process exits with status 1 and writes no archive; and when
    validation returns its report, the grammar finding is the one
    finding on the name in it. *)
Theorem my_skill_one_name_finding
    (safe_load : string -> result py_value) (py_str : py_value -> string)
    (fs : node) (a : args) (content : string) (x : bool)
    (frontmatter : list (py_value * py_value)) :
  Path.name (skill_path a) = "My_Skill" ->
  Path.is_dir fs (skill_path a) = true ->
  Path.lookup fs (skill_path a ++ ["SKILL.md"]) = Some (File content x) ->
  decoded_header safe_load content = Some frontmatter ->
  dict_get "name" frontmatter = Some (PyStr "My_Skill") ->
  validate_skill_name py_str (PyStr "My_Skill") "My_Skill" = Ok [Msg.name_grammar]
  /\ exit_status (main safe_load py_str fs a) = 1
  /\ archive (main safe_load py_str fs a) = None
  /\ forall errors,
       findings (main safe_load py_str fs a) = Some errors ->
       filter about_name errors = [Msg.name_grammar].
Proof.
  intros Hname Hdir Hmd Hdec Hget.
  assert (Hn : validate_skill_name py_str (PyStr "My_Skill") "My_Skill"
               = Ok [Msg.name_grammar])
    by (rewrite validate_skill_name_str; reflexivity).
  split; [exact Hn|].
  unfold main.
  rewrite (validate_skill_on_dir _ _ _ _ Hdir),
    (validate_skill_md_on_file _ _ _ _ _ _ Hmd),
    (decoded_header_validate_frontmatter _ _ _ _ _ Hdec), validate_fields_eq.
  unfold dict_get_default. rewrite Hget, Hname, Hn. cbn [bind].
  destruct (validate_description _) as [description_errors|e] eqn:Hdesc;
    cbn [bind snd app].
  - change (filter is_error (Msg.name_grammar :: ?l))
      with (Msg.name_grammar :: filter is_error l).
    cbn [exit_status archive findings].
    repeat split. intros errors H. injection H as <-.
    change (filter about_name (Msg.name_grammar :: ?l))
      with (Msg.name_grammar :: filter about_name l).
    rewrite !filter_app, (validate_description_not_about_name _ _ Hdesc),
      compatibility_check_not_about_name, body_warnings_not_about_name,
      validate_structure_not_about_name.
    reflexivity.
  - repeat split. intros errors H. discriminate H.
Qed.

Lemma my_skill_one_name_finding_witness :
  Path.name ["skills"; "My_Skill"] = "My_Skill"
  /\ Path.is_dir my_skill_fs ["skills"; "My_Skill"] = true
  /\ Path.lookup my_skill_fs (["skills"; "My_Skill"] ++ ["SKILL.md"])
     = Some (File my_skill_manifest false)
  /\ decoded_header my_skill_loader my_skill_manifest
     = Some [(PyStr "name", PyStr "My_Skill")]
  /\ dict_get "name" [(PyStr "name", PyStr "My_Skill")] = Some (PyStr "My_Skill")
  /\ (validate_skill_name (fun _ => "") (PyStr "My_Skill") "My_Skill"
      = Ok [Msg.name_grammar]
      /\ exit_status (main my_skill_loader (fun _ => "") my_skill_fs
                        (mkArgs ["skills"; "My_Skill"] ["dist"] false)) = 1
      /\ archive (main my_skill_loader (fun _ => "") my_skill_fs
                     (mkArgs ["skills"; "My_Skill"] ["dist"] false)) = None
      /\ forall errors,
           findings (main my_skill_loader (fun _ => "") my_skill_fs
                       (mkArgs ["skills"; "My_Skill"] ["dist"] false)) = Some errors ->
           filter about_name errors = [Msg.name_grammar]).
Proof.
  split; [reflexivity|]. split; [reflexivity|]. split; [reflexivity|].
  split; [reflexivity|]. split; [reflexivity|].
  exact (my_skill_one_name_finding my_skill_loader (fun _ => "") my_skill_fs
           (mkArgs ["skills"; "My_Skill"] ["dist"] false)
           my_skill_manifest false [(PyStr "name", PyStr "My_Skill")]
           eq_refl eq_refl eq_refl eq_refl eq_refl).
Defined.

(** The whole run of scenario B: two fatal findings, the grammar one and
    the missing description. *)
Lemma my_skill_run :
  main my_skill_loader (fun _ => "") my_skill_fs
    (mkArgs ["skills"; "My_Skill"] ["dist"] false)
  = mkOutcome 1 (Some [Msg.name_grammar; Msg.description_required]) None.
Proof. vm_compute. reflexivity. Qed.

(** C4, the name findings of scenario B: one, the grammar finding; the
    mismatch finding does not occur. *)
Lemma my_skill_no_mismatch_finding :
  (forall py_str,
     validate_skill_name py_str (PyStr "My_Skill") "My_Skill" = Ok [Msg.name_grammar])
  /\ length [Msg.name_grammar] = 1
  /\ occurrences (Msg.name_mismatch "My_Skill" "My_Skill") [Msg.name_grammar] = 0.
Proof.
  split; [|split; reflexivity].
  intros py_str. rewrite validate_skill_name_str. reflexivity.
Qed.

(** ** Names that are not strings *)

(** C9: a header whose name is a value Python finds true and that is not
    a string (the integer 123, say) makes [validate_frontmatter] raise a
    [TypeError] where it should return findings. *)
Theorem non_string_name_raises
    (safe_load : string -> result py_value) (py_str : py_value -> string)
    (content directory_name : string) (frontmatter : list (py_value * py_value))
    (name : py_value) :
  decoded_header safe_load content = Some frontmatter ->
  dict_get "name" frontmatter = Some name ->
  truthy name = true ->
  (forall s, name <> PyStr s) ->
  validate_frontmatter safe_load py_str content directory_name = Raise TypeError.
Proof.
  intros Hdec Hget Ht Hs.
  rewrite (decoded_header_validate_frontmatter _ _ _ _ _ Hdec).
  rewrite (validate_fields_non_string_name _ _ _ _ Hget Ht Hs). reflexivity.
Qed.

Lemma non_string_name_raises_witness :
  decoded_header numeric_name_loader numeric_name_manifest
  = Some [ (PyStr "name", PyInt 123);
           (PyStr "description",
            PyStr "Use when a numeric name reaches the validator.") ]
  /\ truthy (PyInt 123) = true
  /\ validate_frontmatter numeric_name_loader (fun _ => "") numeric_name_manifest "123"
     = Raise TypeError.
Proof.
  split; [reflexivity|]. split; [reflexivity|].
  apply (non_string_name_raises numeric_name_loader (fun _ => "")
           numeric_name_manifest "123"
           [ (PyStr "name", PyInt 123);
             (PyStr "description",
              PyStr "Use when a numeric name reaches the validator.") ]
           (PyInt 123)).
  - reflexivity.
  - reflexivity.
  - reflexivity.
  - intros s H. discriminate H.
Defined.

(** ** A freshly initialized skill *)

(** The description the template writes holds the placeholder. *)
Lemma template_description_has_todo :
  PyStr.contains "todo" (PyStr.lower InitSkill.template_description) = true.
Proof. vm_compute. reflexivity. Qed.

(** Whatever the skill name and the resources, the manifest written
    opens with the sentinel, the name line and the description line of
    the template. *)
Lemma create_skill_md_header (py_title : string -> string)
    (skill_name : string) (resources : list string) :
  exists rest,
    InitSkill.create_skill_md py_title skill_name resources
    = ("---" ++ PyStr.nl ++ "name: " ++ skill_name ++ PyStr.nl
       ++ "description: " ++ InitSkill.template_description ++ PyStr.nl ++ rest)%string.
Proof.
  unfold InitSkill.create_skill_md, InitSkill.unlines, InitSkill.template_head.
  cbn [map String.concat].
  rewrite !ReFacts.append_assoc. cbn [String.append PyStr.nl].
  eexists. reflexivity.
Qed.

(** When the header of a manifest carries the template's description and
    the name validator returns, the placeholder finding is reported. *)
Lemma template_description_todo_finding (py_str : py_value -> string)
    (frontmatter : list (py_value * py_value)) (directory_name : string)
    (name_errors : list ValidationError) :
  dict_get "description" frontmatter = Some (PyStr InitSkill.template_description) ->
  validate_skill_name py_str (dict_get_default "name" (PyStr "") frontmatter) directory_name
  = Ok name_errors ->
  exists errors,
    validate_fields py_str frontmatter directory_name = Ok errors
    /\ In Msg.description_todo errors.
Proof.
  intros Hd Hn. rewrite validate_fields_eq, Hn. unfold dict_get_default. rewrite Hd.
  rewrite validate_description_str. cbn [bind]. eexists. split; [reflexivity|].
  apply in_or_app. right. apply in_or_app. left.
  vm_compute. left. reflexivity.
Qed.

(** C10, at the skill name [123], which [init_skill] accepts: the header
    written decodes to a mapping whose name is the integer 123, and
    validating the new skill raises a [TypeError]; no finding, the
    placeholder one included, is reported. *)
Theorem generated_skill_123_raises
    (safe_load : string -> result py_value) (py_str : py_value -> string)
    (py_title : string -> string) :
  safe_load (generated_header_text "123") = Ok (generated_header (PyInt 123)) ->
  InitSkill.validate_skill_name "123" = (true, "")
  /\ exists fs',
       InitSkill.init_skill py_title (Dir [] true) "123" [] [] = InitSkill.InitDone fs'
       /\ validate_skill safe_load py_str fs' ["123"] = Raise TypeError
       /\ main safe_load py_str fs' (mkArgs ["123"] [] true) = mkOutcome 1 None None.
Proof.
  intros Hload. split; [reflexivity|].
  exists (Dir [("123", InitSkill.skill_dir_node py_title "123" [])] true).
  split; [reflexivity|].
  assert (Hdec : decoded_header safe_load (InitSkill.create_skill_md py_title "123" [])
                 = Some [ (PyStr "name", PyInt 123);
                          (PyStr "description", PyStr InitSkill.template_description);
                          (PyStr "metadata",
                           PyDict [(PyStr "author", PyStr "TODO");
                                   (PyStr "version", PyStr "1.0")]) ]).
  { unfold decoded_header.
    replace (PyStr.startswith (InitSkill.create_skill_md py_title "123" []) "---")
      with true by (vm_compute; reflexivity).
    replace (Re.search Re.CLOSE_RE
               (PyStr.slice_from 3 (InitSkill.create_skill_md py_title "123" [])))
      with (Some 203) by (vm_compute; reflexivity).
    replace (PyStr.slice 3 (203 + 3) (InitSkill.create_skill_md py_title "123" []))
      with (generated_header_text "123") by (vm_compute; reflexivity).
    rewrite Hload. reflexivity. }
  assert (Hv : validate_skill safe_load py_str
                 (Dir [("123", InitSkill.skill_dir_node py_title "123" [])] true) ["123"]
               = Raise TypeError).
  { rewrite validate_skill_on_dir by reflexivity.
    rewrite (validate_skill_md_on_file safe_load py_str _ ["123"]
               (InitSkill.create_skill_md py_title "123" []) false) by reflexivity.
    rewrite (decoded_header_validate_frontmatter _ _ _ _ _ Hdec).
    rewrite (validate_fields_non_string_name py_str _ _ (PyInt 123));
      [reflexivity | reflexivity | reflexivity | intros s H; discriminate H]. }
  split; [exact Hv|].
  unfold main. cbn [skill_path]. rewrite Hv. reflexivity.
Qed.

Lemma generated_skill_123_raises_witness :
  generated_123_loader (generated_header_text "123") = Ok (generated_header (PyInt 123))
  /\ InitSkill.validate_skill_name "123" = (true, "")
  /\ exists fs',
       InitSkill.init_skill (fun s => s) (Dir [] true) "123" [] [] = InitSkill.InitDone fs'
       /\ validate_skill generated_123_loader (fun _ => "") fs' ["123"] = Raise TypeError
       /\ main generated_123_loader (fun _ => "") fs' (mkArgs ["123"] [] true)
          = mkOutcome 1 None None.
Proof.
  split; [reflexivity|].
  apply (generated_skill_123_raises generated_123_loader (fun _ => "") (fun s => s)).
  reflexivity.
Defined.

(** ** The archive *)

(** The members of the archive: the regular files of the walk none of
    whose path parts, from the root of the file system down, is
    skipped. *)
Lemma archive_members_iff (fs : node) (sp : path) (root : node)
    (arc : path) (content : string) :
  Path.lookup fs sp = Some root ->
  In (arc, content) (archive_members fs sp)
  <-> exists rel x,
        In (rel, File content x) (Path.rglob root)
        /\ arc = arcname sp rel
        /\ existsb skipped_part (Path.parts (sp ++ rel)) = false.
Proof.
  intros Hroot. unfold archive_members. rewrite Hroot, in_flat_map. split.
  - intros [[rel n] [Hin Hm]]. cbn [fst snd] in Hm.
    destruct n as [c x|es x]; [|destruct Hm].
    destruct (existsb skipped_part (Path.parts (sp ++ rel))) eqn:Hskip; [destruct Hm|].
    destruct Hm as [Hm|[]]. injection Hm as <- <-.
    exists rel, x. repeat split; assumption.
  - intros [rel [x [Hin [-> Hskip]]]].
    exists (rel, File content x). split; [exact Hin|].
    cbn [fst snd]. rewrite Hskip. left. reflexivity.
Qed.

Lemma existsb_skipped_parts (sp rel : path) :
  existsb skipped_part (Path.parts (sp ++ rel))
  = existsb skipped_part (Path.parts sp) || existsb skipped_part rel.
Proof.
  unfold Path.parts. rewrite app_comm_cons. apply existsb_app.
Qed.

(** X4: when no part of the resolved skill path is skipped, a file is in
    the archive exactly when it is a regular file of the walk and no
    segment below the skill directory is skipped; its member path is its
    path relative to the parent of the skill directory. *)
Theorem archive_members_visible_path (fs : node) (sp : path) (root : node)
    (arc : path) (content : string) :
  Path.lookup fs sp = Some root ->
  existsb skipped_part (Path.parts sp) = false ->
  In (arc, content) (archive_members fs sp)
  <-> exists rel x,
        In (rel, File content x) (Path.rglob root)
        /\ arc = arcname sp rel
        /\ existsb skipped_part rel = false.
Proof.
  intros Hroot Hsp. rewrite (archive_members_iff _ _ _ _ _ Hroot).
  split; intros [rel [x [Hin [Harc Hskip]]]]; exists rel, x; repeat split; try assumption.
  - rewrite existsb_skipped_parts, Hsp in Hskip. exact Hskip.
  - rewrite existsb_skipped_parts, Hsp. exact Hskip.
Qed.

Lemma archive_members_visible_path_witness :
  Path.lookup plain_fs plain_skill_path = Some claude_skill_dir
  /\ existsb skipped_part (Path.parts plain_skill_path) = false
  /\ (In (["oauth-injection"; "scripts"; "run.py"], "print(1)")
         (archive_members plain_fs plain_skill_path)
      <-> exists rel x,
            In (rel, File "print(1)" x) (Path.rglob claude_skill_dir)
            /\ ["oauth-injection"; "scripts"; "run.py"] = arcname plain_skill_path rel
            /\ existsb skipped_part rel = false).
Proof.
  split; [reflexivity|]. split; [reflexivity|].
  exact (archive_members_visible_path plain_fs plain_skill_path claude_skill_dir
           ["oauth-injection"; "scripts"; "run.py"] "print(1)" eq_refl eq_refl).
Defined.


(** A hidden directory above the skill directory empties the archive. *)
Lemma archive_members_hidden_ancestor (fs : node) (sp : path) :
  existsb skipped_part (Path.parts sp) = true ->
  archive_members fs sp = [].
Proof.
  intros Hsp. unfold archive_members.
  destruct (Path.lookup fs sp) as [root|]; [|reflexivity].
  induction (Path.rglob root) as [|[rel n] l IH]; [reflexivity|].
  cbn [flat_map fst snd]. rewrite IH.
  destruct n; [|reflexivity].
  rewrite existsb_skipped_parts, Hsp. reflexivity.
Qed.

(** C1, on the usage example of [package_skill.py]: the skill lies below
    [.claude]; its [SKILL.md] and [scripts/run.py] have no skipped
    segment from the skill directory down, and the archive has no
    member at all. The same directory away from [.claude] is archived
    with both. *)
Theorem hidden_ancestor_empties_archive :
  Path.lookup claude_fs (claude_skill_path ++ ["SKILL.md"]) = Some (File "manifest" false)
  /\ existsb skipped_part (arcname claude_skill_path ["SKILL.md"]) = false
  /\ package_skill claude_fs claude_skill_path ["home"; "dev"; "dist"]
     = Ok (["home"; "dev"; "dist"; "oauth-injection.skill"], [])
  /\ package_skill plain_fs plain_skill_path ["home"; "dev"; "dist"]
     = Ok (["home"; "dev"; "dist"; "oauth-injection.skill"],
           [ (["oauth-injection"; "SKILL.md"], "manifest");
             (["oauth-injection"; "scripts"; "run.py"], "print(1)") ]).
Proof.
  split; [reflexivity|]. split; [reflexivity|]. split.
  - unfold package_skill.
    rewrite archive_members_hidden_ancestor by reflexivity. reflexivity.
  - vm_compute. reflexivity.
Qed.

(** ** Further properties of the specification *)

Lemma identifier_not_empty (name : string) : Rules.identifier name -> name <> "".
Proof.
  intros H ->. apply ReFacts.fullmatch_NAME_RE in H. discriminate H.
Qed.

(** X1: an identifier of the grammar, at most 64 characters long, in the
    directory of the same name, gets no finding on the name. *)
Theorem valid_name_no_finding (py_str : py_value -> string) (name : string) :
  Rules.identifier name ->
  String.length name <= 64 ->
  validate_skill_name py_str (PyStr name) name = Ok [].
Proof.
  intros Hid Hlen. rewrite validate_skill_name_str.
  unfold Rules.name_findings, Rules.name_length_check, Rules.name_grammar_check,
    Rules.name_match_check.
  pose proof (identifier_not_empty _ Hid) as Hne. apply String.eqb_neq in Hne.
  rewrite Hne, String.eqb_refl.
  replace (64 <? String.length name) with false by (symmetry; apply Nat.ltb_ge; exact Hlen).
  replace (Re.match_anchored Re.NAME_RE name) with true
    by (symmetry; apply match_anchored_NAME_RE; left; exact Hid).
  reflexivity.
Qed.

Lemma valid_name_no_finding_witness :
  Rules.identifier "oauth-injection"
  /\ String.length "oauth-injection" <= 64
  /\ validate_skill_name (fun _ => "") (PyStr "oauth-injection") "oauth-injection" = Ok [].
Proof.
  assert (Hid : Rules.identifier "oauth-injection")
    by (apply ReFacts.fullmatch_NAME_RE; reflexivity).
  assert (Hlen : String.length "oauth-injection" <= 64) by (cbn; lia).
  split; [exact Hid|]. split; [exact Hlen|].
  exact (valid_name_no_finding (fun _ => "") "oauth-injection" Hid Hlen).
Defined.

(** X2: a name that differs from the directory name gets a fatal
    finding, whether or not it is an identifier: the mismatch finding
    when the name is not empty, the required-field finding when it is. *)
Theorem name_mismatch_is_fatal
    (py_str : py_value -> string) (name directory_name : string) :
  name <> directory_name ->
  exists errors,
    validate_skill_name py_str (PyStr name) directory_name = Ok errors
    /\ has_fatal errors
    /\ (name <> "" -> In (Msg.name_mismatch name directory_name) errors).
Proof.
  intros Hne. exists (Rules.name_findings name directory_name).
  split; [apply validate_skill_name_str|].
  unfold Rules.name_findings, Rules.name_match_check.
  apply String.eqb_neq in Hne. rewrite Hne.
  destruct (String.eqb name "") eqn:He.
  - split.
    + exists Msg.name_required. split; [left; reflexivity | reflexivity].
    + intros H. apply String.eqb_eq in He. contradiction.
  - assert (Hin : In (Msg.name_mismatch name directory_name)
                    (Rules.name_length_check name ++ Rules.name_grammar_check name
                     ++ [Msg.name_mismatch name directory_name])).
    { apply in_or_app. right. apply in_or_app. right. left. reflexivity. }
    split.
    + exists (Msg.name_mismatch name directory_name). split; [exact Hin | reflexivity].
    + intros _. exact Hin.
Qed.

Lemma name_mismatch_is_fatal_witness :
  "foo" <> "bar"
  /\ exists errors,
       validate_skill_name (fun _ => "") (PyStr "foo") "bar" = Ok errors
       /\ has_fatal errors
       /\ ("foo" <> "" -> In (Msg.name_mismatch "foo" "bar") errors).
Proof.
  split; [discriminate|].
  apply (name_mismatch_is_fatal (fun _ => "") "foo" "bar"). discriminate.
Defined.

Lemma prefix_lower (t d : string) :
  String.prefix t d = true -> String.prefix (PyStr.lower t) (PyStr.lower d) = true.
Proof.
  revert t. induction d as [|b d IH]; intros [|a t]; cbn; try reflexivity; try discriminate.
  destruct (ascii_dec a b) as [->|]; [|discriminate].
  intros H. destruct (ascii_dec (PyStr.lower_char b) (PyStr.lower_char b)); [|contradiction].
  apply IH. exact H.
Qed.

Lemma contains_lower (t d : string) :
  PyStr.contains t d = true -> PyStr.contains (PyStr.lower t) (PyStr.lower d) = true.
Proof.
  induction d as [|b d IH]; cbn [PyStr.contains PyStr.lower]; intros H;
    apply orb_true_iff in H; apply orb_true_iff; destruct H as [H|H].
  - left. apply (prefix_lower t ""). exact H.
  - discriminate H.
  - left. apply (prefix_lower t (String b d)). exact H.
  - right. apply IH. exact H.
Qed.

(** X3: a description that contains the placeholder in any letter case
    (a word whose lowercase form is [todo]) gets the fatal placeholder
    finding. *)
Theorem todo_in_any_case_is_fatal (description word : string) :
  PyStr.lower word = "todo" ->
  PyStr.contains word description = true ->
  exists errors,
    validate_description (PyStr description) = Ok errors
    /\ In Msg.description_todo errors
    /\ severity Msg.description_todo = error.
Proof.
  intros Hw Hc. exists (Rules.description_findings description).
  split; [apply validate_description_str|]. split; [|reflexivity].
  apply contains_lower in Hc. rewrite Hw in Hc.
  unfold Rules.description_findings, Rules.description_todo_check. rewrite Hc.
  destruct (String.eqb description "") eqn:He.
  - apply String.eqb_eq in He. subst description. discriminate Hc.
  - apply in_or_app. right. apply in_or_app. right. apply in_or_app. left.
    left. reflexivity.
Qed.

Lemma todo_in_any_case_is_fatal_witness :
  PyStr.lower "ToDo" = "todo"
  /\ PyStr.contains "ToDo" "Use when needed. ToDo: say what this skill does." = true
  /\ exists errors,
       validate_description (PyStr "Use when needed. ToDo: say what this skill does.")
       = Ok errors
       /\ In Msg.description_todo errors
       /\ severity Msg.description_todo = error.
Proof.
  split; [reflexivity|]. split; [reflexivity|].
  apply (todo_in_any_case_is_fatal
           "Use when needed. ToDo: say what this skill does." "ToDo"); reflexivity.
Defined.

(** X5: an archive is written only by a run that is not validate-only,
    whose validation returned a report without a fatal finding, and
    whose packaging completed; the run then exits with status 0. *)
Theorem archive_only_without_fatal
    (safe_load : string -> result py_value) (py_str : py_value -> string)
    (fs : node) (a : args) (out : path * list member) :
  archive (main safe_load py_str fs a) = Some out ->
  validate_only a = false
  /\ package_skill fs (skill_path a) (output_dir a) = Ok out
  /\ exit_status (main safe_load py_str fs a) = 0
  /\ exists errors,
       validate_skill safe_load py_str fs (skill_path a) = Ok errors
       /\ ~ has_fatal errors.
Proof.
  unfold main.
  destruct (validate_skill safe_load py_str fs (skill_path a)) as [errors|e];
    [|discriminate].
  destruct (filter is_error errors) as [|c cs] eqn:Hf; [|discriminate].
  destruct (validate_only a); [discriminate|].
  destruct (package_skill fs (skill_path a) (output_dir a)) as [o|e]; [|discriminate].
  cbn. intros H. injection H as <-.
  repeat split. exists errors. split; [reflexivity|].
  apply filter_is_error_nil. exact Hf.
Qed.

(** X6, scenario A: the directory [my-skill], its manifest naming it so
    with a description that says when to use it: no finding, exit
    status 0, and the archive [my-skill.skill] in the output directory
    with the manifest as [my-skill/SKILL.md]. *)
Theorem scenario_a_packages
    (safe_load : string -> result py_value) (py_str : py_value -> string) :
  safe_load scenario_a_header_text = Ok scenario_a_header ->
  main safe_load py_str scenario_a_fs scenario_a_args
  = mkOutcome 0 (Some [])
      (Some (["dist"; "my-skill.skill"],
             [(["my-skill"; "SKILL.md"], scenario_a_manifest)])).
Proof.
  intros Hload.
  assert (Hdec : decoded_header safe_load scenario_a_manifest
                 = Some [ (PyStr "name", PyStr "my-skill");
                          (PyStr "description", PyStr scenario_a_description) ]).
  { unfold decoded_header.
    replace (PyStr.startswith scenario_a_manifest "---") with true by reflexivity.
    replace (Re.search Re.CLOSE_RE (PyStr.slice_from 3 scenario_a_manifest))
      with (Some 115) by (vm_compute; reflexivity).
    replace (PyStr.slice 3 (115 + 3) scenario_a_manifest)
      with scenario_a_header_text by (vm_compute; reflexivity).
    rewrite Hload. reflexivity. }
  assert (Hv : validate_skill safe_load py_str scenario_a_fs ["skills"; "my-skill"]
               = Ok []).
  { rewrite validate_skill_on_dir by reflexivity.
    rewrite (validate_skill_md_on_file safe_load py_str _ ["skills"; "my-skill"]
               scenario_a_manifest false) by reflexivity.
    rewrite (decoded_header_validate_frontmatter _ _ _ _ _ Hdec).
    vm_compute. reflexivity. }
  unfold main, scenario_a_args. cbn [skill_path output_dir validate_only].
  rewrite Hv. vm_compute. reflexivity.
Qed.

Lemma scenario_a_packages_witness :
  scenario_a_loader scenario_a_header_text = Ok scenario_a_header
  /\ main scenario_a_loader (fun _ => "") scenario_a_fs scenario_a_args
     = mkOutcome 0 (Some [])
         (Some (["dist"; "my-skill.skill"],
                [(["my-skill"; "SKILL.md"], scenario_a_manifest)])).
Proof.
  assert (H : scenario_a_loader scenario_a_header_text = Ok scenario_a_header)
    by reflexivity.
  split; [exact H|].
  exact (scenario_a_packages scenario_a_loader (fun _ => "") H).
Defined.

Lemma archive_only_without_fatal_witness :
  archive (main scenario_a_loader (fun _ => "") scenario_a_fs scenario_a_args)
  = Some (["dist"; "my-skill.skill"], [(["my-skill"; "SKILL.md"], scenario_a_manifest)])
  /\ validate_only scenario_a_args = false
  /\ exit_status (main scenario_a_loader (fun _ => "") scenario_a_fs scenario_a_args) = 0.
Proof.
  assert (H : archive (main scenario_a_loader (fun _ => "") scenario_a_fs scenario_a_args)
              = Some (["dist"; "my-skill.skill"],
                      [(["my-skill"; "SKILL.md"], scenario_a_manifest)]))
    by (vm_compute; reflexivity).
  split; [exact H|].
  destruct (archive_only_without_fatal scenario_a_loader (fun _ => "")
              scenario_a_fs scenario_a_args _ H) as [Hv [_ [He _]]].
  split; assumption.
Defined.

(** * Further properties of the two scripts *)

(** ** The walk of a directory and the file system *)

Lemma assoc_in (k : string) (es : list (string * node)) (n : node) :
  Path.assoc k es = Some n -> In (k, n) es.
Proof.
  induction es as [|[k' n'] es IH]; cbn; [discriminate|].
  destruct (String.eqb k k') eqn:Hk.
  - apply String.eqb_eq in Hk. intros H. injection H as <-. subst. left. reflexivity.
  - intros H. right. apply IH. exact H.
Qed.

Lemma in_assoc (k : string) (es : list (string * node)) (n : node) :
  NoDup (map fst es) -> In (k, n) es -> Path.assoc k es = Some n.
Proof.
  induction es as [|[k' n'] es IH]; cbn; intros Hnd Hin; [destruct Hin|].
  inversion Hnd as [|? ? Hnotin Hnd']; subst.
  destruct Hin as [H|H].
  - injection H as -> ->. rewrite String.eqb_refl. reflexivity.
  - destruct (String.eqb k k') eqn:Hk.
    + apply String.eqb_eq in Hk. subst k'. exfalso. apply Hnotin.
      apply (in_map fst) in H. exact H.
    + apply IH; assumption.
Qed.

Lemma well_formed_child (es : list (string * node)) (x : bool) (k : string) (n : node) :
  well_formed (Dir es x) -> In (k, n) es -> well_formed n.
Proof.
  cbn. intros [_ Hall]. induction es as [|[k' n'] es IH]; intros Hin; [destruct Hin|].
  destruct Hall as [Hn Hall]. destruct Hin as [H|H].
  - injection H as _ <-. exact Hn.
  - apply IH; assumption.
Qed.

(** The walk of one directory, entry by entry. *)
Lemma rglob_dir_in (es : list (string * node)) (x : bool) (rel : path) (n : node) :
  In (rel, n) (Path.rglob (Dir es x))
  <-> exists seg child,
        In (seg, child) es
        /\ ((rel = [seg] /\ n = child)
            \/ exists rel', rel = seg :: rel' /\ In (rel', n) (Path.rglob child)).
Proof.
  cbn [Path.rglob]. induction es as [|[seg child] es IH].
  - split; [intros [] | intros [s [c [[] _]]]].
  - cbn [In]. rewrite in_app_iff, in_map_iff, IH. split.
    + intros [H | [[[rel' n'] [H Hin]] | [s [c [Hin H]]]]].
      * injection H as <- <-. exists seg, child. split; [left; reflexivity|]. left. auto.
      * cbn in H. injection H as <- <-. exists seg, child. split; [left; reflexivity|].
        right. exists rel'. auto.
      * exists s, c. split; [right; exact Hin | exact H].
    + intros [s [c [[H|Hin] Hc]]].
      * injection H as -> ->. destruct Hc as [[-> ->] | [rel' [-> Hin]]].
        -- left. reflexivity.
        -- right. left. exists (rel', n). split; [reflexivity | exact Hin].
      * right. right. exists s, c. auto.
Qed.

(** Every path of the walk leads to the node listed with it. *)
Lemma rglob_lookup (rel : path) :
  forall root n,
    well_formed root ->
    In (rel, n) (Path.rglob root) -> rel <> [] /\ Path.lookup root rel = Some n.
Proof.
  induction rel as [|seg rel IH]; intros [c x|es x] n Hwf Hin; try destruct Hin.
  - apply (proj1 (rglob_dir_in es x [] n)) in Hin.
    destruct Hin as [s [c [_ [[H _] | [rel' [H _]]]]]]; discriminate H.
  - apply (proj1 (rglob_dir_in es x (seg :: rel) n)) in Hin.
    destruct Hin as [s [child [Hin Hc]]].
    split; [discriminate|]. cbn [Path.lookup].
    destruct Hc as [[H ->] | [rel' [H Hin']]]; injection H as -> ->.
    + rewrite (in_assoc _ _ _ (proj1 Hwf) Hin). reflexivity.
    + rewrite (in_assoc _ _ _ (proj1 Hwf) Hin).
      apply (IH child n (well_formed_child _ _ _ _ Hwf Hin) Hin').
Qed.

(** Every node below the root is met by the walk. *)
Lemma lookup_rglob (rel : path) :
  forall root n,
    rel <> [] -> Path.lookup root rel = Some n -> In (rel, n) (Path.rglob root).
Proof.
  induction rel as [|seg rel IH]; intros root n Hne Hl; [congruence|].
  destruct root as [c x|es x]; [discriminate Hl|].
  cbn [Path.lookup] in Hl.
  destruct (Path.assoc seg es) as [child|] eqn:Ha; [|discriminate Hl].
  apply assoc_in in Ha. apply rglob_dir_in. exists seg, child. split; [exact Ha|].
  destruct rel as [|seg' rel'].
  - left. cbn in Hl. injection Hl as ->. auto.
  - right. exists (seg' :: rel'). split; [reflexivity|].
    apply IH; [discriminate | exact Hl].
Qed.

Lemma lookup_app (p : path) :
  forall fs n q, Path.lookup fs p = Some n -> Path.lookup fs (p ++ q) = Path.lookup n q.
Proof.
  induction p as [|seg p IH]; intros fs n q H.
  - cbn in H. injection H as ->. reflexivity.
  - destruct fs as [c x|es x]; [discriminate H|]. cbn [Path.lookup Datatypes.app] in *.
    destruct (Path.assoc seg es) as [child|]; [|discriminate H].
    apply IH. exact H.
Qed.

Lemma well_formed_lookup (p : path) :
  forall fs n, well_formed fs -> Path.lookup fs p = Some n -> well_formed n.
Proof.
  induction p as [|seg p IH]; intros fs n Hwf H.
  - cbn in H. injection H as <-. exact Hwf.
  - destruct fs as [c x|es x]; [discriminate H|]. cbn [Path.lookup] in H.
    destruct (Path.assoc seg es) as [child|] eqn:Ha; [|discriminate H].
    apply (IH child n); [|exact H].
    apply (well_formed_child es x seg child Hwf). apply assoc_in. exact Ha.
Qed.

Lemma parent_arcname (sp rel : path) :
  Path.parent sp ++ arcname sp rel = sp ++ rel.
Proof.
  unfold arcname, Path.relative_to, Path.parent.
  destruct sp as [|s sp] using rev_ind.
  - reflexivity.
  - rewrite removelast_last, <- app_assoc.
    rewrite skipn_app, skipn_all, Nat.sub_diag. reflexivity.
Qed.

Lemma arcname_parts (sp rel : path) (seg : string) :
  In seg (arcname sp rel) -> In seg (sp ++ rel).
Proof.
  rewrite <- (parent_arcname sp rel). intros H. apply in_or_app. right. exact H.
Qed.

Lemma existsb_false_in (f : string -> bool) (l : list string) :
  existsb f l = false <-> forall x, In x l -> f x = false.
Proof.
  induction l as [|y l IH]; cbn.
  - split; [intros _ x [] | reflexivity].
  - rewrite orb_false_iff, IH. split.
    + intros [Hy Hl] x [<-|Hx]; auto.
    + intros H. split; [apply H; left; reflexivity | intros x Hx; apply H; right; exact Hx].
Qed.

(** X7: whatever the file system and the skill path, no member path of
    the archive has a segment that starts with a dot or is
    [__pycache__]. *)
Theorem archive_member_paths_visible (fs : node) (sp : path) (arc : path) (content : string) :
  In (arc, content) (archive_members fs sp) ->
  existsb skipped_part arc = false.
Proof.
  unfold archive_members. destruct (Path.lookup fs sp) as [root|]; [|intros []].
  rewrite in_flat_map. intros [[rel n] [_ Hm]]. cbn [fst snd] in Hm.
  destruct n as [c x|es x]; [|destruct Hm].
  destruct (existsb skipped_part (Path.parts (sp ++ rel))) eqn:Hskip; [destruct Hm|].
  destruct Hm as [Hm|[]]. injection Hm as <- _.
  apply existsb_false_in. intros seg Hseg.
  apply (proj1 (existsb_false_in skipped_part _) Hskip).
  right. apply arcname_parts with (1 := Hseg).
Qed.

Lemma archive_member_paths_visible_witness :
  In (["oauth-injection"; "scripts"; "run.py"], "print(1)")
    (archive_members plain_fs plain_skill_path)
  /\ existsb skipped_part ["oauth-injection"; "scripts"; "run.py"] = false.
Proof.
  assert (H : In (["oauth-injection"; "scripts"; "run.py"], "print(1)")
                (archive_members plain_fs plain_skill_path))
    by (vm_compute; right; left; reflexivity).
  split; [exact H|].
  exact (archive_member_paths_visible plain_fs plain_skill_path _ _ H).
Defined.

(** X8: on a tree in which no directory lists a name twice, the archive
    of a skill directory holds exactly the regular files of the file
    system below it whose absolute path has no skipped part, each with
    its content and under its path relative to the parent of the skill
    directory. *)
Theorem archive_members_are_the_visible_files
    (fs : node) (sp : path) (arc : path) (content : string) :
  well_formed fs ->
  Path.is_dir fs sp = true ->
  In (arc, content) (archive_members fs sp)
  <-> exists rel x,
        rel <> []
        /\ Path.lookup fs (sp ++ rel) = Some (File content x)
        /\ arc = arcname sp rel
        /\ existsb skipped_part (Path.parts (sp ++ rel)) = false.
Proof.
  intros Hwf Hdir. unfold Path.is_dir in Hdir.
  destruct (Path.lookup fs sp) as [root|] eqn:Hroot; [|discriminate Hdir].
  rewrite (archive_members_iff fs sp root arc content Hroot).
  pose proof (well_formed_lookup sp fs root Hwf Hroot) as Hwfr.
  split; intros [rel [x [H1 [H2 H3]]]].
  - destruct (rglob_lookup rel root _ Hwfr H1) as [Hne Hl].
    exists rel, x. rewrite (lookup_app sp fs root rel Hroot). auto.
  - destruct H3 as [H3 H4]. rewrite (lookup_app sp fs root rel Hroot) in H2.
    exists rel, x. split; [apply lookup_rglob; assumption | auto].
Qed.

Lemma plain_fs_well_formed : well_formed plain_fs.
Proof.
  cbn. repeat split; repeat constructor; cbn; intuition discriminate.
Qed.

Lemma archive_members_are_the_visible_files_witness :
  well_formed plain_fs
  /\ Path.is_dir plain_fs plain_skill_path = true
  /\ (In (["oauth-injection"; "SKILL.md"], "manifest")
         (archive_members plain_fs plain_skill_path)
      <-> exists rel x,
            rel <> []
            /\ Path.lookup plain_fs (plain_skill_path ++ rel) = Some (File "manifest" x)
            /\ ["oauth-injection"; "SKILL.md"] = arcname plain_skill_path rel
            /\ existsb skipped_part (Path.parts (plain_skill_path ++ rel)) = false).
Proof.
  split; [exact plain_fs_well_formed|]. split; [reflexivity|].
  exact (archive_members_are_the_visible_files plain_fs plain_skill_path
           ["oauth-injection"; "SKILL.md"] "manifest" plain_fs_well_formed eq_refl).
Defined.

(** ** The findings of the Tree Validator *)

Lemma fold_left_collect (A : Type) (c : A -> bool) (f : A -> ValidationError)
    (l : list A) (v : ValidationError) :
  forall init,
    In v (fold_left (fun errors x => if c x then errors ++ [f x] else errors) l init)
    <-> In v init \/ exists x, In x l /\ c x = true /\ v = f x.
Proof.
  induction l as [|y l IH]; intros init; cbn [fold_left].
  - split; [auto | intros [H | [x [[] _]]]; exact H].
  - rewrite IH. split.
    + intros [H | [x [Hx [Hc Hv]]]].
      * destruct (c y) eqn:Hy.
        -- apply in_app_or in H. destruct H as [H | [<- | []]]; [left; exact H|].
           right. exists y. split; [left; reflexivity | auto].
        -- left. exact H.
      * right. exists x. split; [right; exact Hx | auto].
    + intros [H | [x [[<- | Hx] [Hc Hv]]]].
      * left. destruct (c y); [apply in_or_app; left|]; exact H.
      * left. rewrite Hc. apply in_or_app. right. left. symmetry. exact Hv.
      * right. exists x. auto.
Qed.

(** The findings of [validate_structure], one by one: a disallowed
    file that exists, a resource name that is a regular file, a script
    of [scripts/] ending in [.py] that is not executable. *)
Lemma validate_structure_in (fs : node) (sp : path) (v : ValidationError) :
  In v (validate_structure fs sp)
  <-> (exists filename,
         In filename disallowed
         /\ Path.exists_ fs (sp ++ [filename]) = true
         /\ v = Msg.disallowed_file filename)
      \/ (exists dirname content x,
            In dirname resource_dirs
            /\ Path.lookup fs (sp ++ [dirname]) = Some (File content x)
            /\ v = Msg.not_a_directory dirname)
      \/ (exists es x name script,
            Path.lookup fs (sp ++ ["scripts"]) = Some (Dir es x)
            /\ In (name, script) es
            /\ Path.endswith name ".py" = true
            /\ Path.access_x script = false
            /\ v = Msg.not_executable name (Path.to_str (sp ++ ["scripts"; name]))).
Proof.
  assert (Hfile : forall dirname,
            Path.exists_ fs (sp ++ [dirname]) && negb (Path.is_dir fs (sp ++ [dirname])) = true
            <-> exists content x, Path.lookup fs (sp ++ [dirname]) = Some (File content x)).
  { intros d. unfold Path.exists_, Path.is_dir.
    destruct (Path.lookup fs (sp ++ [d])) as [[c x|es x]|]; cbn.
    - split; [eauto | reflexivity].
    - split; [discriminate | intros [c [x' H]]; discriminate H].
    - split; [discriminate | intros [c [x' H]]; discriminate H]. }
  set (first :=
         fold_left (fun errors filename =>
           if Path.exists_ fs (sp ++ [filename])
           then errors ++ [Msg.disallowed_file filename] else errors) disallowed []).
  set (second :=
         fold_left (fun errors dirname =>
           if Path.exists_ fs (sp ++ [dirname]) && negb (Path.is_dir fs (sp ++ [dirname]))
           then errors ++ [Msg.not_a_directory dirname] else errors) resource_dirs first).
  assert (H1 : In v first <-> exists filename,
                 In filename disallowed /\ Path.exists_ fs (sp ++ [filename]) = true
                 /\ v = Msg.disallowed_file filename).
  { unfold first.
    rewrite (fold_left_collect _ (fun filename => Path.exists_ fs (sp ++ [filename]))
               Msg.disallowed_file).
    split; [intros [[] | H]; exact H | auto]. }
  assert (H2 : In v second <-> In v first \/ exists dirname content x,
                 In dirname resource_dirs
                 /\ Path.lookup fs (sp ++ [dirname]) = Some (File content x)
                 /\ v = Msg.not_a_directory dirname).
  { unfold second.
    rewrite (fold_left_collect _
               (fun dirname => Path.exists_ fs (sp ++ [dirname])
                               && negb (Path.is_dir fs (sp ++ [dirname])))
               Msg.not_a_directory).
    split; (intros [H | H]; [left; exact H | right]).
    - destruct H as [d [Hd [Hc Hv]]]. apply Hfile in Hc. destruct Hc as [c [x Hc]].
      exists d, c, x. auto.
    - destruct H as [d [c [x [Hd [Hc Hv]]]]]. exists d. split; [exact Hd|].
      split; [apply Hfile; eauto | exact Hv]. }
  change (validate_structure fs sp)
    with (match Path.lookup fs (sp ++ ["scripts"]) with
          | Some scripts =>
              fold_left (fun errors script =>
                if negb (Path.access_x (snd script))
                then errors ++ [Msg.not_executable (fst script)
                                  (Path.to_str ((sp ++ ["scripts"]) ++ [fst script]))]
                else errors) (Path.glob_py scripts) second
          | None => second
          end).
  destruct (Path.lookup fs (sp ++ ["scripts"])) as [scripts|] eqn:Hs.
  - rewrite (fold_left_collect _ (fun script => negb (Path.access_x (snd script)))
               (fun script => Msg.not_executable (fst script)
                                (Path.to_str ((sp ++ ["scripts"]) ++ [fst script])))).
    rewrite H2, H1. split.
    + intros [[H | H] | [[name script] [Hin [Hx Hv]]]]; [left; exact H | right; left; exact H|].
      right. right. destruct scripts as [c x|es x]; [destruct Hin|].
      cbn [Path.glob_py] in Hin. apply filter_In in Hin. destruct Hin as [Hin Hpy].
      cbn [fst snd] in *. apply negb_true_iff in Hx.
      exists es, x, name, script. rewrite <- app_assoc in Hv. auto.
    + intros [H | [H | [es [x [name [script [Hl [Hin [Hpy [Hx Hv]]]]]]]]]].
      * left. left. exact H.
      * left. right. exact H.
      * right. injection Hl as ->. exists (name, script). cbn [fst snd Path.glob_py].
        split; [apply filter_In; auto|]. split; [rewrite Hx; reflexivity|].
        rewrite <- app_assoc. exact Hv.
  - rewrite H2, H1. split.
    + intros [H | H]; [left; exact H | right; left; exact H].
    + intros [H | [H | [es [x [name [script [Hl _]]]]]]]; [left; exact H | right; exact H|].
      discriminate Hl.
Qed.

(** X9: the Tree Validator blocks packaging exactly when one of the four
    disallowed files exists in the skill directory or one of [scripts],
    [references], [assets] is a regular file; and its warnings are
    exactly the [.py] entries of the [scripts] directory that are not
    executable, each named with its path. *)
Theorem tree_findings_by_severity (fs : node) (sp : path) :
  (has_fatal (validate_structure fs sp)
   <-> (exists filename,
          In filename disallowed /\ Path.exists_ fs (sp ++ [filename]) = true)
       \/ (exists dirname content x,
             In dirname resource_dirs
             /\ Path.lookup fs (sp ++ [dirname]) = Some (File content x)))
  /\ forall v,
       In v (validate_structure fs sp) /\ severity v = warning
       <-> exists es x name script,
             Path.lookup fs (sp ++ ["scripts"]) = Some (Dir es x)
             /\ In (name, script) es
             /\ Path.endswith name ".py" = true
             /\ Path.access_x script = false
             /\ v = Msg.not_executable name (Path.to_str (sp ++ ["scripts"; name])).
Proof.
  split.
  - unfold has_fatal. split.
    + intros [v [Hin Hsev]]. apply validate_structure_in in Hin.
      destruct Hin as [[f [Hf [He ->]]] | [[d [c [x [Hd [He ->]]]]] | H]].
      * left. eauto.
      * right. eauto 6.
      * destruct H as [es [x [n [s [_ [_ [_ [_ ->]]]]]]]]. discriminate Hsev.
    + intros [[f [Hf He]] | [d [c [x [Hd He]]]]].
      * exists (Msg.disallowed_file f). split; [|reflexivity].
        apply validate_structure_in. left. eauto.
      * exists (Msg.not_a_directory d). split; [|reflexivity].
        apply validate_structure_in. right. left. eauto 6.
  - intros v. rewrite validate_structure_in. split.
    + intros [[[f [_ [_ ->]]] | [[d [c [x [_ [_ ->]]]]] | H]] Hsev];
        [discriminate Hsev | discriminate Hsev | exact H].
    + intros H. split; [right; right; exact H|].
      destruct H as [es [x [n [s [_ [_ [_ [_ ->]]]]]]]]. reflexivity.
Qed.

(** ** What [init_skill] writes *)

Lemma assoc_replace_same (seg : string) (new : node) (es : list (string * node)) (old : node) :
  Path.assoc seg es = Some old ->
  Path.assoc seg (InitSkill.replace_entry seg new es) = Some new.
Proof.
  induction es as [|[k n] es IH]; cbn; [discriminate|].
  destruct (String.eqb seg k) eqn:Hk; cbn; rewrite Hk; [reflexivity | exact IH].
Qed.

Lemma assoc_replace_other (seg k : string) (new : node) (es : list (string * node)) :
  k <> seg ->
  Path.assoc k (InitSkill.replace_entry seg new es) = Path.assoc k es.
Proof.
  intros Hne. induction es as [|[k' n] es IH]; cbn; [reflexivity|].
  destruct (String.eqb seg k') eqn:Hs; cbn.
  - apply String.eqb_eq in Hs. subst k'.
    apply String.eqb_neq in Hne. rewrite Hne. reflexivity.
  - rewrite IH. reflexivity.
Qed.

Lemma assoc_app_none (k : string) (es es' : list (string * node)) :
  Path.assoc k es = None -> Path.assoc k (es ++ es') = Path.assoc k es'.
Proof.
  induction es as [|[k' n] es IH]; cbn; [reflexivity|].
  destruct (String.eqb k k'); [discriminate | exact IH].
Qed.

Lemma assoc_app_other (seg k : string) (new : node) (es : list (string * node)) :
  k <> seg -> Path.assoc k (es ++ [(seg, new)]) = Path.assoc k es.
Proof.
  intros Hne. induction es as [|[k' n] es IH]; cbn.
  - apply String.eqb_neq in Hne. rewrite Hne. reflexivity.
  - destruct (String.eqb k k'); [reflexivity | exact IH].
Qed.

(** What [put] stores at a path is found there. *)
Lemma lookup_put (p : path) :
  forall fs new fs', InitSkill.put fs p new = Ok fs' -> Path.lookup fs' p = Some new.
Proof.
  induction p as [|seg p IH]; intros fs new fs' H.
  - cbn in H. injection H as <-. reflexivity.
  - destruct fs as [c x|es x]; [discriminate H|]. cbn [InitSkill.put] in H.
    destruct (Path.assoc seg es) as [child|] eqn:Ha.
    + destruct (InitSkill.put child p new) as [child'|e] eqn:Hp; [|discriminate H].
      cbn in H. injection H as <-. cbn [Path.lookup].
      rewrite (assoc_replace_same _ _ _ _ Ha). apply (IH child new child' Hp).
    + destruct (InitSkill.put (Dir [] true) p new) as [child'|e] eqn:Hp; [|discriminate H].
      cbn in H. injection H as <-. cbn [Path.lookup].
      rewrite (assoc_app_none _ _ _ Ha). cbn. rewrite String.eqb_refl.
      apply (IH _ new child' Hp).
Qed.

(** [put] changes nothing at a path that neither leads to the new node
    nor lies below it. *)
Lemma lookup_put_other (p : path) :
  forall fs new fs' q,
    InitSkill.put fs p new = Ok fs' ->
    is_prefix q p = false -> is_prefix p q = false ->
    Path.lookup fs' q = Path.lookup fs q.
Proof.
  induction p as [|seg p IH]; intros fs new fs' q H Hqp Hpq.
  - discriminate Hpq.
  - destruct q as [|a q]; [discriminate Hqp|].
    destruct fs as [c x|es x]; [discriminate H|]. cbn [InitSkill.put] in H.
    cbn [is_prefix] in Hqp, Hpq. cbn [Path.lookup].
    destruct (String.eqb a seg) eqn:Has.
    + apply String.eqb_eq in Has. subst a. rewrite String.eqb_refl in Hpq.
      cbn in Hqp, Hpq.
      destruct (Path.assoc seg es) as [child|] eqn:Ha.
      * destruct (InitSkill.put child p new) as [child'|e] eqn:Hp; [|discriminate H].
        cbn in H. injection H as <-. cbn [Path.lookup].
        rewrite (assoc_replace_same _ _ _ _ Ha). apply (IH child new child' q Hp Hqp Hpq).
      * destruct (InitSkill.put (Dir [] true) p new) as [child'|e] eqn:Hp; [|discriminate H].
        cbn in H. injection H as <-. cbn [Path.lookup].
        rewrite (assoc_app_none _ _ _ Ha). cbn. rewrite String.eqb_refl.
        rewrite (IH _ new child' q Hp Hqp Hpq).
        destruct q as [|b q]; [discriminate Hqp | reflexivity].
    + assert (Hne : a <> seg) by (apply String.eqb_neq; exact Has).
      destruct (Path.assoc seg es) as [child|] eqn:Ha.
      * destruct (InitSkill.put child p new) as [child'|e] eqn:Hp; [|discriminate H].
        cbn in H. injection H as <-. cbn [Path.lookup].
        rewrite (assoc_replace_other _ _ _ _ Hne). reflexivity.
      * destruct (InitSkill.put (Dir [] true) p new) as [child'|e] eqn:Hp; [|discriminate H].
        cbn in H. injection H as <-. cbn [Path.lookup].
        rewrite (assoc_app_other _ _ _ _ Hne). reflexivity.
Qed.

Section Fresh.

Variable py_title : string -> string.

(** A run of [init_skill] that goes through has checked the name, found
    the place free, and stored the new directory there. *)
Lemma init_skill_done
    (fs fs' : node) (skill_name : string) (output_path : path) (resources : list string) :
  InitSkill.init_skill py_title fs skill_name output_path resources = InitSkill.InitDone fs' ->
  InitSkill.validate_skill_name skill_name = (true, "")
  /\ Path.exists_ fs (output_path ++ [skill_name]) = false
  /\ InitSkill.put fs (output_path ++ [skill_name])
       (InitSkill.skill_dir_node py_title skill_name resources) = Ok fs'.
Proof.
  unfold InitSkill.init_skill.
  destruct (InitSkill.validate_skill_name skill_name) as [valid msg] eqn:Hv.
  destruct valid; cbn [negb]; [|discriminate].
  destruct (Path.exists_ fs (output_path ++ [skill_name])) eqn:He; [discriminate|].
  destruct (InitSkill.put fs (output_path ++ [skill_name])
              (InitSkill.skill_dir_node py_title skill_name resources))
    as [fs0|e] eqn:Hp; [|discriminate].
  intros H. injection H as <-.
  split; [|split; reflexivity].
  revert Hv. unfold InitSkill.validate_skill_name.
  destruct (String.eqb skill_name ""); [discriminate|].
  destruct (64 <? String.length skill_name); [discriminate|].
  destruct (negb (Re.match_anchored Re.NAME_RE skill_name)); [discriminate|].
  intros H. injection H as <-. reflexivity.
Qed.

(** X10: a run of [init_skill] that goes through found no entry at the
    place of the new skill, leaves there the directory of the template
    files, and changes nothing at any path that neither leads to the new
    directory nor lies below it. *)
Theorem init_skill_creates
    (fs fs' : node) (skill_name : string) (output_path : path) (resources : list string) :
  InitSkill.init_skill py_title fs skill_name output_path resources = InitSkill.InitDone fs' ->
  Path.exists_ fs (output_path ++ [skill_name]) = false
  /\ Path.lookup fs' (output_path ++ [skill_name])
     = Some (InitSkill.skill_dir_node py_title skill_name resources)
  /\ forall q,
       is_prefix q (output_path ++ [skill_name]) = false ->
       is_prefix (output_path ++ [skill_name]) q = false ->
       Path.lookup fs' q = Path.lookup fs q.
Proof.
  intros H. destruct (init_skill_done _ _ _ _ _ H) as [_ [He Hp]].
  split; [exact He|]. split.
  - apply (lookup_put _ _ _ _ Hp).
  - intros q H1 H2. apply (lookup_put_other _ _ _ _ q Hp H1 H2).
Qed.

Lemma fresh_lookup (fs fs' : node) (skill_name : string) (output_path : path)
    (resources : list string) (q : path) :
  InitSkill.init_skill py_title fs skill_name output_path resources = InitSkill.InitDone fs' ->
  Path.lookup fs' ((output_path ++ [skill_name]) ++ q)
  = Path.lookup (InitSkill.skill_dir_node py_title skill_name resources) q.
Proof.
  intros H. destruct (init_skill_done _ _ _ _ _ H) as [_ [_ Hp]].
  apply lookup_app. apply (lookup_put _ _ _ _ Hp).
Qed.

Lemma no_member_nil (l : list ValidationError) : (forall v, ~ In v l) -> l = [].
Proof.
  destruct l as [|v l]; [reflexivity|]. intros H. destruct (H v). left. reflexivity.
Qed.

(** X11: the Tree Validator has nothing to report on a freshly
    initialized skill, whatever resources were asked for: no disallowed
    file, every resource a directory, and [example.py] executable. *)
Theorem fresh_skill_no_tree_findings
    (fs fs' : node) (skill_name : string) (output_path : path) (resources : list string) :
  InitSkill.init_skill py_title fs skill_name output_path resources = InitSkill.InitDone fs' ->
  validate_structure fs' (output_path ++ [skill_name]) = [].
Proof.
  intros H. apply no_member_nil. intros v Hv.
  apply validate_structure_in in Hv.
  assert (Hl : forall x, Path.lookup fs' ((output_path ++ [skill_name]) ++ [x])
                         = Path.lookup (InitSkill.skill_dir_node py_title skill_name resources) [x])
    by (intros x; apply (fresh_lookup _ _ _ _ _ _ H)).
  unfold InitSkill.skill_dir_node in Hl.
  destruct Hv as [[f [Hf [He _]]] | [[d [c [x [Hd [He _]]]]] | [es [x [n [s [He [Hin [_ [Hx _]]]]]]]]]].
  - unfold Path.exists_ in He. rewrite Hl in He.
    destruct Hf as [<- | [<- | [<- | [<- | []]]]];
      destruct (InitSkill.mem "scripts" resources);
      destruct (InitSkill.mem "references" resources);
      destruct (InitSkill.mem "assets" resources); discriminate He.
  - rewrite Hl in He.
    destruct Hd as [<- | [<- | [<- | []]]];
      destruct (InitSkill.mem "scripts" resources);
      destruct (InitSkill.mem "references" resources);
      destruct (InitSkill.mem "assets" resources); discriminate He.
  - rewrite Hl in He.
    destruct (InitSkill.mem "scripts" resources);
      destruct (InitSkill.mem "references" resources);
      destruct (InitSkill.mem "assets" resources); try discriminate He;
      cbn in He; injection He as <- <-;
      destruct Hin as [Hin | []]; injection Hin as <- <-; discriminate Hx.
Qed.

End Fresh.

Lemma init_skill_creates_witness :
  InitSkill.init_skill (fun s => s) (Dir [] true) "demo" ["skills"] demo_resources
  = InitSkill.InitDone demo_fs
  /\ Path.exists_ (Dir [] true) (["skills"] ++ ["demo"]) = false
  /\ Path.lookup demo_fs (["skills"] ++ ["demo"])
     = Some (InitSkill.skill_dir_node (fun s => s) "demo" demo_resources)
  /\ forall q,
       is_prefix q (["skills"] ++ ["demo"]) = false ->
       is_prefix (["skills"] ++ ["demo"]) q = false ->
       Path.lookup demo_fs q = Path.lookup (Dir [] true) q.
Proof.
  assert (H : InitSkill.init_skill (fun s => s) (Dir [] true) "demo" ["skills"]
                demo_resources = InitSkill.InitDone demo_fs)
    by (vm_compute; reflexivity).
  split; [exact H|].
  exact (init_skill_creates (fun s => s) (Dir [] true) demo_fs "demo" ["skills"]
           demo_resources H).
Defined.

Lemma fresh_skill_no_tree_findings_witness :
  InitSkill.init_skill (fun s => s) (Dir [] true) "demo" ["skills"] demo_resources
  = InitSkill.InitDone demo_fs
  /\ validate_structure demo_fs (["skills"] ++ ["demo"]) = [].
Proof.
  assert (H : InitSkill.init_skill (fun s => s) (Dir [] true) "demo" ["skills"]
                demo_resources = InitSkill.InitDone demo_fs)
    by (vm_compute; reflexivity).
  split; [exact H|].
  exact (fresh_skill_no_tree_findings (fun s => s) (Dir [] true) demo_fs "demo"
           ["skills"] demo_resources H).
Defined.


Section FreshArchive.

Variable py_title : string -> string.


End FreshArchive.


Section Runs.

Variable safe_load : string -> result py_value.
Variable py_str : py_value -> string.

(** A run whose validation raises, or returns a fatal finding, ends with
    status 1 and writes nothing. *)
Lemma main_blocked (fs : node) (a : args) :
  (exists e, validate_skill safe_load py_str fs (skill_path a) = Raise e)
  \/ (exists errors, validate_skill safe_load py_str fs (skill_path a) = Ok errors
                     /\ has_fatal errors) ->
  exit_status (main safe_load py_str fs a) = 1
  /\ archive (main safe_load py_str fs a) = None.
Proof.
  unfold main. intros [[e ->] | [errors [-> Hf]]]; [split; reflexivity|].
  destruct (filter is_error errors) as [|c cs] eqn:Hfil; [|split; reflexivity].
  apply filter_is_error_nil in Hfil. contradiction.
Qed.

Lemma has_fatal_app_l (l1 l2 : list ValidationError) : has_fatal l1 -> has_fatal (l1 ++ l2).
Proof. intros [e [Hin He]]. exists e. split; [apply in_or_app; left; exact Hin | exact He]. Qed.

Lemma has_fatal_app_r (l1 l2 : list ValidationError) : has_fatal l2 -> has_fatal (l1 ++ l2).
Proof. intros [e [Hin He]]. exists e. split; [apply in_or_app; right; exact Hin | exact He]. Qed.

Lemma has_fatal_one (v : ValidationError) : severity v = error -> has_fatal [v].
Proof. intros H. exists v. split; [left; reflexivity | exact H]. Qed.

(** A manifest whose header does not decode gets a fatal finding, or
    the decoder's own exception goes through. *)
Lemma validate_frontmatter_undecoded (content directory_name : string) :
  decoded_header safe_load content = None ->
  (exists e, validate_frontmatter safe_load py_str content directory_name = Raise e)
  \/ (exists v, validate_frontmatter safe_load py_str content directory_name = Ok ([], [v])
                /\ severity v = error).
Proof.
  unfold decoded_header, validate_frontmatter.
  destruct (PyStr.startswith content "---"); cbn [negb];
    [|intros _; right; eexists; split; reflexivity].
  destruct (Re.search Re.CLOSE_RE (PyStr.slice_from 3 content)) as [start|];
    [|intros _; right; eexists; split; reflexivity].
  destruct (safe_load _) as [[ | b | z | s | l | d]|[ | | | | m]]; intros H;
    try discriminate H;
    first [ right; eexists; split; reflexivity | left; eexists; reflexivity ].
Qed.

Variable py_title : string -> string.

(** X13: a freshly initialized skill is never packaged as it stands:
    whenever the header of the generated manifest, if it decodes at all,
    decodes with the template's description, the run of
    [package_skill.py] on the new directory ends with status 1 and
    writes no archive. *)
Theorem fresh_skill_is_not_packaged
    (fs fs' : node) (skill_name : string) (output_path : path) (resources : list string)
    (a : args) :
  InitSkill.init_skill py_title fs skill_name output_path resources = InitSkill.InitDone fs' ->
  skill_path a = output_path ++ [skill_name] ->
  (forall frontmatter,
     decoded_header safe_load (InitSkill.create_skill_md py_title skill_name resources)
     = Some frontmatter ->
     dict_get "description" frontmatter = Some (PyStr InitSkill.template_description)) ->
  exit_status (main safe_load py_str fs' a) = 1
  /\ archive (main safe_load py_str fs' a) = None.
Proof.
  intros Hinit Hsp Hdesc. apply main_blocked. rewrite Hsp.
  set (content := InitSkill.create_skill_md py_title skill_name resources) in *.
  assert (Hdir : Path.is_dir fs' (output_path ++ [skill_name]) = true).
  { unfold Path.is_dir.
    pose proof (fresh_lookup py_title _ _ _ _ _ [] Hinit) as Hl.
    rewrite app_nil_r in Hl. rewrite Hl. reflexivity. }
  assert (Hmd : Path.lookup fs' ((output_path ++ [skill_name]) ++ ["SKILL.md"])
                = Some (File content false)).
  { rewrite (fresh_lookup py_title _ _ _ _ _ ["SKILL.md"] Hinit). reflexivity. }
  rewrite (validate_skill_on_dir _ _ _ _ Hdir),
    (validate_skill_md_on_file _ _ _ _ _ _ Hmd).
  destruct (decoded_header safe_load content) as [frontmatter|] eqn:Hdec.
  - rewrite (decoded_header_validate_frontmatter _ _ _ _ _ Hdec), validate_fields_eq.
    assert (Hd : dict_get_default "description" (PyStr "") frontmatter
                 = PyStr InitSkill.template_description)
      by (unfold dict_get_default; rewrite (Hdesc frontmatter eq_refl); reflexivity).
    rewrite Hd, validate_description_str.
    destruct (validate_skill_name _ _ _) as [name_errors|e]; cbn [bind snd];
      [|left; eexists; reflexivity].
    right. eexists. split; [reflexivity|].
    apply has_fatal_app_l, has_fatal_app_l, has_fatal_app_r, has_fatal_app_l.
    exists Msg.description_todo. split; [|reflexivity].
    vm_compute. left. reflexivity.
  - destruct (validate_frontmatter_undecoded content
                (Path.name (output_path ++ [skill_name])) Hdec) as [[e He] | [v [Hv Hsev]]];
      rewrite ?He, ?Hv; cbn [bind snd].
    + left. eexists. reflexivity.
    + right. eexists. split; [reflexivity|].
      apply has_fatal_app_l, has_fatal_app_l. apply has_fatal_one. exact Hsev.
Qed.

End Runs.

Lemma fresh_skill_is_not_packaged_witness :
  InitSkill.init_skill (fun s => s) (Dir [] true) "demo" ["skills"] demo_resources
  = InitSkill.InitDone demo_fs
  /\ skill_path demo_args = ["skills"] ++ ["demo"]
  /\ (forall frontmatter,
        decoded_header demo_loader
          (InitSkill.create_skill_md (fun s => s) "demo" demo_resources)
        = Some frontmatter ->
        dict_get "description" frontmatter = Some (PyStr InitSkill.template_description))
  /\ exit_status (main demo_loader (fun _ => "") demo_fs demo_args) = 1
  /\ archive (main demo_loader (fun _ => "") demo_fs demo_args) = None.
Proof.
  assert (H : InitSkill.init_skill (fun s => s) (Dir [] true) "demo" ["skills"]
                demo_resources = InitSkill.InitDone demo_fs)
    by (vm_compute; reflexivity).
  assert (Hd : forall frontmatter,
             decoded_header demo_loader
               (InitSkill.create_skill_md (fun s => s) "demo" demo_resources)
             = Some frontmatter ->
             dict_get "description" frontmatter
             = Some (PyStr InitSkill.template_description)).
  { intros frontmatter Hdec. vm_compute in Hdec. injection Hdec as <-. reflexivity. }
  split; [exact H|]. split; [reflexivity|]. split; [exact Hd|].
  exact (fresh_skill_is_not_packaged demo_loader (fun _ => "") (fun s => s)
           (Dir [] true) demo_fs "demo" ["skills"] demo_resources demo_args
           H eq_refl Hd).
Defined.

(** ** The name validators of the two scripts *)

(** X14: the two scripts agree on names: [init_skill.py] accepts a name
    exactly when [package_skill.py] has no finding on that name in a
    directory of that name. *)
Theorem init_and_package_agree_on_names (py_str : py_value -> string) (name : string) :
  fst (InitSkill.validate_skill_name name) = true
  <-> validate_skill_name py_str (PyStr name) name = Ok [].
Proof.
  rewrite validate_skill_name_str.
  unfold InitSkill.validate_skill_name, Rules.name_findings, Rules.name_length_check,
    Rules.name_grammar_check, Rules.name_match_check.
  rewrite String.eqb_refl.
  destruct (String.eqb name ""); [split; discriminate|].
  destruct (64 <? String.length name); [split; discriminate|].
  destruct (Re.match_anchored Re.NAME_RE name); cbn; split; try discriminate; reflexivity.
Qed.

(** X15: [init_skill.py] accepts exactly the names of at most 64
    characters that are identifiers of the grammar, or such an
    identifier followed by one newline, which [$] lets through. *)
Theorem init_accepts_exactly (name : string) :
  fst (InitSkill.validate_skill_name name) = true
  <-> String.length name <= 64
      /\ (Rules.identifier name
          \/ exists w, name = (w ++ PyStr.nl)%string /\ Rules.identifier w).
Proof.
  rewrite <- match_anchored_NAME_RE. unfold InitSkill.validate_skill_name.
  destruct (String.eqb name "") eqn:He.
  - apply String.eqb_eq in He. subst name. cbn. split; [discriminate|].
    intros [_ H]. discriminate H.
  - destruct (64 <? String.length name) eqn:Hl.
    + apply Nat.ltb_lt in Hl. cbn. split; [discriminate | intros [H _]; lia].
    + apply Nat.ltb_ge in Hl.
      destruct (Re.match_anchored Re.NAME_RE name); cbn; split; auto.
      * intros [_ H]. discriminate H.
Qed.

(** ** Findings by severity *)

Lemma has_fatal_app (l1 l2 : list ValidationError) :
  has_fatal (l1 ++ l2) <-> has_fatal l1 \/ has_fatal l2.
Proof.
  unfold has_fatal. split.
  - intros [e [Hin He]]. apply in_app_or in Hin. destruct Hin; [left | right]; eauto.
  - intros [[e [Hin He]] | [e [Hin He]]]; exists e;
      (split; [apply in_or_app | exact He]); auto.
Qed.

Lemma has_fatal_nil : has_fatal [] <-> False.
Proof. split; [intros [e [[] _]] | intros []]. Qed.

Lemma has_fatal_warning (m : string) : has_fatal [mkVE m warning] <-> False.
Proof.
  split; [|intros []]. intros [e [[<- | []] He]]. discriminate He.
Qed.

Lemma has_fatal_error (m : string) : has_fatal [mkVE m error] <-> True.
Proof.
  split; [auto|]. intros _. exists (mkVE m error). split; [left|]; reflexivity.
Qed.

Lemma app_nil_iff (A : Type) (l1 l2 : list A) : l1 ++ l2 = [] <-> l1 = [] /\ l2 = [].
Proof.
  split; [apply app_eq_nil | intros [-> ->]; reflexivity].
Qed.

Lemma name_findings_nil (name directory_name : string) :
  Rules.name_findings name directory_name = []
  <-> String.length name <= 64
      /\ Re.match_anchored Re.NAME_RE name = true
      /\ name = directory_name.
Proof.
  unfold Rules.name_findings, Rules.name_length_check, Rules.name_grammar_check,
    Rules.name_match_check.
  destruct (String.eqb name "") eqn:He.
  - apply String.eqb_eq in He. subst name. split; [discriminate|].
    intros [_ [H _]]. discriminate H.
  - destruct (64 <? String.length name) eqn:Hl;
      [apply Nat.ltb_lt in Hl | apply Nat.ltb_ge in Hl];
      destruct (Re.match_anchored Re.NAME_RE name);
      (destruct (String.eqb name directory_name) eqn:Hd;
       [apply String.eqb_eq in Hd | apply String.eqb_neq in Hd]);
      cbn; split; try discriminate; try (intros [H1 [H2 H3]]; try discriminate; try lia;
                                         contradiction);
      intros _; auto.
Qed.

Lemma description_findings_nil (description : string) :
  Rules.description_findings description = []
  <-> 50 <= String.length description <= 1024
      /\ PyStr.contains "todo" (PyStr.lower description) = false
      /\ existsb (fun indicator => PyStr.contains indicator (PyStr.lower description))
           when_indicators = true.
Proof.
  unfold Rules.description_findings.
  destruct (String.eqb description "") eqn:He.
  - apply String.eqb_eq in He. subst description.
    split; [discriminate|]. cbn. intros [[H _] _]. lia.
  - rewrite !app_nil_iff.
    unfold Rules.description_length_check, Rules.description_short_check,
      Rules.description_todo_check, Rules.description_when_check.
    destruct (1024 <? String.length description) eqn:Hl;
      [apply Nat.ltb_lt in Hl | apply Nat.ltb_ge in Hl];
      (destruct (String.length description <? 50) eqn:Hs;
       [apply Nat.ltb_lt in Hs | apply Nat.ltb_ge in Hs]);
      destruct (PyStr.contains "todo" (PyStr.lower description));
      destruct (existsb _ when_indicators);
      (split; [intros [H1 [H2 [H3 H4]]]; try discriminate; repeat split; lia
              | intros [[H1 H2] [H3 H4]]; try discriminate; try lia;
                repeat split ]).
Qed.

(** X16: on a string, the description validator returns a fatal finding
    exactly when the description is empty, longer than 1024 characters,
    or contains [todo] in any letter case; and it returns no finding at
    all exactly when the description has 50 to 1024 characters, no
    [todo], and one of the usage triggers. *)
Theorem description_findings_by_severity (description : string) :
  exists errors,
    validate_description (PyStr description) = Ok errors
    /\ (has_fatal errors
        <-> description = ""
            \/ 1024 < String.length description
            \/ PyStr.contains "todo" (PyStr.lower description) = true)
    /\ (errors = []
        <-> 50 <= String.length description <= 1024
            /\ PyStr.contains "todo" (PyStr.lower description) = false
            /\ existsb (fun indicator =>
                          PyStr.contains indicator (PyStr.lower description))
                 when_indicators = true).
Proof.
  exists (Rules.description_findings description).
  split; [apply validate_description_str|].
  split; [|apply description_findings_nil].
  unfold Rules.description_findings.
  destruct (String.eqb description "") eqn:He.
  - apply String.eqb_eq in He. subst description.
    split; [auto|]. intros _. apply has_fatal_error. exact I.
  - apply String.eqb_neq in He.
    assert (Hlen : has_fatal (Rules.description_length_check description)
                   <-> 1024 < String.length description).
    { unfold Rules.description_length_check.
      destruct (1024 <? String.length description) eqn:Hl.
      - apply Nat.ltb_lt in Hl. unfold Msg.description_too_long.
        rewrite has_fatal_error. tauto.
      - apply Nat.ltb_ge in Hl. rewrite has_fatal_nil. lia. }
    assert (Hshort : has_fatal (Rules.description_short_check description) <-> False).
    { unfold Rules.description_short_check.
      destruct (String.length description <? 50);
        [apply has_fatal_warning | apply has_fatal_nil]. }
    assert (Htodo : has_fatal (Rules.description_todo_check description)
                    <-> PyStr.contains "todo" (PyStr.lower description) = true).
    { unfold Rules.description_todo_check.
      destruct (PyStr.contains "todo" (PyStr.lower description)).
      - unfold Msg.description_todo. rewrite has_fatal_error. tauto.
      - rewrite has_fatal_nil. split; [intros [] | discriminate]. }
    assert (Hwhen : has_fatal (Rules.description_when_check description) <-> False).
    { unfold Rules.description_when_check.
      destruct (existsb _ when_indicators);
        [apply has_fatal_nil | apply has_fatal_warning]. }
    rewrite !has_fatal_app, Hlen, Hshort, Htodo, Hwhen. tauto.
Qed.

Lemma validate_description_crashes (description : py_value) :
  crashes description = true -> exists e, validate_description description = Raise e.
Proof.
  unfold crashes, validate_description.
  destruct description as [ | b | z | s | l | d]; cbn [truthy].
  - discriminate.
  - destruct b; [intros _; eexists; reflexivity | discriminate].
  - destruct (Z.eqb z 0); [discriminate | intros _; eexists; reflexivity].
  - rewrite andb_false_r. discriminate.
  - destruct l as [|v l]; [discriminate|]. intros _. cbn.
    destruct (1024 <? S (length l)); eexists; reflexivity.
  - destruct d as [|v d]; [discriminate|]. intros _. cbn.
    destruct (1024 <? S (length d)); eexists; reflexivity.
Qed.

Lemma validate_description_returns (description : py_value) :
  crashes description = false -> exists errors, validate_description description = Ok errors.
Proof.
  destruct description as [ | b | z | s | l | d].
  - intros _. eexists. reflexivity.
  - destruct b; [discriminate | intros _; eexists; reflexivity].
  - unfold crashes, validate_description. cbn [truthy].
    destruct (Z.eqb z 0); [intros _; eexists; reflexivity | discriminate].
  - intros _. rewrite validate_description_str. eexists. reflexivity.
  - destruct l; [intros _; eexists; reflexivity | discriminate].
  - destruct d; [intros _; eexists; reflexivity | discriminate].
Qed.

Lemma validate_skill_name_returns (py_str : py_value -> string)
    (name : py_value) (directory_name : string) :
  crashes name = false ->
  exists errors, validate_skill_name py_str name directory_name = Ok errors.
Proof.
  destruct name as [ | b | z | s | l | d].
  - intros _. eexists. reflexivity.
  - destruct b; [discriminate | intros _; eexists; reflexivity].
  - unfold crashes, validate_skill_name. cbn [truthy].
    destruct (Z.eqb z 0); [intros _; eexists; reflexivity | discriminate].
  - intros _. rewrite validate_skill_name_str. eexists. reflexivity.
  - destruct l; [intros _; eexists; reflexivity | discriminate].
  - destruct d; [intros _; eexists; reflexivity | discriminate].
Qed.

Lemma crashes_not_str (v : py_value) :
  crashes v = true -> truthy v = true /\ forall s, v <> PyStr s.
Proof.
  unfold crashes. intros H. apply andb_true_iff in H. destruct H as [Ht Hs].
  split; [exact Ht|]. intros s ->. discriminate Hs.
Qed.

(** X17: the field checks on a decoded header raise exactly when the
    value of [name] or of [description] is one Python finds true and
    that is not a string (a number other than zero, [True], a sequence
    or mapping that is not empty); on every other header they return
    their findings. *)
Theorem field_validator_raises_iff (py_str : py_value -> string)
    (frontmatter : list (py_value * py_value)) (directory_name : string) :
  (exists e, validate_fields py_str frontmatter directory_name = Raise e)
  <-> crashes (dict_get_default "name" (PyStr "") frontmatter) = true
      \/ crashes (dict_get_default "description" (PyStr "") frontmatter) = true.
Proof.
  rewrite validate_fields_eq.
  destruct (crashes (dict_get_default "name" (PyStr "") frontmatter)) eqn:Hn.
  - destruct (crashes_not_str _ Hn) as [Ht Hs].
    rewrite (validate_skill_name_not_str py_str _ directory_name Ht Hs).
    split; [auto | intros _; eexists; reflexivity].
  - destruct (validate_skill_name_returns py_str _ directory_name Hn) as [name_errors ->].
    cbn [bind].
    destruct (crashes (dict_get_default "description" (PyStr "") frontmatter)) eqn:Hd.
    + destruct (validate_description_crashes _ Hd) as [e ->].
      split; [auto | intros _; eexists; reflexivity].
    + destruct (validate_description_returns _ Hd) as [description_errors ->].
      split; [intros [e H]; discriminate H | intros [H|H]; discriminate H].
Qed.

(** ** The header block *)

Lemma slice_from_append (a b : string) : PyStr.slice_from (String.length a) (a ++ b) = b.
Proof. induction a as [|c a IH]; [destruct b; reflexivity | exact IH]. Qed.

Lemma slice_from_nil (n : nat) : PyStr.slice_from n "" = "".
Proof. destruct n; reflexivity. Qed.

(** A string is its first [n] characters followed by the rest. *)
Lemma substring_slice_from (n : nat) (s : string) :
  (String.substring 0 n s ++ PyStr.slice_from n s)%string = s.
Proof.
  revert s. induction n as [|n IH]; intros [|c s]; cbn; try reflexivity.
  rewrite IH. reflexivity.
Qed.

Lemma substring_length (n : nat) (s : string) :
  n <= String.length s -> String.length (String.substring 0 n s) = n.
Proof.
  revert s. induction n as [|n IH]; intros [|c s] H; cbn in *; try reflexivity; try lia.
  rewrite IH; lia.
Qed.

Lemma substring_shift (k n : nat) (s : string) :
  String.substring k n s = String.substring 0 n (PyStr.slice_from k s).
Proof.
  revert s. induction k as [|k IH]; intros s; [reflexivity|].
  destruct s as [|c s]; cbn.
  - destruct n; reflexivity.
  - apply IH.
Qed.

Lemma startswith_split (s p : string) :
  PyStr.startswith s p = true -> s = (p ++ PyStr.slice_from (String.length p) s)%string.
Proof.
  unfold PyStr.startswith. revert s. induction p as [|a p IH]; intros s H.
  - destruct s; reflexivity.
  - destruct s as [|b s]; [discriminate H|]. cbn in H.
    destruct (ascii_dec a b) as [->|]; [|discriminate H].
    cbn. rewrite <- (IH s H). reflexivity.
Qed.

(** The leftmost match: where [search_from] stops, a match starts, and
    none starts before. *)
Lemma search_from_some (r : Re.regex) (s : string) :
  forall i j,
    Re.search_from i r s = Some j ->
    exists k,
      j = i + k /\ k <= String.length s
      /\ Re.matches_prefix r (PyStr.slice_from k s) = true
      /\ forall k', k' < k -> Re.matches_prefix r (PyStr.slice_from k' s) = false.
Proof.
  induction s as [|c s IH]; intros i j; cbn [Re.search_from].
  - destruct (Re.matches_prefix r "") eqn:Hm; [|discriminate].
    intros H. injection H as <-. exists 0. repeat split; [lia | lia | exact Hm |].
    intros k' Hk. lia.
  - destruct (Re.matches_prefix r (String c s)) eqn:Hm.
    + intros H. injection H as <-. exists 0. repeat split; [lia | cbn; lia | exact Hm |].
      intros k' Hk. lia.
    + intros H. destruct (IH _ _ H) as [k [-> [Hle [Hk Hmin]]]].
      exists (S k). repeat split; [lia | cbn; lia | exact Hk |].
      intros [|k'] Hlt; [exact Hm|]. apply Hmin. lia.
Qed.

(** X18: when the manifest opens with the sentinel and a closing line is
    found, the text handed to the decoder is what lies between the
    opening sentinel and the first closing line: the manifest is the
    sentinel, that text, a line reading [---] and whitespace, and the
    rest; and no closing line starts earlier. *)
Theorem header_is_text_before_first_closing_line (content : string) (start : nat) :
  PyStr.startswith content "---" = true ->
  Re.search Re.CLOSE_RE (PyStr.slice_from 3 content) = Some start ->
  exists ws after,
    content = ("---" ++ PyStr.slice 3 (start + 3) content
               ++ PyStr.nl ++ "---" ++ ws ++ PyStr.nl ++ after)%string
    /\ PyStr.all_chars PyStr.is_space ws = true
    /\ String.length (PyStr.slice 3 (start + 3) content) = start
    /\ forall before' ws' after',
         PyStr.slice_from 3 content
         = (before' ++ PyStr.nl ++ "---" ++ ws' ++ PyStr.nl ++ after')%string ->
         PyStr.all_chars PyStr.is_space ws' = true ->
         start <= String.length before'.
Proof.
  intros Hs Hsearch.
  set (rest := PyStr.slice_from 3 content) in *.
  destruct (search_from_some _ _ _ _ Hsearch) as [k [Hk [Hle [Hm Hmin]]]].
  cbn in Hk. subst k.
  assert (Hhdr : PyStr.slice 3 (start + 3) content = String.substring 0 start rest).
  { unfold PyStr.slice. replace (start + 3 - 3) with start by lia.
    apply substring_shift. }
  apply ReFacts.matches_prefix_spec in Hm. destruct Hm as [p [after [Hp Hlang]]].
  apply ReFacts.lang_CLOSE_RE in Hlang. destruct Hlang as [ws [-> Hws]].
  exists ws, after. rewrite Hhdr. split; [|split; [exact Hws|split]].
  - etransitivity; [exact (startswith_split content "---" Hs)|].
    change (PyStr.slice_from (String.length "---") content) with rest.
    f_equal. symmetry.
    etransitivity; [|exact (substring_slice_from start rest)].
    f_equal. rewrite Hp. cbn. rewrite ReFacts.append_assoc. reflexivity.
  - apply substring_length. exact Hle.
  - intros before' ws' after' Hdec Hws'.
    destruct (Nat.le_gt_cases start (String.length before')) as [H|H]; [exact H|].
    exfalso. pose proof (Hmin _ H) as Hno.
    rewrite Hdec, slice_from_append in Hno.
    assert (Hyes : Re.matches_prefix Re.CLOSE_RE
                     (PyStr.nl ++ "---" ++ ws' ++ PyStr.nl ++ after') = true).
    { apply ReFacts.matches_prefix_spec.
      exists (PyStr.nl ++ "---" ++ ws' ++ PyStr.nl)%string, after'. split.
      - cbn. rewrite ReFacts.append_assoc. reflexivity.
      - apply ReFacts.lang_CLOSE_RE. exists ws'. auto. }
    congruence.
Qed.

Lemma header_is_text_before_first_closing_line_witness :
  PyStr.startswith scenario_a_manifest "---" = true
  /\ Re.search Re.CLOSE_RE (PyStr.slice_from 3 scenario_a_manifest) = Some 115
  /\ exists ws after,
       scenario_a_manifest
       = ("---" ++ PyStr.slice 3 (115 + 3) scenario_a_manifest
          ++ PyStr.nl ++ "---" ++ ws ++ PyStr.nl ++ after)%string
       /\ PyStr.all_chars PyStr.is_space ws = true
       /\ String.length (PyStr.slice 3 (115 + 3) scenario_a_manifest) = 115
       /\ forall before' ws' after',
            PyStr.slice_from 3 scenario_a_manifest
            = (before' ++ PyStr.nl ++ "---" ++ ws' ++ PyStr.nl ++ after')%string ->
            PyStr.all_chars PyStr.is_space ws' = true ->
            115 <= String.length before'.
Proof.
  assert (H : Re.search Re.CLOSE_RE (PyStr.slice_from 3 scenario_a_manifest) = Some 115)
    by (vm_compute; reflexivity).
  split; [reflexivity|]. split; [exact H|].
  exact (header_is_text_before_first_closing_line scenario_a_manifest 115 eq_refl H).
Defined.

Section Malformed.

Variable safe_load : string -> result py_value.
Variable py_str : py_value -> string.

(** X19: when no header is decoded from the manifest (no opening
    sentinel, no closing line, a decoded value that is not a mapping, or
    text the decoder refuses) and the decoder raises nothing but
    [YAMLError], [validate_frontmatter] returns exactly one finding, a
    fatal one, and none on any field. *)
Theorem malformed_header_one_finding (content directory_name : string) :
  decoded_header safe_load content = None ->
  (forall text e, safe_load text = Raise e -> exists m, e = YAMLError m) ->
  exists v,
    validate_frontmatter safe_load py_str content directory_name = Ok ([], [v])
    /\ severity v = error
    /\ (v = Msg.frontmatter_start \/ v = Msg.frontmatter_unclosed
        \/ v = Msg.frontmatter_not_dict \/ exists m, v = Msg.frontmatter_invalid m).
Proof.
  intros Hdec Hyaml. unfold decoded_header in Hdec. unfold validate_frontmatter.
  destruct (PyStr.startswith content "---"); cbn [negb].
  - destruct (Re.search Re.CLOSE_RE (PyStr.slice_from 3 content)) as [start|].
    + destruct (safe_load (PyStr.slice 3 (start + 3) content)) as [v|e] eqn:Hl.
      * destruct v; try discriminate Hdec;
          (exists Msg.frontmatter_not_dict; split; [reflexivity|];
           split; [reflexivity | right; right; left; reflexivity]).
      * destruct (Hyaml _ _ Hl) as [m ->].
        exists (Msg.frontmatter_invalid m). split; [reflexivity|].
        split; [reflexivity | right; right; right; exists m; reflexivity].
    + exists Msg.frontmatter_unclosed. split; [reflexivity|].
      split; [reflexivity | right; left; reflexivity].
  - exists Msg.frontmatter_start. split; [reflexivity|].
    split; [reflexivity | left; reflexivity].
Qed.

End Malformed.

Lemma malformed_header_one_finding_witness :
  decoded_header (loader_of []) unclosed_manifest = None
  /\ (forall text e, loader_of [] text = Raise e -> exists m, e = YAMLError m)
  /\ exists v,
       validate_frontmatter (loader_of []) (fun _ => "") unclosed_manifest "my-skill"
       = Ok ([], [v])
       /\ severity v = error
       /\ (v = Msg.frontmatter_start \/ v = Msg.frontmatter_unclosed
           \/ v = Msg.frontmatter_not_dict \/ exists m, v = Msg.frontmatter_invalid m).
Proof.
  assert (H : decoded_header (loader_of []) unclosed_manifest = None)
    by (vm_compute; reflexivity).
  assert (Hy : forall text e, loader_of [] text = Raise e -> exists m, e = YAMLError m).
  { intros text e He. cbn in He. injection He as <-. eexists. reflexivity. }
  split; [exact H|]. split; [exact Hy|].
  exact (malformed_header_one_finding (loader_of []) (fun _ => "") unclosed_manifest
           "my-skill" H Hy).
Defined.

(** ** A report without findings *)

Lemma body_warnings_nil (content : string) :
  body_warnings content = []
  <-> PyStr.count_lines content <= 500
      /\ PyStr.contains "<!-- TODO" content = false
      /\ PyStr.contains "# TODO" content = false.
Proof.
  unfold body_warnings.
  destruct (500 <? PyStr.count_lines content) eqn:Hl;
    [apply Nat.ltb_lt in Hl | apply Nat.ltb_ge in Hl];
    destruct (PyStr.contains "<!-- TODO" content);
    destruct (PyStr.contains "# TODO" content); cbn;
    split; try discriminate; try (intros [H1 [H2 H3]]; try discriminate; lia); auto.
Qed.

Lemma compatibility_check_nil (py_str : py_value -> string)
    (frontmatter : list (py_value * py_value)) :
  Rules.compatibility_check py_str frontmatter = []
  <-> forall compat,
        dict_get "compatibility" frontmatter = Some compat ->
        String.length (str_of py_str compat) <= 500.
Proof.
  unfold Rules.compatibility_check.
  destruct (dict_get "compatibility" frontmatter) as [compat|].
  - destruct (500 <? String.length (str_of py_str compat)) eqn:Hl;
      [apply Nat.ltb_lt in Hl | apply Nat.ltb_ge in Hl].
    + split; [discriminate|]. intros H. specialize (H compat eq_refl). lia.
    + split; [|reflexivity]. intros _ c Hc. injection Hc as <-. exact Hl.
  - split; [|reflexivity]. intros _ c Hc. discriminate Hc.
Qed.

(** Only a string gets through a field validator without a finding. *)
Lemma validate_skill_name_nil (py_str : py_value -> string)
    (name : py_value) (directory_name : string) :
  validate_skill_name py_str name directory_name = Ok [] ->
  exists s, name = PyStr s /\ s <> "".
Proof.
  destruct name as [ | b | z | s | l | d].
  - discriminate.
  - destruct b; discriminate.
  - unfold validate_skill_name. cbn [truthy]. destruct (Z.eqb z 0); discriminate.
  - intros H. exists s. split; [reflexivity|]. intros ->. discriminate H.
  - destruct l; discriminate.
  - destruct d; discriminate.
Qed.

Lemma validate_description_nil (description : py_value) :
  validate_description description = Ok [] ->
  exists s, description = PyStr s /\ s <> "".
Proof.
  destruct description as [ | b | z | s | l | d].
  - discriminate.
  - destruct b; discriminate.
  - unfold validate_description. cbn [truthy]. destruct (Z.eqb z 0); discriminate.
  - intros H. exists s. split; [reflexivity|]. intros ->. discriminate H.
  - destruct l as [|v l]; [discriminate|]. unfold validate_description. cbn.
    destruct (1024 <? S (length l)); discriminate.
  - destruct d as [|v d]; [discriminate|]. unfold validate_description. cbn.
    destruct (1024 <? S (length d)); discriminate.
Qed.

Lemma dict_get_default_str (k : string) (d : list (py_value * py_value)) (s : string) :
  s <> "" ->
  dict_get_default k (PyStr "") d = PyStr s <-> dict_get k d = Some (PyStr s).
Proof.
  intros Hs. unfold dict_get_default. destruct (dict_get k d) as [v|].
  - split; [intros -> | intros H; injection H as ->]; reflexivity.
  - split; [|discriminate]. intros H. injection H as <-. congruence.
Qed.

Lemma bind_ok (A B : Type) (m : result A) (k : A -> result B) (b : B) :
  bind m k = Ok b <-> exists a, m = Ok a /\ k a = Ok b.
Proof.
  destruct m as [a|e]; cbn.
  - split; [eauto | intros [a' [H H']]; injection H as <-; exact H'].
  - split; [discriminate | intros [a' [H _]]; discriminate H].
Qed.

Section Clean.

Variable safe_load : string -> result py_value.
Variable py_str : py_value -> string.

(** The field checks pass a header without a finding exactly when the
    name is the directory name and on the grammar, the description is
    long enough, free of the placeholder and says when to use the
    skill, and the compatibility note is short. *)
Lemma validate_fields_nil (frontmatter : list (py_value * py_value))
    (directory_name : string) :
  validate_fields py_str frontmatter directory_name = Ok []
  <-> dict_get "name" frontmatter = Some (PyStr directory_name)
      /\ String.length directory_name <= 64
      /\ Re.match_anchored Re.NAME_RE directory_name = true
      /\ (exists description,
            dict_get "description" frontmatter = Some (PyStr description)
            /\ 50 <= String.length description <= 1024
            /\ PyStr.contains "todo" (PyStr.lower description) = false
            /\ existsb (fun indicator =>
                          PyStr.contains indicator (PyStr.lower description))
                 when_indicators = true)
      /\ (forall compat,
            dict_get "compatibility" frontmatter = Some compat ->
            String.length (str_of py_str compat) <= 500).
Proof.
  rewrite validate_fields_eq. split.
  - intros H. apply bind_ok in H. destruct H as [name_errors [Hn H]].
    apply bind_ok in H. destruct H as [description_errors [Hd H]].
    injection H as H. apply app_eq_nil in H. destruct H as [-> H].
    apply app_eq_nil in H. destruct H as [-> Hc].
    destruct (validate_skill_name_nil _ _ _ Hn) as [n [Hnv Hne]].
    destruct (validate_description_nil _ Hd) as [d [Hdv Hde]].
    rewrite Hnv, validate_skill_name_str in Hn. injection Hn as Hn.
    rewrite Hdv, validate_description_str in Hd. injection Hd as Hd.
    apply name_findings_nil in Hn. destruct Hn as [Hl [Hm ->]].
    apply description_findings_nil in Hd.
    apply (dict_get_default_str _ _ _ Hne) in Hnv.
    apply (dict_get_default_str _ _ _ Hde) in Hdv.
    split; [exact Hnv|]. split; [exact Hl|]. split; [exact Hm|].
    split; [exists d; tauto | exact (proj1 (compatibility_check_nil _ _) Hc)].
  - intros [Hn [Hl [Hm [[d [Hd Hdesc]] Hc]]]].
    unfold dict_get_default. rewrite Hn, Hd.
    rewrite validate_skill_name_str, validate_description_str. cbn [bind].
    rewrite (proj2 (name_findings_nil directory_name directory_name)) by auto.
    rewrite (proj2 (description_findings_nil d) Hdesc).
    rewrite (proj2 (compatibility_check_nil py_str frontmatter) Hc). reflexivity.
Qed.

(** X20: validation returns an empty report exactly when the skill path
    is a directory whose [SKILL.md] is a regular file with a decoded
    header, the header's name is the directory name, at most 64
    characters long and an identifier of the grammar (or one followed by
    a newline), its description is a string of 50 to 1024 characters
    with a usage trigger and without [todo], its compatibility note, if
    any, prints in at most 500 characters, the manifest has at most 500
    lines by the count of [split] and neither TODO marker, and the Tree
    Validator finds nothing. *)
Theorem clean_report_iff (fs : node) (sp : path) :
  validate_skill safe_load py_str fs sp = Ok []
  <-> Path.is_dir fs sp = true
      /\ exists content x frontmatter description,
           Path.lookup fs (sp ++ ["SKILL.md"]) = Some (File content x)
           /\ decoded_header safe_load content = Some frontmatter
           /\ dict_get "name" frontmatter = Some (PyStr (Path.name sp))
           /\ String.length (Path.name sp) <= 64
           /\ (Rules.identifier (Path.name sp)
               \/ exists w, Path.name sp = (w ++ PyStr.nl)%string /\ Rules.identifier w)
           /\ dict_get "description" frontmatter = Some (PyStr description)
           /\ 50 <= String.length description <= 1024
           /\ PyStr.contains "todo" (PyStr.lower description) = false
           /\ existsb (fun indicator =>
                         PyStr.contains indicator (PyStr.lower description))
                when_indicators = true
           /\ (forall compat,
                 dict_get "compatibility" frontmatter = Some compat ->
                 String.length (str_of py_str compat) <= 500)
           /\ PyStr.count_lines content <= 500
           /\ PyStr.contains "<!-- TODO" content = false
           /\ PyStr.contains "# TODO" content = false
           /\ validate_structure fs sp = [].
Proof.
  split.
  - intros H.
    assert (Hdir : Path.is_dir fs sp = true).
    { revert H. unfold validate_skill.
      destruct (Path.exists_ fs sp); cbn [negb]; [|discriminate].
      destruct (Path.is_dir fs sp); cbn [negb]; [reflexivity | discriminate]. }
    split; [exact Hdir|].
    rewrite (validate_skill_on_dir _ _ _ _ Hdir) in H.
    apply bind_ok in H. destruct H as [md_errors [Hmd H]].
    injection H as H. apply app_eq_nil in H. destruct H as [-> Htree].
    destruct (Path.lookup fs (sp ++ ["SKILL.md"])) as [[content x|es x]|] eqn:Hl.
    + rewrite (validate_skill_md_on_file _ _ _ _ _ _ Hl) in Hmd.
      apply bind_ok in Hmd. destruct Hmd as [[fm errs] [Hfm H]].
      injection H as H. cbn [snd] in H. apply app_eq_nil in H. destruct H as [-> Hbody].
      destruct (decoded_header safe_load content) as [frontmatter|] eqn:Hdec.
      * rewrite (decoded_header_validate_frontmatter _ _ _ _ _ Hdec) in Hfm.
        apply bind_ok in Hfm. destruct Hfm as [field_errors [Hf H]].
        injection H as _ ->. apply validate_fields_nil in Hf.
        destruct Hf as [Hn [Hlen [Hm [[d [Hd [H50 [Htodo Hwhen]]]] Hc]]]].
        apply body_warnings_nil in Hbody. destruct Hbody as [Hlines [Hb1 Hb2]].
        apply match_anchored_NAME_RE in Hm.
        exists content, x, frontmatter, d. tauto.
      * destruct (validate_frontmatter_undecoded safe_load py_str content (Path.name sp) Hdec)
          as [[e He] | [v [Hv _]]]; congruence.
    + unfold validate_skill_md in Hmd. rewrite Hl in Hmd. cbn in Hmd. discriminate Hmd.
    + unfold validate_skill_md in Hmd. rewrite Hl in Hmd. cbn in Hmd. discriminate Hmd.
  - intros [Hdir [content [x [frontmatter [d H]]]]].
    destruct H as [Hl [Hdec [Hn [Hlen [Hid [Hd [H50 [Htodo [Hwhen [Hc [Hlines [Hb1 [Hb2 Htree]]]]]]]]]]]]].
    rewrite (validate_skill_on_dir _ _ _ _ Hdir),
      (validate_skill_md_on_file _ _ _ _ _ _ Hl),
      (decoded_header_validate_frontmatter _ _ _ _ _ Hdec).
    apply match_anchored_NAME_RE in Hid.
    rewrite (proj2 (validate_fields_nil frontmatter (Path.name sp))) by eauto 10.
    cbn [bind snd]. rewrite (proj2 (body_warnings_nil content)) by auto.
    rewrite Htree. reflexivity.
Qed.

End Clean.

(** ** The line count of the manifest *)

Lemma count_lines_append (a b : string) :
  PyStr.count_lines (a ++ b) + 1 = PyStr.count_lines a + PyStr.count_lines b.
Proof.
  induction a as [|c a IH]; cbn; [lia|].
  destruct (Ascii.eqb c "010"%char); lia.
Qed.

Lemma count_lines_no_newline (l : string) :
  PyStr.contains PyStr.nl l = false -> PyStr.count_lines l = 1.
Proof.
  induction l as [|c l IH]; [reflexivity|].
  cbn [PyStr.contains PyStr.count_lines]. intros H.
  apply orb_false_iff in H. destruct H as [Hp Hl].
  destruct (Ascii.eqb c "010"%char) eqn:Hc.
  - apply Ascii.eqb_eq in Hc. subst c. cbn in Hp. destruct l; discriminate Hp.
  - apply IH. exact Hl.
Qed.

Lemma unlines_cons (l : string) (lines : list string) :
  InitSkill.unlines (l :: lines) = ((l ++ PyStr.nl) ++ InitSkill.unlines lines)%string.
Proof.
  unfold InitSkill.unlines. cbn [map String.concat].
  destruct (map _ lines); [|reflexivity].
  cbn. rewrite ReFacts.append_nil_r. reflexivity.
Qed.

Lemma count_lines_unlines (lines : list string) :
  Forall (fun l => PyStr.contains PyStr.nl l = false) lines ->
  PyStr.count_lines (InitSkill.unlines lines) = S (length lines).
Proof.
  induction 1 as [|l lines Hl _ IH]; [reflexivity|].
  rewrite unlines_cons. cbn [length].
  pose proof (count_lines_append (l ++ PyStr.nl) (InitSkill.unlines lines)) as H1.
  pose proof (count_lines_append l PyStr.nl) as H2.
  rewrite (count_lines_no_newline l Hl) in H2. cbn in H2. rewrite IH in H1. lia.
Qed.

Section Lines.

Variable safe_load : string -> result py_value.
Variable py_str : py_value -> string.

Lemma validate_skill_name_not_about_lines (name : py_value) (directory_name : string)
    (errors : list ValidationError) :
  validate_skill_name py_str name directory_name = Ok errors ->
  filter about_lines errors = [].
Proof.
  destruct name as [ | b | z | s | l | d].
  - intros H. injection H as <-. reflexivity.
  - destruct b; [discriminate|]. intros H. injection H as <-. reflexivity.
  - unfold validate_skill_name. cbn [truthy].
    destruct (Z.eqb z 0); cbn [negb]; [|discriminate].
    intros H. injection H as <-. reflexivity.
  - rewrite validate_skill_name_str. intros H. injection H as <-.
    unfold Rules.name_findings, Rules.name_length_check, Rules.name_grammar_check,
      Rules.name_match_check.
    destruct (String.eqb s ""); [reflexivity|].
    destruct (64 <? String.length s);
      destruct (Re.match_anchored Re.NAME_RE s);
      destruct (String.eqb s directory_name); reflexivity.
  - destruct l; [|discriminate]. intros H. injection H as <-. reflexivity.
  - destruct d; [|discriminate]. intros H. injection H as <-. reflexivity.
Qed.

Lemma validate_description_not_about_lines (description : py_value)
    (errors : list ValidationError) :
  validate_description description = Ok errors ->
  filter about_lines errors = [].
Proof.
  destruct description as [ | b | z | d | items | items ].
  - intros H. injection H as <-. reflexivity.
  - destruct b; [discriminate|]. intros H. injection H as <-. reflexivity.
  - unfold validate_description. cbn [truthy].
    destruct (Z.eqb z 0); cbn [negb]; [|discriminate].
    intros H. injection H as <-. reflexivity.
  - rewrite validate_description_str. intros H. injection H as <-.
    unfold Rules.description_findings, Rules.description_length_check,
      Rules.description_short_check, Rules.description_todo_check,
      Rules.description_when_check.
    destruct (String.eqb d ""); [reflexivity|].
    destruct (1024 <? String.length d);
      destruct (String.length d <? 50);
      destruct (PyStr.contains "todo" (PyStr.lower d));
      destruct (existsb _ when_indicators); reflexivity.
  - destruct items; [|discriminate]. intros H. injection H as <-. reflexivity.
  - destruct items; [|discriminate]. intros H. injection H as <-. reflexivity.
Qed.

Lemma validate_frontmatter_not_about_lines (content directory_name : string)
    (fm : list (py_value * py_value) * list ValidationError) :
  validate_frontmatter safe_load py_str content directory_name = Ok fm ->
  filter about_lines (snd fm) = [].
Proof.
  unfold validate_frontmatter.
  destruct (PyStr.startswith content "---"); cbn [negb];
    [|intros H; injection H as <-; reflexivity].
  destruct (Re.search Re.CLOSE_RE (PyStr.slice_from 3 content)) as [start|];
    [|intros H; injection H as <-; reflexivity].
  destruct (safe_load _) as [[ | b | z | s | l | frontmatter]|[ | | | | m]];
    try discriminate; try (intros H; injection H as <-; reflexivity).
  rewrite validate_fields_eq. intros H.
  apply bind_ok in H. destruct H as [field_errors [H Hfm]]. injection Hfm as <-.
  apply bind_ok in H. destruct H as [name_errors [Hn H]].
  apply bind_ok in H. destruct H as [description_errors [Hd H]]. injection H as <-.
  cbn [snd Datatypes.app]. rewrite !filter_app.
  rewrite (validate_skill_name_not_about_lines _ _ _ Hn),
    (validate_description_not_about_lines _ _ Hd).
  unfold Rules.compatibility_check.
  destruct (dict_get "compatibility" frontmatter) as [compat|]; [|reflexivity].
  destruct (500 <? String.length (str_of py_str compat)); reflexivity.
Qed.

Lemma filter_nil_not_in (P : ValidationError -> bool) (l : list ValidationError)
    (v : ValidationError) :
  filter P l = [] -> P v = true -> ~ In v l.
Proof.
  intros Hf Hv Hin.
  assert (H : In v (filter P l)) by (apply filter_In; auto).
  rewrite Hf in H. destruct H.
Qed.

(** X21: [len(content.split('\n'))] counts one more than the lines of a
    manifest whose lines each end in a newline, so such a manifest gets
    the line-count warning from 500 lines on, and the count it reports
    is the number of lines plus one. *)
Theorem line_warning_from_500_lines
    (fs : node) (sp : path) (lines : list string) (x : bool)
    (errors : list ValidationError) :
  Forall (fun l => PyStr.contains PyStr.nl l = false) lines ->
  Path.lookup fs (sp ++ ["SKILL.md"]) = Some (File (InitSkill.unlines lines) x) ->
  validate_skill_md safe_load py_str fs sp = Ok errors ->
  (In (Msg.too_many_lines (S (length lines))) errors <-> 500 <= length lines).
Proof.
  intros Hlines Hl Hv.
  rewrite (validate_skill_md_on_file _ _ _ _ _ _ Hl) in Hv.
  apply bind_ok in Hv. destruct Hv as [fm [Hfm Hv]]. injection Hv as <-.
  pose proof (validate_frontmatter_not_about_lines _ _ _ Hfm) as Hno.
  unfold body_warnings. rewrite (count_lines_unlines lines Hlines).
  rewrite in_app_iff, in_app_iff.
  destruct (500 <? S (length lines)) eqn:H500;
    [apply Nat.ltb_lt in H500 | apply Nat.ltb_ge in H500].
  - split; [lia|]. intros _. right. left. left. reflexivity.
  - split; [|lia]. intros [H | [[] | H]].
    + exfalso.
      apply (filter_nil_not_in about_lines (snd fm)
               (Msg.too_many_lines (S (length lines))) Hno); [reflexivity | exact H].
    + destruct (_ || _); [|destruct H].
      destruct H as [H | []]. discriminate H.
Qed.

End Lines.

Lemma line_warning_from_500_lines_witness :
  Forall (fun l => PyStr.contains PyStr.nl l = false) five_hundred_lines
  /\ Path.lookup five_hundred_lines_fs (["skills"; "long"] ++ ["SKILL.md"])
     = Some (File (InitSkill.unlines five_hundred_lines) false)
  /\ validate_skill_md (loader_of []) (fun _ => "") five_hundred_lines_fs ["skills"; "long"]
     = Ok [Msg.frontmatter_start; Msg.too_many_lines 501]
  /\ (In (Msg.too_many_lines (S (length five_hundred_lines)))
         [Msg.frontmatter_start; Msg.too_many_lines 501]
      <-> 500 <= length five_hundred_lines).
Proof.
  assert (H1 : Forall (fun l => PyStr.contains PyStr.nl l = false) five_hundred_lines).
  { apply Forall_forall. intros l Hl. apply repeat_spec in Hl. subst l. reflexivity. }
  assert (H2 : validate_skill_md (loader_of []) (fun _ => "") five_hundred_lines_fs
                 ["skills"; "long"]
               = Ok [Msg.frontmatter_start; Msg.too_many_lines 501])
    by (vm_compute; reflexivity).
  split; [exact H1|]. split; [reflexivity|]. split; [exact H2|].
  exact (line_warning_from_500_lines (loader_of []) (fun _ => "") five_hundred_lines_fs
           ["skills"; "long"] five_hundred_lines false _ H1 eq_refl H2).
Defined.

(** ** The resources argument of [init_skill.py] *)

Section Resources.

Import InitCli.

Lemma split_not_nil (sep : ascii) (s : string) : split sep s <> [].
Proof.
  destruct s as [|c s]; cbn; [discriminate|].
  destruct (Ascii.eqb c sep); [discriminate|].
  destruct (split sep s); discriminate.
Qed.

Lemma split_no_sep (sep : ascii) (s : string) :
  PyStr.all_chars (fun c => negb (Ascii.eqb c sep)) s = true -> split sep s = [s].
Proof.
  induction s as [|c s IH]; cbn; [reflexivity|].
  intros H. apply andb_true_iff in H. destruct H as [Hc Hs].
  apply negb_true_iff in Hc. rewrite Hc, (IH Hs). reflexivity.
Qed.

Lemma split_append (sep : ascii) (a b : string) :
  PyStr.all_chars (fun c => negb (Ascii.eqb c sep)) a = true ->
  split sep (a ++ String sep b) = a :: split sep b.
Proof.
  induction a as [|c a IH]; cbn.
  - intros _. rewrite Ascii.eqb_refl. reflexivity.
  - intros H. apply andb_true_iff in H. destruct H as [Hc Ha].
    apply negb_true_iff in Hc. rewrite Hc, (IH Ha). reflexivity.
Qed.

(** Splitting undoes joining, for pieces without the separator. *)
Lemma split_join (l : list string) :
  l <> [] ->
  Forall (fun r => PyStr.all_chars (fun c => negb (Ascii.eqb c ","%char)) r = true) l ->
  split ","%char (PyStr.join "," l) = l.
Proof.
  intros Hne Hl. induction Hl as [|r l Hr Hl IH]; [congruence|].
  destruct l as [|r' l].
  - cbn [PyStr.join]. apply split_no_sep. exact Hr.
  - change (PyStr.join "," (r :: r' :: l)) with (r ++ String ","%char (PyStr.join "," (r' :: l)))%string.
    rewrite (split_append _ _ _ Hr), IH; [reflexivity | discriminate].
Qed.

(** X22: a list of resource names given as the command line should give
    it, the names joined by commas, each not empty, without a comma and
    without whitespace at its ends, is read back as it was given. *)
Theorem parse_resources_join (l : list string) :
  Forall clean l -> parse_resources (PyStr.join "," l) = l.
Proof.
  intros Hl. unfold parse_resources.
  destruct l as [|r l]; [reflexivity|].
  rewrite split_join; [|discriminate|].
  - induction Hl as [|x l' [Hne [_ Hs]] _ IH]; [reflexivity|].
    cbn [filter map]. rewrite Hs.
    apply String.eqb_neq in Hne. rewrite Hne. cbn [negb map]. rewrite Hs, IH. reflexivity.
  - apply Forall_impl with (2 := Hl). intros x [_ [Hx _]]. exact Hx.
Qed.

Lemma rstrip_cons (c : ascii) (s : string) :
  rstrip (String c s)
  = match rstrip s with
    | EmptyString => if PyStr.is_space c then "" else String c ""
    | t => String c t
    end.
Proof. reflexivity. Qed.

Lemma rstrip_idem (s : string) : rstrip (rstrip s) = rstrip s.
Proof.
  induction s as [|c s IH]; [reflexivity|].
  rewrite rstrip_cons. destruct (rstrip s) as [|c' t] eqn:Ht.
  - destruct (PyStr.is_space c) eqn:Hc; [reflexivity|]. cbn. rewrite Hc. reflexivity.
  - rewrite rstrip_cons, IH. reflexivity.
Qed.

Lemma lstrip_head (s : string) :
  match lstrip s with
  | EmptyString => True
  | String c _ => PyStr.is_space c = false
  end.
Proof.
  induction s as [|c s IH]; cbn; [exact I|].
  destruct (PyStr.is_space c) eqn:Hc; [exact IH | exact Hc].
Qed.

Lemma rstrip_head (s : string) (c : ascii) (t : string) :
  PyStr.is_space c = false -> exists t', rstrip (String c t) = String c t'.
Proof.
  intros Hc. cbn. destruct (rstrip t); [rewrite Hc|]; eexists; reflexivity.
Qed.

Lemma lstrip_fix (s : string) :
  match s with EmptyString => True | String c _ => PyStr.is_space c = false end ->
  lstrip s = s.
Proof. destruct s as [|c s]; [reflexivity|]. cbn. intros ->. reflexivity. Qed.

(** [strip] leaves a stripped string alone. *)
Lemma strip_idem (s : string) : strip (strip s) = strip s.
Proof.
  unfold strip.
  assert (H : lstrip (rstrip (lstrip s)) = rstrip (lstrip s)).
  { apply lstrip_fix. pose proof (lstrip_head s) as Hh.
    destruct (lstrip s) as [|c t]; [exact I|].
    destruct (rstrip_head (String c t) c t Hh) as [t' ->]. exact Hh. }
  rewrite H. apply rstrip_idem.
Qed.

Lemma split_pieces_no_sep (sep : ascii) (s : string) :
  Forall (fun r => PyStr.all_chars (fun c => negb (Ascii.eqb c sep)) r = true) (split sep s).
Proof.
  induction s as [|c s IH]; cbn.
  - constructor; [reflexivity | constructor].
  - destruct (Ascii.eqb c sep) eqn:Hc.
    + constructor; [reflexivity | exact IH].
    + destruct (split sep s) as [|piece pieces]; constructor.
      * cbn. rewrite Hc. reflexivity.
      * constructor.
      * inversion IH; subst. cbn. rewrite Hc. assumption.
      * inversion IH; subst. assumption.
Qed.

Lemma all_chars_lstrip (f : ascii -> bool) (s : string) :
  PyStr.all_chars f s = true -> PyStr.all_chars f (lstrip s) = true.
Proof.
  induction s as [|c s IH]; cbn; [reflexivity|]. intros H.
  destruct (PyStr.is_space c); [|exact H].
  apply andb_true_iff in H. destruct H as [_ H]. apply IH. exact H.
Qed.

Lemma all_chars_rstrip (f : ascii -> bool) (s : string) :
  PyStr.all_chars f s = true -> PyStr.all_chars f (rstrip s) = true.
Proof.
  induction s as [|c s IH]; cbn [rstrip PyStr.all_chars]; [reflexivity|]. intros H.
  apply andb_true_iff in H. destruct H as [Hc H]. specialize (IH H).
  destruct (rstrip s) as [|c' t].
  - destruct (PyStr.is_space c); [reflexivity|]. cbn. rewrite Hc. reflexivity.
  - cbn [PyStr.all_chars]. rewrite Hc. exact IH.
Qed.

(** X23: whatever the argument, every name handed to [init_skill] is
    not empty, has no comma, and has no whitespace at either end: empty
    entries are dropped and the others stripped. *)
Theorem parse_resources_clean (resources : string) :
  Forall clean (parse_resources resources).
Proof.
  unfold parse_resources. apply Forall_forall. intros r Hin.
  apply in_map_iff in Hin. destruct Hin as [piece [<- Hin]].
  apply filter_In in Hin. destruct Hin as [Hin Hne].
  apply negb_true_iff, String.eqb_neq in Hne.
  split; [exact Hne|]. split; [|apply strip_idem].
  unfold strip. apply all_chars_rstrip, all_chars_lstrip.
  pose proof (split_pieces_no_sep ","%char resources) as H.
  rewrite Forall_forall in H. apply H. exact Hin.
Qed.

End Resources.

Lemma parse_resources_join_witness :
  Forall InitCli.clean ["scripts"; "references"]
  /\ InitCli.parse_resources (PyStr.join "," ["scripts"; "references"])
     = ["scripts"; "references"].
Proof.
  assert (H : Forall InitCli.clean ["scripts"; "references"])
    by (repeat constructor; discriminate).
  split; [exact H|].
  exact (parse_resources_join ["scripts"; "references"] H).
Defined.
